(** * Intake-config and output-package validators of the
      public-site design system modernizer skill

    A shallow embedding of [scripts/validate_intake_config.py], of
    [scripts/validate_output_package.py] and of the two helpers of
    [scripts/render_run_plan.py], and the properties that the
    specification states about them.

    Layout: Python values and the operations the scripts use on them
    ([Py]); the shared error/warning lists as a state-and-exception monad
    ([Findings]); the intake-config validators and their [main]
    ([Intake]); the output-package checker ([Package]); the helpers of the
    run-plan renderer ([RunPlan]); then the lemmas. *)

From Stdlib Require Import ZArith QArith Lqa Floats.SpecFloat Ascii String.
From stdpp Require Import gmap strings list sorting pretty.

Set Warnings "-register-all".

Local Open Scope string_scope.
Local Open Scope list_scope.

(** ** Python values *)

Module Py.

(** A Python number that is not a [bool]: an unbounded [int], or a
    [float] (IEEE binary64: signed zeros, infinities, NaN, or
    [(-1)^s * m * 2^e]). *)
Inductive number : Type :=
| NInt (z : Z)
| NFloat (f : spec_float).

(** What [json.load] can return.  A [str] is the sequence of the bytes of
    its UTF-8 encoding, a [dict] is a finite map with [str] keys. *)
Inductive json : Type :=
| JNull
| JBool (b : bool)
| JInt (z : Z)
| JFloat (f : spec_float)
| JStr (s : string)
| JList (l : list json)
| JDict (d : gmap string json).

(** The exceptions that the operations below can raise.  [ReadFailure]
    stands for what [Path.read_text] raises on a path that exists and
    whose text cannot be read ([IsADirectoryError], [PermissionError],
    [UnicodeDecodeError], ...), with the text of the exception. *)
Inductive exn : Type :=
| TypeError
| KeyError (key : string)
| AttributeError
| FileNotFoundError (path : string)
| ReadFailure (message : string).

(** [isinstance(v, T)].  [bool] is a subclass of [int] in Python, so
    [isinstance(True, int)] holds. *)
Definition isinstance_bool (v : json) : bool :=
  match v with JBool _ => true | _ => false end.
Definition isinstance_int (v : json) : bool :=
  match v with JInt _ | JBool _ => true | _ => false end.
Definition isinstance_float (v : json) : bool :=
  match v with JFloat _ => true | _ => false end.
Definition isinstance_str (v : json) : bool :=
  match v with JStr _ => true | _ => false end.
Definition isinstance_list (v : json) : bool :=
  match v with JList _ => true | _ => false end.
Definition isinstance_dict (v : json) : bool :=
  match v with JDict _ => true | _ => false end.

(** [v is True], [v is False], [v is None]. *)
Definition is_True (v : json) : bool :=
  match v with JBool true => true | _ => false end.
Definition is_False (v : json) : bool :=
  match v with JBool false => true | _ => false end.
Definition is_None (v : json) : bool :=
  match v with JNull => true | _ => false end.

(** [bool(v)]: the truth value of [v] in a condition. *)
Definition truthy (v : json) : bool :=
  match v with
  | JNull => false
  | JBool b => b
  | JInt z => negb (z =? 0)%Z
  | JFloat (S754_zero _) => false
  | JFloat _ => true
  | JStr s => negb (String.eqb s "")
  | JList l => match l with [] => false | _ => true end
  | JDict d => negb (bool_decide (d = ∅))
  end.

(** [key in d] and [d.get(key)] on a dict. *)
Definition contains_key (d : gmap string json) (key : string) : bool :=
  bool_decide (is_Some (d !! key)).
Definition dict_get (d : gmap string json) (key : string) : json :=
  default JNull (d !! key).

(** *** Numbers and their comparison

    Python compares an [int] with a [float], and two [float]s, by their
    exact mathematical values; every comparison with NaN is false. *)
Inductive xreal : Type :=
| XNaN
| XNegInf
| XFin (q : Q)
| XPosInf.

Definition float_value (f : spec_float) : xreal :=
  match f with
  | S754_zero _ => XFin 0
  | S754_infinity s => if s then XNegInf else XPosInf
  | S754_nan => XNaN
  | S754_finite s m e =>
      XFin ((if s then -1 else 1) * inject_Z (Z.pos m) * Qpower 2 e)
  end.

Definition number_value (n : number) : xreal :=
  match n with
  | NInt z => XFin (inject_Z z)
  | NFloat f => float_value f
  end.

Definition xlt (a b : xreal) : bool :=
  match a, b with
  | XNaN, _ | _, XNaN => false
  | XNegInf, XNegInf => false
  | XNegInf, _ => true
  | _, XNegInf => false
  | XPosInf, _ => false
  | XFin _, XPosInf => true
  | XFin p, XFin q => match Qcompare p q with Lt => true | _ => false end
  end.

(** The number that a value is when it takes part in a comparison;
    [True] and [False] count as 1 and 0. *)
Definition as_number (v : json) : option number :=
  match v with
  | JBool b => Some (NInt (if b then 1 else 0))
  | JInt z => Some (NInt z)
  | JFloat f => Some (NFloat f)
  | _ => None
  end.

(** [v < n] and [v > n] for a numeric constant [n]: [None] stands for the
    [TypeError] that Python raises when [v] is not a number. *)
Definition lt_number (v : json) (n : number) : option bool :=
  match as_number v with
  | Some x => Some (xlt (number_value x) (number_value n))
  | None => None
  end.
Definition gt_number (v : json) (n : number) : option bool :=
  match as_number v with
  | Some x => Some (xlt (number_value n) (number_value x))
  | None => None
  end.

(** A numeric constant of the source together with the text that an
    f-string renders it with ([1], [0], [0.0], [0.1] print as written). *)
Record literal : Type := Literal { lit_value : number; lit_text : string }.

Definition lit_1 : literal := Literal (NInt 1) "1".
Definition lit_0 : literal := Literal (NInt 0) "0".
(** [0.0] *)
Definition lit_0_0 : literal := Literal (NFloat (S754_zero false)) "0.0".
(** [0.1 = 0x1.999999999999ap-4] *)
Definition lit_0_1 : literal :=
  Literal (NFloat (S754_finite false 7205759403792794 (-56))) "0.1".
(** [0.7 = 0x1.6666666666666p-1] *)
Definition float_0_7 : number :=
  NFloat (S754_finite false 6305039478318694 (-53)).

(** *** Strings

    A [str] is given by the bytes of its UTF-8 encoding.  On them the
    tests against ASCII constants ([startswith], [in], [==]) and the
    code-point order of [sorted] are the ones of the characters. *)

(** [s.startswith(p)] *)
Definition startswith (s p : string) : bool := String.prefix p s.

(** [needle in hay] for two strings. *)
Fixpoint str_contains (needle hay : string) : bool :=
  String.prefix needle hay ||
  match hay with
  | EmptyString => false
  | String _ hay' => str_contains needle hay'
  end.

(** The characters for which [str.isspace] holds, which are the ones
    that [str.strip] removes, by the bytes that encode them:
    U+0009-000D, U+001C-001F and U+0020 (one byte); U+0085 and U+00A0
    (two bytes); U+1680, U+2000-200A, U+2028, U+2029, U+202F, U+205F and
    U+3000 (three bytes). *)
Definition space1 (a : ascii) : bool :=
  let n := N_of_ascii a in
  ((9 <=? n) && (n <=? 13) || (28 <=? n) && (n <=? 32))%N.

Definition space2 (a b : ascii) : bool :=
  let n := N_of_ascii b in
  ((N_of_ascii a =? 194) && ((n =? 133) || (n =? 160)))%N.

Definition space3 (a b c : ascii) : bool :=
  let x := N_of_ascii a in
  let y := N_of_ascii b in
  let n := N_of_ascii c in
  ((x =? 225) && (y =? 154) && (n =? 128)
   || (x =? 226) && (y =? 128)
      && ((128 <=? n) && (n <=? 138) || (n =? 168) || (n =? 169) || (n =? 175))
   || (x =? 226) && (y =? 129) && (n =? 159)
   || (x =? 227) && (y =? 128) && (n =? 128))%N.

(** [s] without the whitespace characters that it starts with.  With
    [forward = false] the bytes of [s] are taken to be in reverse order:
    this is how the end of a string is stripped. *)
Fixpoint skip_spaces (forward : bool) (s : string) : string :=
  match s with
  | String a s1 =>
      if space1 a then skip_spaces forward s1
      else
        match s1 with
        | String b s2 =>
            if (if forward then space2 a b else space2 b a)
            then skip_spaces forward s2
            else
              match s2 with
              | String c s3 =>
                  if (if forward then space3 a b c else space3 c b a)
                  then skip_spaces forward s3
                  else s
              | EmptyString => s
              end
        | EmptyString => s
        end
  | EmptyString => s
  end.

(** [s.lstrip()], [s.rstrip()] and [s.strip()] *)
Definition lstrip (s : string) : string := skip_spaces true s.
Definition rstrip (s : string) : string :=
  String.rev (skip_spaces false (String.rev s)).
Definition strip (s : string) : string := rstrip (lstrip s).

(** [s.lower()] for a string of ASCII characters (other bytes are left
    as they are). *)
Definition lower_char (c : ascii) : ascii :=
  let n := N_of_ascii c in
  if ((65 <=? n) && (n <=? 90))%N then ascii_of_N (n + 32) else c.

Fixpoint lower (s : string) : string :=
  match s with
  | EmptyString => EmptyString
  | String c s' => String (lower_char c) (lower s')
  end.

(** [repr(s)] of a string without quotes, backslashes or control
    characters, and [repr(l)] of a list of such strings. *)
Definition repr_str (s : string) : string := "'" +:+ s +:+ "'".
Definition repr_list (l : list string) : string :=
  "[" +:+ String.concat ", " (repr_str <$> l) +:+ "]".

(** *** Sets of strings

    A [set] of strings is listed in its iteration order, which depends on
    the string-hash seed of the interpreter process.  [sorted] puts it in
    code-point order. *)
Definition sorted (s : list string) : list string := merge_sort String.le s.

(** [s1.intersection(s2)], in the order of [s1]. *)
Definition intersection (s1 s2 : list string) : list string :=
  filter (λ x, x ∈ s2) s1.

(** The [str] elements of a list; all of them when every element is one. *)
Definition strings_of (l : list json) : list string :=
  omap (λ v, match v with JStr s => Some s | _ => None end) l.

(** [bool(s)] for a set: it is not empty. *)
Definition truthy_set (s : list string) : bool :=
  match s with [] => false | _ => true end.

(** [v == s] for a string constant [s]. *)
Definition eq_str (v : json) (s : string) : bool :=
  match v with JStr x => String.eqb x s | _ => false end.

End Py.

Import Py.

(** ** Effects

    A computation of a script takes the mutable state as it is and returns
    it as it leaves it, together with its value or the exception that it
    raised; what was done to the state before an exception stays done. *)

Module Findings.

Inductive result (A : Type) : Type :=
| Ok (a : A)
| Raise (e : exn).
Arguments Ok {A} a.
Arguments Raise {A} e.

Definition St (S A : Type) : Type := S → result A * S.

Definition ret {S A : Type} (a : A) : St S A := λ st, (Ok a, st).

Definition bind {S A B : Type} (c : St S A) (k : A → St S B) : St S B :=
  λ st, match c st with
        | (Ok a, st') => k a st'
        | (Raise e, st') => (Raise e, st')
        end.

Definition raise {S A : Type} (e : exn) : St S A := λ st, (Raise e, st).

(** [try: c  except Exception as exc: handler(exc)] *)
Definition catch {S A : Type} (c : St S A) (handler : exn → St S A) : St S A :=
  λ st, match c st with
        | (Ok a, st') => (Ok a, st')
        | (Raise e, st') => handler e st'
        end.

#[global] Instance St_ret (S : Type) : MRet (St S) := @ret S.
#[global] Instance St_bind (S : Type) : MBind (St S) := λ A B k c, bind c k.

(** An operation that fails with [e] when it has no value. *)
Definition or_raise {S A : Type} (e : exn) (o : option A) : St S A :=
  match o with Some a => ret a | None => raise e end.

(** [for x in xs: body(x)] *)
Fixpoint for_each {S A : Type} (xs : list A) (body : A → St S unit)
    : St S unit :=
  match xs with
  | [] => ret tt
  | x :: xs' => bind (body x) (λ _, for_each xs' body)
  end.

(** [if c: body] *)
Definition when {S : Type} (c : bool) (body : St S unit) : St S unit :=
  if c then body else ret tt.

(** *** The shared error and warning lists

    Every validator of the intake script receives the same two Python
    lists and appends to them. *)
Record lists : Type := Lists { errors : list string; warnings : list string }.

Definition M : Type → Type := St lists.

#[global] Instance M_ret : MRet M := @ret lists.
#[global] Instance M_bind : MBind M := λ A B k c, bind c k.

(** [errors.append(f"{path}: {message}")] and the same for [warnings]. *)
Definition add_error (path message : string) : M unit :=
  λ st, (Ok tt, Lists (errors st ++ [path +:+ ": " +:+ message]) (warnings st)).

Definition add_warn (path message : string) : M unit :=
  λ st, (Ok tt, Lists (errors st) (warnings st ++ [path +:+ ": " +:+ message])).

(** [d[key]] *)
Definition subscript (d : gmap string json) (key : string) : M json :=
  or_raise (KeyError key) (d !! key).

(** [v.strip()]: only a [str] has the method. *)
Definition call_strip (v : json) : M string :=
  match v with JStr s => ret (strip s) | _ => raise AttributeError end.

(** [needle in v] for a string constant [needle]: substring of a [str],
    element of a [list], key of a [dict]; other values are not
    containers. *)
Definition str_in (needle : string) (v : json) : M bool :=
  match v with
  | JStr s => ret (str_contains needle s)
  | JList l => ret (existsb (λ x, eq_str x needle) l)
  | JDict d => ret (contains_key d needle)
  | _ => raise TypeError
  end.

(** [v in s] for a set [s] of strings: the value is hashed first, and a
    [list] or a [dict] is unhashable. *)
Definition in_set (v : json) (s : list string) : M bool :=
  match v with
  | JList _ | JDict _ => raise TypeError
  | JStr x => ret (bool_decide (x ∈ s))
  | _ => ret false
  end.

(** [v < n] and [v > n] for a numeric constant [n]. *)
Definition py_lt (v : json) (n : number) : M bool :=
  or_raise TypeError (lt_number v n).
Definition py_gt (v : json) (n : number) : M bool :=
  or_raise TypeError (gt_number v n).

(** [errors = []] and [warnings = []] *)
Definition no_findings : lists := Lists [] [].

(** The lists after appending [d]'s entries to [st]'s. *)
Definition extend (st d : lists) : lists :=
  Lists (errors st ++ errors d) (warnings st ++ warnings d).

End Findings.

Import Findings.

(** ** validate_intake_config.py *)

Module Intake.

Section Validators.

(** [py_set l] is the set built from the elements [l], listed in the
    iteration order that the running interpreter gives it. *)
Variable py_set : list string → list string.

Definition ALLOWED_AUDIENCES : list string :=
  py_set ["designer"; "developer"; "both"].
Definition ALLOWED_INTENDED_USE : list string :=
  py_set ["internal_exploration"; "client_work"; "rebuild_baseline"].
Definition ALLOWED_CRAWL_MODES : list string :=
  py_set ["representative_sample"; "bounded_full"; "custom_urls"; "sitemap"].
Definition ALLOWED_FALLBACKS : list string :=
  py_set ["suggest_candidates"; "mark_unknown"; "infer_ranges"].
Definition DEFAULT_EXCLUDE_HINTS : list string :=
  py_set ["/legal"; "/privacy"; "/terms"; "/careers"; "/login"].

Definition is_http_url (value : json) : bool :=
  match value with
  | JStr s => startswith s "http://" || startswith s "https://"
  | _ => false
  end.

Definition expect_bool (obj : gmap string json) (key path : string) : M unit :=
  if negb (contains_key obj key) then
    add_error (path +:+ "." +:+ key) "missing required boolean"
  else
    v ← subscript obj key;
    when (negb (isinstance_bool v))
      (add_error (path +:+ "." +:+ key) "must be boolean").

Definition expect_number (obj : gmap string json) (key path : string)
    (minimum : option literal) (integer : bool) : M unit :=
  if negb (contains_key obj key) then
    add_error (path +:+ "." +:+ key) "missing required number"
  else
    value ← subscript obj key;
    let ok_type := isinstance_int value && negb (isinstance_bool value) in
    let ok_type :=
      if negb integer then ok_type || isinstance_float value else ok_type in
    if negb ok_type then
      add_error (path +:+ "." +:+ key) "must be a number"
    else
      match minimum with
      | None => mret tt
      | Some m =>
          below ← py_lt value (lit_value m);
          when below
            (add_error (path +:+ "." +:+ key) ("must be >= " +:+ lit_text m))
      end.

Definition validate_project (cfg : gmap string json) : M unit :=
  match dict_get cfg "project" with
  | JDict project =>
      bad_name ←
        (if negb (isinstance_str (dict_get project "name")) then mret true
         else
           name ← subscript project "name";
           stripped ← call_strip name;
           mret (negb (truthy (JStr stripped))));
      when bad_name (add_error "project.name" "must be a non-empty string");;
      let source_url := dict_get project "source_url" in
      (if negb (is_http_url source_url) then
         add_error "project.source_url" "must be a public http(s) URL"
       else
         is_local ←
           (l ← str_in "localhost" source_url;
            if l : bool then mret true else str_in "127.0.0.1" source_url);
         when is_local
           (add_warn "project.source_url"
              "looks local/private; this skill is for public websites only"));;
      let audience := dict_get project "output_audience" in
      known ← in_set audience ALLOWED_AUDIENCES;
      when (negb known)
        (add_error "project.output_audience"
           ("must be one of " +:+ repr_list (sorted ALLOWED_AUDIENCES)));;
      let intended := dict_get project "intended_use" in
      known ← in_set intended ALLOWED_INTENDED_USE;
      when (negb known)
        (add_error "project.intended_use"
           ("must be one of " +:+ repr_list (sorted ALLOWED_INTENDED_USE)))
  | _ => add_error "project" "missing required object"
  end.

Definition validate_scope (cfg : gmap string json) : M unit :=
  match dict_get cfg "scope" with
  | JDict scope =>
      let crawl_mode := dict_get scope "crawl_mode" in
      known ← in_set crawl_mode ALLOWED_CRAWL_MODES;
      when (negb known)
        (add_error "scope.crawl_mode"
           ("must be one of " +:+ repr_list (sorted ALLOWED_CRAWL_MODES)));;
      expect_number scope "max_pages" "scope" (Some lit_1) true;;
      expect_number scope "max_depth" "scope" (Some lit_0) true;;
      expect_bool scope "include_subdomains" "scope";;
      expect_bool scope "respect_robots_txt" "scope";;
      expect_number scope "crawl_delay_ms" "scope" (Some lit_0) true;;
      expect_number scope "requests_per_second" "scope" (Some lit_0_1) false;;
      (match dict_get scope "exclude_paths" with
       | JList exclude_paths =>
           if negb (forallb isinstance_str exclude_paths) then
             add_error "scope.exclude_paths" "must be a list of strings"
           else
             when (negb (truthy_set
                           (intersection DEFAULT_EXCLUDE_HINTS
                              (py_set (strings_of exclude_paths)))))
               (add_warn "scope.exclude_paths"
                  "does not include common low-value paths (/legal,/privacy,/terms,/careers,/login)")
       | _ => add_error "scope.exclude_paths" "must be a list of strings"
       end);;
      (if eq_str crawl_mode "custom_urls" then
         let urls := dict_get scope "custom_urls" in
         match urls with
         | JList entries =>
             if negb (truthy urls) then
               add_error "scope.custom_urls"
                 "required non-empty list when crawl_mode=custom_urls"
             else
               when (negb (forallb is_http_url entries))
                 (add_error "scope.custom_urls"
                    "all entries must be http(s) URLs")
         | _ =>
             add_error "scope.custom_urls"
               "required non-empty list when crawl_mode=custom_urls"
         end
       else
         when (contains_key scope "custom_urls"
               && truthy (dict_get scope "custom_urls"))
           (add_warn "scope.custom_urls" "ignored unless crawl_mode=custom_urls"));;
      (if eq_str crawl_mode "sitemap" then
         let sitemap_url := dict_get scope "sitemap_url" in
         when (negb (is_http_url sitemap_url))
           (add_error "scope.sitemap_url"
              "required http(s) URL when crawl_mode=sitemap")
       else
         when (contains_key scope "sitemap_url"
               && truthy (dict_get scope "sitemap_url"))
           (add_warn "scope.sitemap_url" "ignored unless crawl_mode=sitemap"))
  | _ => add_error "scope" "missing required object"
  end.

Definition validate_capture (cfg : gmap string json) : M unit :=
  match dict_get cfg "capture" with
  | JDict capture =>
      (match dict_get capture "screenshots" with
       | JDict screenshots =>
           for_each ["desktop"; "mobile"; "tablet"] (λ key,
             if contains_key screenshots key then
               v ← subscript screenshots key;
               when (negb (isinstance_bool v))
                 (add_error ("capture.screenshots." +:+ key) "must be boolean")
             else mret tt);;
           when (negb (is_True (dict_get screenshots "desktop")))
             (add_error "capture.screenshots.desktop" "must be true (required)");;
           when (negb (is_True (dict_get screenshots "mobile")))
             (add_warn "capture.screenshots.mobile"
                "recommended true for better visual hierarchy coverage")
       | _ => add_error "capture.screenshots" "missing required object"
       end);;
      for_each ["html"; "css"; "text"; "asset_metadata"; "component_candidates"]
        (λ key, expect_bool capture key "capture");;
      (if contains_key capture "computed_css_samples" then
         v ← subscript capture "computed_css_samples";
         when (negb (isinstance_bool v))
           (add_error "capture.computed_css_samples" "must be boolean if provided")
       else mret tt);;
      when (is_False (dict_get capture "css"))
        (add_warn "capture.css" "disabling CSS reduces token extraction quality");;
      when (is_False (dict_get capture "text"))
        (add_warn "capture.text"
           "disabling text reduces voice DNA extraction quality")
  | _ => add_error "capture" "missing required object"
  end.

Definition validate_quality (cfg : gmap string json) : M unit :=
  match dict_get cfg "quality" with
  | JDict quality =>
      expect_number quality "canonical_token_confidence_threshold" "quality"
        (Some lit_0_0) false;;
      let threshold := dict_get quality "canonical_token_confidence_threshold" in
      (if (isinstance_int threshold || isinstance_float threshold)
          && negb (isinstance_bool threshold)
       then
         over ← py_gt threshold (NInt 1);
         if over : bool then
           add_error "quality.canonical_token_confidence_threshold" "must be <= 1"
         else
           under ← py_lt threshold float_0_7;
           when under
             (add_warn "quality.canonical_token_confidence_threshold"
                "below recommended default 0.70")
       else mret tt);;
      let fallback := dict_get quality "low_confidence_fallback" in
      known ← in_set fallback ALLOWED_FALLBACKS;
      when (negb known)
        (add_error "quality.low_confidence_fallback"
           ("must be one of " +:+ repr_list (sorted ALLOWED_FALLBACKS)));;
      for_each
        ["require_contrast_checks"; "require_anti_pattern_report";
         "require_pnie_matrix"]
        (λ key, expect_bool quality key "quality")
  | _ => add_error "quality" "missing required object"
  end.

Definition GUARDRAIL_KEYS : list string :=
  ["public_access_confirmed"; "non_clone_intent_confirmed";
   "asset_rights_warning_confirmed"].

Definition validate_guardrails (cfg : gmap string json) : M unit :=
  let mode := dict_get cfg "mode" in
  when (negb (eq_str mode "brand_faithful_modernization"))
    (add_error "mode" "must equal 'brand_faithful_modernization'");;
  let guardrails := dict_get cfg "guardrails" in
  if is_None guardrails then mret tt
  else
    match guardrails with
    | JDict guardrails =>
        for_each GUARDRAIL_KEYS (λ key,
          if contains_key guardrails key then
            v ← subscript guardrails key;
            when (negb (isinstance_bool v))
              (add_error ("guardrails." +:+ key) "must be boolean")
          else mret tt)
    | _ => add_error "guardrails" "must be an object if provided"
    end.

Definition validate_output (cfg : gmap string json) : M unit :=
  let output := dict_get cfg "output" in
  if is_None output then mret tt
  else
    match output with
    | JDict output =>
        let formats := dict_get output "formats" in
        match formats with
        | JDict formats =>
            when (is_False (dict_get formats "markdown")
                  || is_False (dict_get formats "json"))
              (add_warn "output.formats"
                 "markdown and json are required by this skill")
        | _ => mret tt
        end
    | _ => add_warn "output" "should be an object if provided"
    end.

(** The six section validators, in the order in which [main] calls them. *)
Definition base_pass (cfg : gmap string json) : M unit :=
  validate_guardrails cfg;;
  validate_project cfg;;
  validate_scope cfg;;
  validate_capture cfg;;
  validate_quality cfg;;
  validate_output cfg.

(** The body of [if args.strict_guardrails:] in [main]. *)
Definition strict_pass (cfg : gmap string json) : M unit :=
  match dict_get cfg "guardrails" with
  | JDict guardrails =>
      for_each GUARDRAIL_KEYS (λ key,
        when (negb (is_True (dict_get guardrails key)))
          (add_error ("guardrails." +:+ key) "must be true before crawling"))
  | _ => add_error "guardrails" "required when --strict-guardrails is set"
  end.

(** Everything [main] does to the two lists. *)
Definition validation (strict_guardrails : bool) (cfg : gmap string json)
    : M unit :=
  base_pass cfg;;
  when strict_guardrails (strict_pass cfg).

(** How the process ends: [main] returns its exit code after printing the
    lines [stdout], or an exception leaves it (the interpreter then prints
    a traceback on stderr and the exit status is 1). *)
Inductive outcome : Type :=
| Exit (code : Z) (stdout : list string)
| Uncaught (e : exn).

Definition exit_status (o : outcome) : Z :=
  match o with
  | Exit code _ => code
  | Uncaught _ => 1
  end.

(** The lines that [main] prints once the lists are complete, and what it
    returns. *)
Definition report (st : lists) : outcome :=
  let printed :=
    ((λ warning, "WARN: " +:+ warning) <$> warnings st)
    ++ ((λ error, "ERROR: " +:+ error) <$> errors st) in
  if truthy_set (errors st) then
    Exit 1
      (printed ++
       ["Config validation failed (" +:+ pretty (length (errors st))
        +:+ " error(s), " +:+ pretty (length (warnings st)) +:+ " warning(s))"])
  else
    Exit 0
      (printed ++
       ["Config validation passed (" +:+ pretty (length (warnings st))
        +:+ " warning(s))"]).

(** [main], given the flag [--strict-guardrails] and what [load_json] did
    on the config path: the text of the exception it raised, or the value
    it returned. *)
Definition main (strict_guardrails : bool) (loaded : string + json) : outcome :=
  match loaded with
  | inl exc => Exit 1 ["ERROR: failed to read JSON: " +:+ exc]
  | inr (JDict cfg) =>
      match validation strict_guardrails cfg no_findings with
      | (Ok _, st) => report st
      | (Raise e, _) => Uncaught e
      end
  | inr _ => Exit 1 ["ERROR: config must be a top-level JSON object"]
  end.

End Validators.

(** Two interpreters: one whose sets iterate in the order of the literal,
    one in the opposite order. *)
Definition set_in_order (l : list string) : list string := remove_dups l.
Definition set_reversed (l : list string) : list string :=
  reverse (remove_dups l).

(** [py_set] lists every element of the set exactly once. *)
Definition set_builder (py_set : list string → list string) : Prop :=
  ∀ l, py_set l ≡ₚ remove_dups l.

End Intake.

(** ** validate_output_package.py *)

Module Package.

Definition REQUIRED_PATHS : list string :=
  ["reports/executive-summary.md";
   "reports/source-audit.md";
   "reports/brand-dna.md";
   "reports/accessibility-audit.md";
   "reports/preserve-normalize-improve-exclude.md";
   "tokens/tokens.json";
   "tokens/tokens.css";
   "tokens/tailwind.theme.js";
   "components/component-library-spec.md";
   "components/component-contracts.json";
   "patterns/page-template-patterns.md";
   "evidence/crawl-manifest.json";
   "evidence/page-weights.json";
   "evidence/extraction-confidence.json"].

(** What a run of [main] changes: its two local lists, the lines printed,
    and the paths that [read_text] was called on, in the order of the
    calls. *)
Record world : Type := World {
  errors : list string;
  warnings : list string;
  stdout : list string;
  reads : list string
}.

Definition start : world := World [] [] [] [].

(** What is at a path that exists: a file whose bytes are the UTF-8
    encoding of a text, or something whose text cannot be read (a
    directory, a file without read permission, bytes that are not UTF-8);
    [read_text] then raises an exception with the given text. *)
Inductive entry : Type :=
| File (text : string)
| Unreadable (message : string).

Definition IO : Type → Type := St world.

#[global] Instance IO_ret : MRet IO := @ret world.
#[global] Instance IO_bind : MBind IO := λ A B k c, bind c k.

Definition append_error (msg : string) : IO unit :=
  λ w, (Ok tt, World (errors w ++ [msg]) (warnings w) (stdout w) (reads w)).
Definition append_warning (msg : string) : IO unit :=
  λ w, (Ok tt, World (errors w) (warnings w ++ [msg]) (stdout w) (reads w)).
Definition print (line : string) : IO unit :=
  λ w, (Ok tt, World (errors w) (warnings w) (stdout w ++ [line]) (reads w)).
Definition the_errors : IO (list string) := λ w, (Ok (errors w), w).
Definition the_warnings : IO (list string) := λ w, (Ok (warnings w), w).

(** [str(exc)] of an exception caught in [parse_json]. *)
Definition str_exn (exc : exn) : string :=
  match exc with
  | FileNotFoundError path =>
      "[Errno 2] No such file or directory: " +:+ repr_str path
  | KeyError key => repr_str key
  | ReadFailure message => message
  | TypeError | AttributeError => ""
  end.

(** [if err:] for [err : str | None] *)
Definition truthy_opt (err : option string) : bool :=
  match err with
  | Some msg => negb (String.eqb msg "")
  | None => false
  end.

Section Checker.

(** [json.loads]: the value decoded from a text, or the text of the
    exception that the decoder raises. *)
Variable json_loads : string → string + json.

(** [str.lower] *)
Variable str_lower : string → string.

(** [str(root / rel)] for the root directory given on the command line. *)
Variable under_root : string → string.

(** What is under the root at the time of the run: the entry at every
    path that exists. *)
Variable fs : gmap string entry.

(** [p.exists()] *)
Definition path_exists (p : string) : bool := bool_decide (is_Some (fs !! p)).

(** [p.read_text(encoding="utf-8")] *)
Definition read_text (p : string) : IO string :=
  λ w,
    (match fs !! p with
     | Some (File text) => Ok text
     | Some (Unreadable message) => Raise (ReadFailure message)
     | None => Raise (FileNotFoundError p)
     end,
     World (errors w) (warnings w) (stdout w) (reads w ++ [p])).

(** [parse_json]: the pair [(data, err)], with [None] as [JNull] for the
    data. *)
Definition parse_json (path : string) : IO (json * option string) :=
  catch
    (text ← read_text path;
     match json_loads text with
     | inr data => mret (data, None)
     | inl msg => mret (JNull, Some msg)
     end)
    (λ exc, mret (JNull, Some (str_exn exc))).

Definition require_keys (obj : gmap string json) (keys : list string)
    (path : string) : IO unit :=
  let missing := List.filter (λ k, negb (contains_key obj k)) keys in
  when (truthy_set missing)
    (append_error (path +:+ ": missing keys " +:+ repr_list missing)).

Definition main : IO Z :=
  for_each REQUIRED_PATHS (λ rel,
    let p := under_root rel in
    when (negb (path_exists p))
      (append_error ("Missing required file: " +:+ p)));;
  errs ← the_errors;
  if truthy_set errs then
    for_each errs (λ msg, print ("ERROR: " +:+ msg));;
    print ("Validation failed (" +:+ pretty (length errs)
           +:+ " missing required files)");;
    mret 1%Z
  else
    let tokens_json := under_root "tokens/tokens.json" in
    '(data, err) ← parse_json tokens_json;
    (if truthy_opt err then
       append_error (tokens_json +:+ ": invalid JSON (" +:+ default "" err +:+ ")")
     else
       match data with
       | JDict data =>
           let expected_top :=
             ["color"; "typography"; "spacing"; "radius"; "shadow"; "border";
              "motion"; "layout"] in
           let missing :=
             List.filter (λ k, negb (contains_key data k)) expected_top in
           when (truthy_set missing)
             (append_warning
                (tokens_json +:+ ": missing recommended token groups "
                 +:+ repr_list missing))
       | _ => append_error (tokens_json +:+ ": expected top-level object")
       end);;
    let manifest_json := under_root "evidence/crawl-manifest.json" in
    '(data, err) ← parse_json manifest_json;
    (if truthy_opt err then
       append_error (manifest_json +:+ ": invalid JSON (" +:+ default "" err +:+ ")")
     else
       match data with
       | JDict data =>
           require_keys data ["source_url"; "crawl_mode"; "pages"] manifest_json
       | _ => append_error (manifest_json +:+ ": expected top-level object")
       end);;
    let page_weights_json := under_root "evidence/page-weights.json" in
    '(data, err) ← parse_json page_weights_json;
    (if truthy_opt err then
       append_error
         (page_weights_json +:+ ": invalid JSON (" +:+ default "" err +:+ ")")
     else
       match data with
       | JDict data => require_keys data ["clusters"; "pages"] page_weights_json
       | _ => append_error (page_weights_json +:+ ": expected top-level object")
       end);;
    let confidence_json := under_root "evidence/extraction-confidence.json" in
    '(data, err) ← parse_json confidence_json;
    (if truthy_opt err then
       append_error
         (confidence_json +:+ ": invalid JSON (" +:+ default "" err +:+ ")")
     else
       match data with
       | JDict data => require_keys data ["threshold"] confidence_json
       | _ => append_error (confidence_json +:+ ": expected top-level object")
       end);;
    pnie ← read_text (under_root "reports/preserve-normalize-improve-exclude.md");
    let expected_terms := ["Preserve"; "Normalize"; "Improve"; "Exclude"] in
    for_each expected_terms (λ term,
      when (negb (str_contains term pnie))
        (append_warning ("PNIE report does not mention '" +:+ term +:+ "'")));;
    summary ← read_text (under_root "reports/executive-summary.md");
    let non_derivative_markers :=
      ["not a clone"; "brand-faithful"; "normalize"; "must not be copied"] in
    when (negb (existsb (λ marker, str_contains marker (str_lower summary))
                  (str_lower <$> non_derivative_markers)))
      (append_warning
         "Executive summary may be missing explicit non-derivative guardrail language");;
    errs ← the_errors;
    warns ← the_warnings;
    when (truthy_set errs) (for_each errs (λ msg, print ("ERROR: " +:+ msg)));;
    for_each warns (λ msg, print ("WARN: " +:+ msg));;
    if truthy_set errs then
      print ("Validation failed (" +:+ pretty (length errs) +:+ " error(s), "
             +:+ pretty (length warns) +:+ " warning(s))");;
      mret 1%Z
    else
      print ("Validation passed with " +:+ pretty (length warns)
             +:+ " warning(s)");;
      mret 0%Z.

(** The exit status of the process: what [main] returns, or 1 when an
    exception leaves it. *)
Definition exit_status (r : result Z) : Z :=
  match r with
  | Ok code => code
  | Raise _ => 1
  end.

End Checker.

End Package.

(** ** render_run_plan.py *)

Module RunPlan.

(** The exceptions that the two helpers of the renderer can raise. *)
Inductive error : Type :=
| AttributeError
| TypeError
| ValueError
| OverflowError.

(** The result of a call: the value returned or the exception raised. *)
Inductive raises (A : Type) : Type :=
| Done (a : A)
| Raised (e : error).
Arguments Done {A} a.
Arguments Raised {A} e.

Definition and_then {A B : Type} (c : raises A) (k : A → raises B) : raises B :=
  match c with
  | Done a => k a
  | Raised e => Raised e
  end.

(** [v.get(key, dflt)]: only a [dict] has the method. *)
Definition get_or (v : json) (key : string) (dflt : json) : raises json :=
  match v with
  | JDict d => Done (default dflt (d !! key))
  | _ => Raised AttributeError
  end.

(** [config.get(key, {})] on the top-level object. *)
Definition section (config : gmap string json) (key : string) : json :=
  default (JDict ∅) (config !! key).

(** [a or b] *)
Definition py_or (a b : json) : json := if truthy a then a else b.

(** [int(f)] for a float: truncation towards zero. *)
Definition int_of_float (f : spec_float) : raises Z :=
  match f with
  | S754_zero _ => Done 0%Z
  | S754_infinity _ => Raised OverflowError
  | S754_nan => Raised ValueError
  | S754_finite s m e =>
      let magnitude := Z.shiftl (Z.pos m) e in
      Done (if s then (- magnitude)%Z else magnitude)
  end.

(** [v.values()]: only a [dict] has the method. *)
Definition values (v : json) : raises (list json) :=
  match v with
  | JDict d => Done ((map_to_list d).*2)
  | _ => Raised AttributeError
  end.

(** The rank of a workload class. *)
Definition class_rank (cls : string) : nat :=
  if String.eqb cls "fast" then 0
  else if String.eqb cls "medium" then 1 else 2.

Section Helpers.

(** [int(s)] for a string: the integer that the text denotes, or [None]
    when the call raises [ValueError]. *)
Variable int_of_str : string → option Z.

(** [str(v)] for a value decoded from JSON. *)
Variable py_str : json → string.

(** [int(v)] *)
Definition py_int (v : json) : raises Z :=
  match v with
  | JInt z => Done z
  | JBool b => Done (if b then 1%Z else 0%Z)
  | JFloat f => int_of_float f
  | JStr s =>
      match int_of_str s with
      | Some z => Done z
      | None => Raised ValueError
      end
  | JNull | JList _ | JDict _ => Raised TypeError
  end.

Definition workload_class (config : gmap string json) (url_count : Z)
    : raises string :=
  and_then (get_or (section config "scope") "max_pages"
              (py_or (JInt url_count) (JInt 0))) (λ configured,
  and_then (py_int (py_or configured (JInt 0))) (λ max_pages,
  and_then (get_or (section config "capture") "screenshots" (JDict ∅))
    (λ screenshots,
  and_then (values screenshots) (λ vs,
  let screenshot_modes := length (List.filter truthy vs) in
  let score := Z.max max_pages url_count in
  let score := (score + if (2 <=? screenshot_modes)%nat then 5 else 0)%Z in
  and_then (get_or (section config "scope") "crawl_mode" JNull) (λ crawl_mode,
  let score := (score + if eq_str crawl_mode "bounded_full" then 5 else 0)%Z in
  if (score <=? 15)%Z then Done "fast"
  else if (score <=? 50)%Z then Done "medium"
  else Done "heavy"))))).

Definition normalize_urls (url_data : json) : raises (list string) :=
  match url_data with
  | JNull => Done []
  | JList urls => Done (py_str <$> urls)
  | JDict d =>
      match dict_get d "urls" with
      | JList urls => Done (py_str <$> urls)
      | _ =>
          match dict_get d "pages" with
          | JList pages =>
              Done (flat_map
                      (λ p, match p with
                            | JDict p =>
                                if truthy (dict_get p "url")
                                then [py_str (dict_get p "url")] else []
                            | _ => []
                            end) pages)
          | _ => Raised ValueError
          end
      end
  | _ => Raised ValueError
  end.

End Helpers.

End RunPlan.

(** ** Vocabulary of the statements *)

Import Intake.

(** [c] returns or raises [r] after appending exactly the entries [d],
    whatever the two lists hold when it starts. *)
Definition runs {A : Type} (c : M A) (r : result A) (d : lists) : Prop :=
  ∀ st, c st = (r, extend st d).

(** [c] appends to the lists without looking at them, and its result and
    what it appends satisfy [P]. *)
Definition appends {A : Type} (c : M A) (P : result A → lists → Prop) : Prop :=
  ∃ r d, runs c r d ∧ P r d.

(** One error entry, one warning entry. *)
Definition one_error (path message : string) : lists :=
  Lists [path +:+ ": " +:+ message] [].
Definition one_warning (path message : string) : lists :=
  Lists [] [path +:+ ": " +:+ message].

(** The finding [e] is reported at the field [path]. *)
Definition at_path (path e : string) : bool := String.prefix (path +:+ ": ") e.

(** A value that [expect_number] accepts as a number: an [int] that is
    not a [bool], or, unless an integer is asked for, a [float]. *)
Definition number_type_ok (integer : bool) (v : json) : bool :=
  match v with
  | JInt _ => true
  | JFloat _ => negb integer
  | _ => false
  end.

(** The confirmation keys of a [guardrails] object that are not exactly
    [true], in the order of the source. *)
Definition unconfirmed (g : gmap string json) : list string :=
  List.filter (λ key, negb (is_True (dict_get g key))) GUARDRAIL_KEYS.

(** The confirmation [key] is [false] in [g] and the other two are
    [true]. *)
Definition only_unconfirmed (g : gmap string json) (key : string) : Prop :=
  key ∈ GUARDRAIL_KEYS ∧ g !! key = Some (JBool false) ∧
  ∀ k, k ∈ GUARDRAIL_KEYS → k ≠ key → g !! k = Some (JBool true).

(** The errors and the warnings among [d] that are reported at [path]. *)
Definition errors_at (path : string) (d : lists) : list string :=
  List.filter (at_path path) (errors d).
Definition warnings_at (path : string) (d : lists) : list string :=
  List.filter (at_path path) (warnings d).

(** Whether a computation is required to return, or may also raise. *)
Inductive ending : Type := Returns | ReturnsOrRaises.

Definition ends {A : Type} (m : ending) (r : result A) : Prop :=
  match m with
  | Returns => ∃ a, r = Ok a
  | ReturnsOrRaises => True
  end.

(** [c] ends as [m] says, every error it appends satisfies [PE] and every
    warning [PW]. *)
Definition emits {A : Type} (m : ending) (PE PW : string → Prop) (c : M A)
    : Prop :=
  appends c (λ r d, ends m r ∧ Forall PE (errors d) ∧ Forall PW (warnings d)).

(** [c] appends exactly the errors [es] and the warnings [ws] at [path],
    among whatever it appends elsewhere; [finds_ok] also says that it
    returns. *)
Definition finds {A : Type} (path : string) (c : M A) (es ws : list string)
    : Prop :=
  appends c (λ _ d, errors_at path d = es ∧ warnings_at path d = ws).
Definition finds_ok (path : string) (c : M unit) (es ws : list string) : Prop :=
  appends c (λ r d, r = Ok tt ∧ errors_at path d = es ∧ warnings_at path d = ws).

(** [a <= b] on the values of numbers: false as soon as one is NaN. *)
Definition xle (a b : xreal) : bool :=
  match a, b with
  | XNaN, _ | _, XNaN => false
  | XNegInf, _ => true
  | _, XNegInf => false
  | _, XPosInf => true
  | XPosInf, _ => false
  | XFin p, XFin q => match Qcompare p q with Gt => false | _ => true end
  end.

(** The mathematical value of a JSON number; NaN for what is no number. *)
Definition json_value (v : json) : xreal :=
  match v with
  | JInt z => XFin (inject_Z z)
  | JFloat f => float_value f
  | _ => XNaN
  end.

(** The value of the [float] constant [0.7]. *)
Definition x_0_7 : xreal := number_value float_0_7.

Definition threshold_key : string := "canonical_token_confidence_threshold".
Definition threshold_path : string :=
  "quality.canonical_token_confidence_threshold".
Definition threshold_over : string :=
  "quality.canonical_token_confidence_threshold: must be <= 1".
Definition threshold_under : string :=
  "quality.canonical_token_confidence_threshold: below recommended default 0.70".
Definition threshold_negative : string :=
  "quality.canonical_token_confidence_threshold: must be >= 0.0".

(** A configuration whose [capture.screenshots.desktop] is the string
    "yes". *)
Definition screenshots_desktop_text : gmap string json :=
  {[ "desktop" := JStr "yes" ]}.
Definition capture_desktop_text : gmap string json :=
  {[ "screenshots" := JDict screenshots_desktop_text ]}.
Definition cfg_desktop_text : gmap string json :=
  {[ "capture" := JDict capture_desktop_text ]}.

(** Configurations whose [quality] section holds only the threshold. *)
Definition quality_with (threshold : json) : gmap string json :=
  {[ threshold_key := threshold ]}.
Definition cfg_threshold (threshold : json) : gmap string json :=
  {[ "quality" := JDict (quality_with threshold) ]}.

(** The floats [1.2], [0.5], [0.8] and the integer [-1]. *)
Definition float_1_2 : json := JFloat (S754_finite false 5404319552844595 (-52)).
Definition float_0_5 : json := JFloat (S754_finite false 4503599627370496 (-53)).
Definition float_0_8 : json := JFloat (S754_finite false 7205759403792794 (-53)).

(** A value that can be hashed: everything that [json.load] returns
    except a [list] and a [dict]. *)
Definition hashable (v : json) : bool :=
  negb (isinstance_list v || isinstance_dict v).

(** [cfg[section][key]] when [cfg[section]] is an object, else [None]. *)
Definition field (cfg : gmap string json) (section key : string) : json :=
  match dict_get cfg section with
  | JDict d => dict_get d key
  | _ => JNull
  end.

(** The four fields that the validators look up in a set are hashable. *)
Definition enums_hashable (cfg : gmap string json) : bool :=
  hashable (field cfg "project" "output_audience")
  && hashable (field cfg "project" "intended_use")
  && hashable (field cfg "scope" "crawl_mode")
  && hashable (field cfg "quality" "low_confidence_fallback").

(** No requirement on a finding. *)
Definition anything : string → Prop := λ _, True.

(** A configuration that is in order up to [project.output_audience],
    which is the empty list. *)
Definition cfg_unhashable_audience : gmap string json :=
  list_to_map
    [("mode", JStr "brand_faithful_modernization");
     ("project",
      JDict (list_to_map
               [("name", JStr "Acme");
                ("source_url", JStr "https://acme.example");
                ("output_audience", JList [])]))].

(** A configuration whose [scope.crawl_mode] is the empty list and whose
    [scope.custom_urls] is one URL. *)
Definition scope_unhashable_crawl_mode : gmap string json :=
  list_to_map
    [("crawl_mode", JList []);
     ("custom_urls", JList [JStr "http://a"])].
Definition cfg_unhashable_crawl_mode : gmap string json :=
  {[ "scope" := JDict scope_unhashable_crawl_mode ]}.

(** A configuration whose [project.output_audience] is an unknown
    string. *)
Definition cfg_unknown_audience : gmap string json :=
  {[ "project" := JDict {[ "output_audience" := JStr "nobody" ]} ]}.

(** A configuration that is in order and triggers no warning. *)
Definition cfg_valid : gmap string json :=
  list_to_map
    [("mode", JStr "brand_faithful_modernization");
     ("project",
      JDict (list_to_map
               [("name", JStr "Acme");
                ("source_url", JStr "https://acme.example");
                ("output_audience", JStr "both");
                ("intended_use", JStr "client_work")]));
     ("scope",
      JDict (list_to_map
               [("crawl_mode", JStr "representative_sample");
                ("max_pages", JInt 10);
                ("max_depth", JInt 2);
                ("include_subdomains", JBool false);
                ("respect_robots_txt", JBool true);
                ("crawl_delay_ms", JInt 100);
                ("requests_per_second", JInt 1);
                ("exclude_paths", JList [JStr "/legal"])]));
     ("capture",
      JDict (list_to_map
               [("screenshots",
                 JDict (list_to_map
                          [("desktop", JBool true); ("mobile", JBool true)]));
                ("html", JBool true);
                ("css", JBool true);
                ("text", JBool true);
                ("asset_metadata", JBool true);
                ("component_candidates", JBool true)]));
     ("quality",
      JDict (list_to_map
               [("canonical_token_confidence_threshold",
                 JFloat (S754_finite false 7205759403792794 (-53)));
                ("low_confidence_fallback", JStr "mark_unknown");
                ("require_contrast_checks", JBool true);
                ("require_anti_pattern_report", JBool true);
                ("require_pnie_matrix", JBool true)]))].

(** A configuration with a [guardrails] object in which two confirmations
    are [true] and one is [false]. *)
Definition cfg_one_unconfirmed : gmap string json :=
  {[ "guardrails" :=
       JDict (list_to_map
                [("public_access_confirmed", JBool true);
                 ("non_clone_intent_confirmed", JBool true);
                 ("asset_rights_warning_confirmed", JBool false)]) ]}.

(** The required paths of an output package that do not exist, in the
    order of [REQUIRED_PATHS]. *)
Definition missing_paths (under_root : string → string)
    (fs : gmap string Package.entry) : list string :=
  List.filter (λ p, negb (Package.path_exists fs p))
    (under_root <$> Package.REQUIRED_PATHS).

(** The file at [p] holds JSON text that decodes to an object with all of
    [keys]. *)
Definition json_object_with (json_loads : string → string + json)
    (fs : gmap string Package.entry) (p : string) (keys : list string) : bool :=
  match fs !! p with
  | Some (Package.File text) =>
      match json_loads text with
      | inr (JDict d) => forallb (contains_key d) keys
      | _ => false
      end
  | _ => false
  end.

(** The four JSON files that the checker inspects parse and have their
    shape. *)
Definition json_files_ok (json_loads : string → string + json)
    (under_root : string → string) (fs : gmap string Package.entry) : bool :=
  json_object_with json_loads fs (under_root "tokens/tokens.json") []
  && json_object_with json_loads fs (under_root "evidence/crawl-manifest.json")
       ["source_url"; "crawl_mode"; "pages"]
  && json_object_with json_loads fs (under_root "evidence/page-weights.json")
       ["clusters"; "pages"]
  && json_object_with json_loads fs
       (under_root "evidence/extraction-confidence.json") ["threshold"].

(** What [parse_json] returns for the path [p]. *)
Definition parsed (json_loads : string → string + json)
    (fs : gmap string Package.entry) (p : string) : json * option string :=
  match fs !! p with
  | Some (Package.File text) =>
      match json_loads text with
      | inr data => (data, None)
      | inl msg => (JNull, Some msg)
      end
  | Some (Package.Unreadable message) =>
      (JNull, Some (Package.str_exn (ReadFailure message)))
  | None => (JNull, Some (Package.str_exn (FileNotFoundError p)))
  end.

(** The errors that the checker appends for a JSON file at [p], from what
    [parse_json] returned for it and the keys it requires. *)
Definition shape_errors (p : string) (keys : list string)
    (r : json * option string) : list string :=
  if Package.truthy_opt r.2 then
    [p +:+ ": invalid JSON (" +:+ default "" r.2 +:+ ")"]
  else
    match r.1 with
    | JDict d =>
        let missing := List.filter (λ k, negb (contains_key d k)) keys in
        if truthy_set missing
        then [p +:+ ": missing keys " +:+ repr_list missing] else []
    | _ => [p +:+ ": expected top-level object"]
    end.

(** The warnings that the checker appends for the token file. *)
Definition token_warnings (p : string) (r : json * option string)
    : list string :=
  if Package.truthy_opt r.2 then []
  else
    match r.1 with
    | JDict d =>
        let missing :=
          List.filter (λ k, negb (contains_key d k))
            ["color"; "typography"; "spacing"; "radius"; "shadow"; "border";
             "motion"; "layout"] in
        if truthy_set missing
        then [p +:+ ": missing recommended token groups " +:+ repr_list missing]
        else []
    | _ => []
    end.

(** The errors appended for the four JSON files. *)
Definition json_errors (json_loads : string → string + json)
    (under_root : string → string) (fs : gmap string Package.entry) : list string :=
  shape_errors (under_root "tokens/tokens.json") []
    (parsed json_loads fs (under_root "tokens/tokens.json"))
  ++ shape_errors (under_root "evidence/crawl-manifest.json")
       ["source_url"; "crawl_mode"; "pages"]
       (parsed json_loads fs (under_root "evidence/crawl-manifest.json"))
  ++ shape_errors (under_root "evidence/page-weights.json")
       ["clusters"; "pages"]
       (parsed json_loads fs (under_root "evidence/page-weights.json"))
  ++ shape_errors (under_root "evidence/extraction-confidence.json")
       ["threshold"]
       (parsed json_loads fs (under_root "evidence/extraction-confidence.json")).

(** The two reports whose text the checker reads. *)
Definition PNIE_REPORT : string := "reports/preserve-normalize-improve-exclude.md".
Definition SUMMARY_REPORT : string := "reports/executive-summary.md".

(** The text of the file at [p]. *)
Definition text_at (fs : gmap string Package.entry) (p : string)
    : option string :=
  match fs !! p with
  | Some (Package.File text) => Some text
  | _ => None
  end.

(** Sample packages under the root directory [out].  The text of a JSON
    file is an object that gives [null] to each of its keys; [sample_loads]
    is [json.loads] on these texts and on the text [not json]. *)
Definition under_out (rel : string) : string := "out/" +:+ rel.

Definition double_quote : string := String (ascii_of_nat 34) EmptyString.

Definition null_object_text (keys : list string) : string :=
  "{" +:+ String.concat ", "
            ((λ key, double_quote +:+ key +:+ double_quote +:+ ": null")
               <$> keys)
  +:+ "}".

Definition null_object (keys : list string) : json :=
  JDict (list_to_map ((λ key, (key, JNull)) <$> keys)).

Definition SAMPLE_KEYS : list (list string) :=
  [[]; ["source_url"; "crawl_mode"; "pages"]; ["clusters"; "pages"];
   ["threshold"]].

Definition sample_loads (text : string) : string + json :=
  match List.find (λ keys, String.eqb text (null_object_text keys)) SAMPLE_KEYS with
  | Some keys => inr (null_object keys)
  | None => inl "Expecting value: line 1 column 1 (char 0)"
  end.

Definition sample_text (rel : string) : string :=
  if String.eqb rel "tokens/tokens.json" then null_object_text []
  else if String.eqb rel "evidence/crawl-manifest.json"
  then null_object_text ["source_url"; "crawl_mode"; "pages"]
  else if String.eqb rel "evidence/page-weights.json"
  then null_object_text ["clusters"; "pages"]
  else if String.eqb rel "evidence/extraction-confidence.json"
  then null_object_text ["threshold"]
  else if String.eqb rel PNIE_REPORT then "Preserve, Normalize, Improve"
  else if String.eqb rel SUMMARY_REPORT
  then "The system is NOT A CLONE of the source site."
  else "".

(** A complete package: two warnings, no error. *)
Definition fs_complete : gmap string Package.entry :=
  list_to_map
    ((λ rel, (under_out rel, Package.File (sample_text rel)))
       <$> Package.REQUIRED_PATHS).

(** The complete package with a crawl manifest that is not JSON. *)
Definition fs_bad_manifest : gmap string Package.entry :=
  <[under_out "evidence/crawl-manifest.json" := Package.File "not json"]>
    fs_complete.

(** The complete package with a PNIE report whose first byte is 0xFF: its
    bytes are not UTF-8, and [read_text] raises [UnicodeDecodeError]. *)
Definition fs_binary_report : gmap string Package.entry :=
  <[under_out PNIE_REPORT :=
      Package.Unreadable
        "'utf-8' codec can't decode byte 0xff in position 0: invalid start byte"]>
    fs_complete.

(** The findings that the strict pass appends. *)
Definition strict_findings (cfg : gmap string json) : lists :=
  match dict_get cfg "guardrails" with
  | JDict g =>
      Lists ((λ key, "guardrails." +:+ key +:+ ": must be true before crawling")
               <$> unconfirmed g) []
  | _ => one_error "guardrails" "required when --strict-guardrails is set"
  end.

(** ** Vocabulary of the further properties *)

(** [s] is a sequence of whitespace characters ([s] may be empty). *)
Fixpoint all_space (s : string) : bool :=
  match s with
  | EmptyString => true
  | String a s1 =>
      if space1 a then all_space s1
      else
        match s1 with
        | String b s2 =>
            if space2 a b then all_space s2
            else
              match s2 with
              | String c s3 => if space3 a b c then all_space s3 else false
              | EmptyString => false
              end
        | EmptyString => false
        end
  end.

(** A [project.name] that the validator rejects: not a string, or a
    string of whitespace only. *)
Definition blank_name (v : json) : bool :=
  match v with JStr s => all_space s | _ => true end.

(** A project whose name is the character U+2003 (EM SPACE). *)
Definition em_space : string :=
  String (ascii_of_nat 226)
    (String (ascii_of_nat 128) (String (ascii_of_nat 131) EmptyString)).
Definition project_em_space : gmap string json :=
  {[ "name" := JStr em_space ]}.
Definition cfg_em_space : gmap string json :=
  {[ "project" := JDict project_em_space ]}.

(** A string that mentions [localhost] or [127.0.0.1]. *)
Definition mentions_local (v : json) : bool :=
  match v with
  | JStr s => str_contains "localhost" s || str_contains "127.0.0.1" s
  | _ => false
  end.

(** [cfg_valid] with all three guardrail confirmations given. *)
Definition cfg_valid_confirmed : gmap string json :=
  <[ "guardrails" :=
       JDict (list_to_map
                [("public_access_confirmed", JBool true);
                 ("non_clone_intent_confirmed", JBool true);
                 ("asset_rights_warning_confirmed", JBool true)]) ]> cfg_valid.

(** [guardrails] is an object whose three confirmation flags are all
    [true]. *)
Definition confirmed (cfg : gmap string json) : bool :=
  match dict_get cfg "guardrails" with
  | JDict guardrails =>
      forallb (λ key, is_True (dict_get guardrails key)) GUARDRAIL_KEYS
  | _ => false
  end.

(** [v] is one of the strings [l]. *)
Definition one_of (v : json) (l : list string) : bool :=
  match v with JStr x => bool_decide (x ∈ l) | _ => false end.

(** A configuration whose [project] names a local development server. *)
Definition project_local : gmap string json :=
  list_to_map
    [("name", JStr "  ");
     ("source_url", JStr "http://localhost:3000/");
     ("output_audience", JStr "both");
     ("intended_use", JStr "client_work")].
Definition cfg_local : gmap string json := {[ "project" := JDict project_local ]}.

(** The value of the [float] constant [0.1]. *)
Definition x_0_1 : xreal := number_value (lit_value lit_0_1).

(** A list whose elements are all strings. *)
Definition list_of_strings (v : json) : bool :=
  match v with JList l => forallb isinstance_str l | _ => false end.

(** One of the default low-value path hints is among the elements of
    the list [v]. *)
Definition has_exclude_hint (v : json) : bool :=
  match v with
  | JList l =>
      existsb (λ hint, bool_decide (hint ∈ strings_of l))
        ["/legal"; "/privacy"; "/terms"; "/careers"; "/login"]
  | _ => false
  end.

(** A scope with [max_pages = 0], an integer [requests_per_second] and an
    empty [exclude_paths]. *)
Definition scope_zero_pages : gmap string json :=
  list_to_map
    [("crawl_mode", JStr "sitemap");
     ("max_pages", JInt 0);
     ("requests_per_second", JInt 1);
     ("exclude_paths", JList [])].
Definition cfg_zero_pages : gmap string json :=
  {[ "scope" := JDict scope_zero_pages ]}.

(** The errors of a required integer field with the minimum [minimum]:
    none for an integer that is not below it. *)
Definition integer_errors (obj : gmap string json) (path key : string)
    (minimum : Z) (text : string) : list string :=
  match obj !! key with
  | None => [(path +:+ "." +:+ key) +:+ ": " +:+ "missing required number"]
  | Some (JInt z) =>
      if (z <? minimum)%Z
      then [(path +:+ "." +:+ key) +:+ ": " +:+ "must be >= " +:+ text]
      else []
  | Some _ => [(path +:+ "." +:+ key) +:+ ": " +:+ "must be a number"]
  end.

(** The errors at [scope.requests_per_second]: an integer must be at
    least 1, a float must not be below 0.1. *)
Definition rate_errors (scope : gmap string json) : list string :=
  match scope !! "requests_per_second" with
  | None => ["scope.requests_per_second: missing required number"]
  | Some (JInt z) =>
      if (z <? 1)%Z then ["scope.requests_per_second: must be >= 0.1"] else []
  | Some (JFloat f) =>
      if xlt (float_value f) x_0_1
      then ["scope.requests_per_second: must be >= 0.1"] else []
  | Some _ => ["scope.requests_per_second: must be a number"]
  end.

(** A scope whose [exclude_paths] names none of the default hints. *)
Definition scope_no_hints : gmap string json :=
  list_to_map
    [("crawl_mode", JStr "everything");
     ("exclude_paths", JList [JStr "/blog"])].
Definition cfg_no_hints : gmap string json :=
  {[ "scope" := JDict scope_no_hints ]}.

(** The errors of a required boolean field. *)
Definition bool_errors (obj : gmap string json) (path key : string)
    : list string :=
  match obj !! key with
  | None => [(path +:+ "." +:+ key) +:+ ": " +:+ "missing required boolean"]
  | Some (JBool _) => []
  | Some _ => [(path +:+ "." +:+ key) +:+ ": " +:+ "must be boolean"]
  end.

(** The error of an optional boolean field of [capture.screenshots]. *)
Definition shot_errors (screenshots : gmap string json) (key : string)
    : list string :=
  match screenshots !! key with
  | Some (JBool _) | None => []
  | Some _ => [("capture.screenshots." +:+ key) +:+ ": " +:+ "must be boolean"]
  end.

(** A [capture] section without [screenshots], with [css] switched off
    and [text] given as a number. *)
Definition capture_no_screenshots : gmap string json :=
  list_to_map [("css", JBool false); ("text", JInt 1)].
Definition cfg_no_screenshots : gmap string json :=
  {[ "capture" := JDict capture_no_screenshots ]}.

(** A [capture] section whose screenshots switch mobile off. *)
Definition screenshots_mobile_off : gmap string json :=
  list_to_map [("desktop", JBool true); ("mobile", JBool false)].
Definition capture_mobile_off : gmap string json :=
  {[ "screenshots" := JDict screenshots_mobile_off ]}.
Definition cfg_mobile_off : gmap string json :=
  {[ "capture" := JDict capture_mobile_off ]}.

(** A [quality] section with an unknown fallback, one flag switched off
    and one flag left out. *)
Definition quality_flags_off : gmap string json :=
  list_to_map
    [("canonical_token_confidence_threshold", float_0_8);
     ("low_confidence_fallback", JStr "guess");
     ("require_contrast_checks", JBool false);
     ("require_anti_pattern_report", JBool true)].
Definition cfg_flags_off : gmap string json :=
  {[ "quality" := JDict quality_flags_off ]}.

(** The top-level keys that the intake validator reads. *)
Definition TOP_LEVEL_KEYS : list string :=
  ["mode"; "guardrails"; "project"; "scope"; "capture"; "quality"; "output"].

(** Two computations that end the same way after appending the same
    errors. *)
Definition same_errors (c1 c2 : M unit) : Prop :=
  ∃ r d1 d2, runs c1 r d1 ∧ runs c2 r d2 ∧ errors d1 = errors d2.

(** The base-pass error of one guardrail flag. *)
Definition flag_errors (guardrails : gmap string json) (key : string)
    : list string :=
  match guardrails !! key with
  | Some (JBool _) | None => []
  | Some _ => [("guardrails." +:+ key) +:+ ": " +:+ "must be boolean"]
  end.

(** A [guardrails] value that the base pass lets through: absent or
    [null], or an object whose three flags are each absent or boolean. *)
Definition guardrails_typed (v : json) : bool :=
  match v with
  | JNull => true
  | JDict guardrails =>
      forallb (λ key, match guardrails !! key with
                      | Some (JBool _) | None => true
                      | Some _ => false
                      end) GUARDRAIL_KEYS
  | _ => false
  end.

(** The warnings of the output-package checker for the text of the PNIE
    report and for the text of the executive summary. *)
Definition pnie_warnings (pnie : string) : list string :=
  (λ term, "PNIE report does not mention '" +:+ term +:+ "'")
    <$> List.filter (λ term, negb (str_contains term pnie))
          ["Preserve"; "Normalize"; "Improve"; "Exclude"].

Definition summary_warnings (str_lower : string → string) (summary : string)
    : list string :=
  if negb (existsb (λ marker, str_contains marker (str_lower summary))
             (str_lower <$> ["not a clone"; "brand-faithful"; "normalize";
                             "must not be copied"]))
  then ["Executive summary may be missing explicit non-derivative guardrail language"]
  else [].

(** All the warnings of the checker on a complete package whose two
    reports can be read. *)
Definition package_warnings (json_loads : string → string + json)
    (str_lower : string → string) (under_root : string → string)
    (fs : gmap string Package.entry) : list string :=
  token_warnings (under_root "tokens/tokens.json")
    (parsed json_loads fs (under_root "tokens/tokens.json"))
  ++ pnie_warnings (default "" (text_at fs (under_root PNIE_REPORT)))
  ++ summary_warnings str_lower
       (default "" (text_at fs (under_root SUMMARY_REPORT))).

(** The six files whose text the checker reads, in the order of the
    reads. *)
Definition READ_PATHS : list string :=
  ["tokens/tokens.json"; "evidence/crawl-manifest.json";
   "evidence/page-weights.json"; "evidence/extraction-confidence.json";
   "reports/preserve-normalize-improve-exclude.md";
   "reports/executive-summary.md"].

(** The last line that the checker prints on a complete package. *)
Definition package_summary (es ws : list string) : string :=
  if truthy_set es then
    "Validation failed (" +:+ pretty (length es) +:+ " error(s), "
    +:+ pretty (length ws) +:+ " warning(s))"
  else "Validation passed with " +:+ pretty (length ws) +:+ " warning(s)".

(** What [read_text] returns or raises for the path [p]. *)
Definition read_result (fs : gmap string Package.entry) (p : string)
    : result string :=
  match fs !! p with
  | Some (Package.File text) => Ok text
  | Some (Package.Unreadable message) => Raise (ReadFailure message)
  | None => Raise (FileNotFoundError p)
  end.

(** The text of both reports can be read. *)
Definition reports_readable (under_root : string → string)
    (fs : gmap string Package.entry) : bool :=
  bool_decide (is_Some (text_at fs (under_root PNIE_REPORT)))
  && bool_decide (is_Some (text_at fs (under_root SUMMARY_REPORT))).

(** What a run of the checker gives on a package in which every required
    path exists: the exception of the first report that cannot be read,
    with nothing printed, or else the exit code after the ERROR lines, the
    WARN lines and the summary line. *)
Definition present_outcome (json_loads : string → string + json)
    (str_lower : string → string) (under_root : string → string)
    (fs : gmap string Package.entry) : result Z * Package.world :=
  let es := json_errors json_loads under_root fs in
  let tw :=
    token_warnings (under_root "tokens/tokens.json")
      (parsed json_loads fs (under_root "tokens/tokens.json")) in
  match read_result fs (under_root PNIE_REPORT) with
  | Raise e =>
      (Raise e, Package.World es tw [] (under_root <$> take 5 READ_PATHS))
  | Ok pnie =>
      match read_result fs (under_root SUMMARY_REPORT) with
      | Raise e =>
          (Raise e,
           Package.World es (tw ++ pnie_warnings pnie) []
             (under_root <$> READ_PATHS))
      | Ok summary =>
          let ws :=
            tw ++ pnie_warnings pnie ++ summary_warnings str_lower summary in
          (Ok (if truthy_set es then 1%Z else 0%Z),
           Package.World es ws
             (((λ msg, "ERROR: " +:+ msg) <$> es)
              ++ ((λ msg, "WARN: " +:+ msg) <$> ws)
              ++ [package_summary es ws])
             (under_root <$> READ_PATHS))
      end
  end.

(** A computation that returns without appending an error. *)
Definition accepts (c : M unit) : Prop :=
  ∃ d, runs c (Ok tt) d ∧ errors d = [].

(** The list from which [normalize_urls] takes its URLs: the input
    itself, its [urls] or else its [pages]; [None] when the input has
    none of these shapes. *)
Definition url_entries (url_data : json) : option (list json) :=
  match url_data with
  | JNull => Some []
  | JList urls => Some urls
  | JDict d =>
      match dict_get d "urls", dict_get d "pages" with
      | JList urls, _ => Some urls
      | _, JList pages => Some pages
      | _, _ => None
      end
  | _ => None
  end.

(** [v.get(key)] when [v] is an object, else [None]. *)
Definition field_of (v : json) (key : string) : json :=
  match v with JDict d => dict_get d key | _ => JNull end.

(** A [str] that leaves strings as they are, and an [int] that reads no
    text. *)
Definition str_of_json (v : json) : string :=
  match v with JStr s => s | _ => "?" end.
Definition no_int (s : string) : option Z := None.

(** A page entry with the given [url]. *)
Definition page (url : json) : json := JDict {[ "url" := url ]}.

(** * Properties *)

(** ** Sample runs *)

Example valid_config_accepted :
  main set_in_order false (inr (JDict cfg_valid))
  = Exit 0 ["Config validation passed (0 warning(s))"].
Proof. vm_compute. reflexivity. Qed.

Example valid_config_strict_rejected :
  main set_in_order true (inr (JDict cfg_valid))
  = Exit 1
      ["ERROR: guardrails: required when --strict-guardrails is set";
       "Config validation failed (1 error(s), 0 warning(s))"].
Proof. vm_compute. reflexivity. Qed.

Example empty_config_rejected :
  main set_reversed false (inr (JDict ∅))
  = Exit 1
      ["ERROR: mode: must equal 'brand_faithful_modernization'";
       "ERROR: project: missing required object";
       "ERROR: scope: missing required object";
       "ERROR: capture: missing required object";
       "ERROR: quality: missing required object";
       "Config validation failed (5 error(s), 0 warning(s))"].
Proof. vm_compute. reflexivity. Qed.

Example unknown_audience_message :
  validate_project set_reversed cfg_unknown_audience no_findings
  = (Ok tt,
     Lists
       ["project.name: must be a non-empty string";
        "project.source_url: must be a public http(s) URL";
        "project.output_audience: must be one of ['both', 'designer', 'developer']";
        "project.intended_use: must be one of ['client_work', 'internal_exploration', 'rebuild_baseline']"]
       []).
Proof. vm_compute. reflexivity. Qed.

Example top_level_list_rejected :
  main set_in_order false (inr (JList []))
  = Exit 1 ["ERROR: config must be a top-level JSON object"].
Proof. reflexivity. Qed.

(** ** The list monad of the validators *)

Lemma extend_no_findings_r st : extend st no_findings = st.
Proof. destruct st; unfold extend; simpl; by rewrite !app_nil_r. Qed.

Lemma extend_no_findings_l d : extend no_findings d = d.
Proof. by destruct d. Qed.

Lemma extend_assoc a b c : extend (extend a b) c = extend a (extend b c).
Proof. unfold extend; simpl; by rewrite !app_assoc. Qed.

Lemma runs_ret {A} (a : A) : runs (ret a) (Ok a) no_findings.
Proof. intros st. unfold ret. by rewrite extend_no_findings_r. Qed.

Lemma runs_raise {A} e : runs (@raise lists A e) (Raise e) no_findings.
Proof. intros st. unfold raise. by rewrite extend_no_findings_r. Qed.

Lemma runs_add_error path message :
  runs (add_error path message) (Ok tt) (one_error path message).
Proof.
  intros [es ws]. unfold add_error, extend, one_error; simpl.
  by rewrite app_nil_r.
Qed.

Lemma runs_add_warn path message :
  runs (add_warn path message) (Ok tt) (one_warning path message).
Proof.
  intros [es ws]. unfold add_warn, extend, one_warning; simpl.
  by rewrite app_nil_r.
Qed.

Lemma runs_bind_ok {A B} (c : M A) (k : A → M B) a d1 r d2 :
  runs c (Ok a) d1 → runs (k a) r d2 → runs (bind c k) r (extend d1 d2).
Proof.
  intros Hc Hk st. unfold bind. rewrite Hc, Hk. by rewrite extend_assoc.
Qed.

Lemma runs_bind_raise {A B} (c : M A) (k : A → M B) e d1 :
  runs c (Raise e) d1 → runs (bind c k) (Raise e) d1.
Proof. intros Hc st. unfold bind. by rewrite Hc. Qed.

(** What a computation appends is determined by the computation. *)
Lemma runs_unique {A} (c : M A) r1 d1 r2 d2 :
  runs c r1 d1 → runs c r2 d2 → r1 = r2 ∧ d1 = d2.
Proof.
  intros H1 H2. specialize (H1 no_findings). specialize (H2 no_findings).
  rewrite H1 in H2. rewrite !extend_no_findings_l in H2. by inversion H2.
Qed.

Lemma runs_fresh {A} (c : M A) r d : runs c r d → c no_findings = (r, d).
Proof. intros H. rewrite (H no_findings). by rewrite extend_no_findings_l. Qed.

Lemma appends_ret {A} (a : A) (P : result A → lists → Prop) :
  P (Ok a) no_findings → appends (ret a) P.
Proof. intros HP. exists (Ok a), no_findings. split; [apply runs_ret | done]. Qed.

Lemma appends_mret {A} (a : A) (P : result A → lists → Prop) :
  P (Ok a) no_findings → appends (mret a) P.
Proof. apply appends_ret. Qed.

Lemma appends_raise {A} e (P : result A → lists → Prop) :
  P (Raise e) no_findings → appends (raise e) P.
Proof. intros HP. exists (Raise e), no_findings. split; [apply runs_raise | done]. Qed.

Lemma appends_add_error path message (P : result unit → lists → Prop) :
  P (Ok tt) (one_error path message) → appends (add_error path message) P.
Proof. intros HP. eexists _, _. split; [apply runs_add_error | done]. Qed.

Lemma appends_add_warn path message (P : result unit → lists → Prop) :
  P (Ok tt) (one_warning path message) → appends (add_warn path message) P.
Proof. intros HP. eexists _, _. split; [apply runs_add_warn | done]. Qed.

Lemma appends_bind {A B} (c : M A) (k : A → M B)
    (Q : result A → lists → Prop) (P : result B → lists → Prop) :
  appends c Q →
  (∀ a d1, Q (Ok a) d1 → appends (k a) (λ r d2, P r (extend d1 d2))) →
  (∀ e d1, Q (Raise e) d1 → P (Raise e) d1) →
  appends (bind c k) P.
Proof.
  intros (r1 & d1 & Hc & HQ) Hk He. destruct r1 as [a|e].
  - destruct (Hk a d1 HQ) as (r2 & d2 & Hk' & HP).
    exists r2, (extend d1 d2). split; [by eapply runs_bind_ok | done].
  - exists (Raise e), d1. split; [by apply runs_bind_raise | by apply He].
Qed.

Lemma appends_mbind {A B} (c : M A) (k : A → M B)
    (Q : result A → lists → Prop) (P : result B → lists → Prop) :
  appends c Q →
  (∀ a d1, Q (Ok a) d1 → appends (k a) (λ r d2, P r (extend d1 d2))) →
  (∀ e d1, Q (Raise e) d1 → P (Raise e) d1) →
  appends (c ≫= k) P.
Proof. apply appends_bind. Qed.

Lemma appends_mono {A} (c : M A) (P Q : result A → lists → Prop) :
  appends c P → (∀ r d, P r d → Q r d) → appends c Q.
Proof. intros (r & d & Hc & HP) HPQ. exists r, d. auto. Qed.

Lemma appends_when (b : bool) (body : M unit) (P : result unit → lists → Prop) :
  (b = true → appends body P) →
  (b = false → P (Ok tt) no_findings) →
  appends (when b body) P.
Proof.
  intros Ht Hf. destruct b; simpl; [by apply Ht | apply appends_ret; by apply Hf].
Qed.

(** ** The primitive checkers *)

Lemma contains_key_Some (d : gmap string json) key v :
  d !! key = Some v → contains_key d key = true.
Proof. intros H. unfold contains_key. rewrite H. by apply bool_decide_eq_true. Qed.

Lemma contains_key_None (d : gmap string json) key :
  d !! key = None → contains_key d key = false.
Proof.
  intros H. unfold contains_key. rewrite H. apply bool_decide_eq_false.
  by intros [? ?].
Qed.

Lemma dict_get_Some (d : gmap string json) key v :
  d !! key = Some v → dict_get d key = v.
Proof. intros H. unfold dict_get. by rewrite H. Qed.

Lemma dict_get_None (d : gmap string json) key :
  d !! key = None → dict_get d key = JNull.
Proof. intros H. unfold dict_get. by rewrite H. Qed.

Lemma subscript_Some (d : gmap string json) key v :
  d !! key = Some v → subscript d key = ret v.
Proof. intros H. unfold subscript. by rewrite H. Qed.

Lemma bind_ret_l {S A B} (a : A) (k : A → St S B) st : bind (ret a) k st = k a st.
Proof. done. Qed.

Lemma expect_bool_missing (obj : gmap string json) key path :
  obj !! key = None →
  runs (expect_bool obj key path) (Ok tt)
    (one_error (path +:+ "." +:+ key) "missing required boolean").
Proof.
  intros H. unfold expect_bool. rewrite (contains_key_None _ _ H); simpl.
  apply runs_add_error.
Qed.

Lemma expect_bool_bool (obj : gmap string json) key path b :
  obj !! key = Some (JBool b) →
  runs (expect_bool obj key path) (Ok tt) no_findings.
Proof.
  intros H. unfold expect_bool.
  rewrite (contains_key_Some _ _ _ H), (subscript_Some _ _ _ H); simpl.
  apply (runs_ret tt).
Qed.

Lemma expect_bool_other (obj : gmap string json) key path v :
  obj !! key = Some v → isinstance_bool v = false →
  runs (expect_bool obj key path) (Ok tt)
    (one_error (path +:+ "." +:+ key) "must be boolean").
Proof.
  intros H Hv. unfold expect_bool.
  rewrite (contains_key_Some _ _ _ H), (subscript_Some _ _ _ H); simpl.
  intros st. unfold mbind, M_bind. rewrite bind_ret_l, Hv. simpl.
  apply runs_add_error.
Qed.

Lemma expect_number_missing (obj : gmap string json) key path minimum integer :
  obj !! key = None →
  runs (expect_number obj key path minimum integer) (Ok tt)
    (one_error (path +:+ "." +:+ key) "missing required number").
Proof.
  intros H. unfold expect_number. rewrite (contains_key_None _ _ H); simpl.
  apply runs_add_error.
Qed.

Lemma ok_type_number_type_ok integer v :
  (if negb integer
   then isinstance_int v && negb (isinstance_bool v) || isinstance_float v
   else isinstance_int v && negb (isinstance_bool v))
  = number_type_ok integer v.
Proof. by destruct integer, v. Qed.

Lemma expect_number_bad_type (obj : gmap string json) key path minimum integer v :
  obj !! key = Some v → number_type_ok integer v = false →
  runs (expect_number obj key path minimum integer) (Ok tt)
    (one_error (path +:+ "." +:+ key) "must be a number").
Proof.
  intros H Hv. unfold expect_number.
  rewrite (contains_key_Some _ _ _ H), (subscript_Some _ _ _ H); simpl.
  intros st. unfold mbind, M_bind. rewrite bind_ret_l.
  cbv zeta. rewrite ok_type_number_type_ok, Hv. simpl.
  apply runs_add_error.
Qed.

Lemma number_type_ok_lt integer v n :
  number_type_ok integer v = true → ∃ b, lt_number v n = Some b.
Proof. destruct v; try done; intros _; unfold lt_number; simpl; eauto. Qed.

Lemma number_type_ok_gt integer v n :
  number_type_ok integer v = true → ∃ b, gt_number v n = Some b.
Proof. destruct v; try done; intros _; unfold gt_number; simpl; eauto. Qed.

Lemma expect_number_no_minimum (obj : gmap string json) key path integer v :
  obj !! key = Some v → number_type_ok integer v = true →
  runs (expect_number obj key path None integer) (Ok tt) no_findings.
Proof.
  intros H Hv. unfold expect_number.
  rewrite (contains_key_Some _ _ _ H), (subscript_Some _ _ _ H); simpl.
  intros st. unfold mbind, M_bind. rewrite bind_ret_l.
  cbv zeta. rewrite ok_type_number_type_ok, Hv. simpl.
  apply (runs_ret tt).
Qed.

Lemma expect_number_minimum (obj : gmap string json) key path m integer v below :
  obj !! key = Some v → number_type_ok integer v = true →
  lt_number v (lit_value m) = Some below →
  runs (expect_number obj key path (Some m) integer) (Ok tt)
    (if below
     then one_error (path +:+ "." +:+ key) ("must be >= " +:+ lit_text m)
     else no_findings).
Proof.
  intros H Hv Hlt. unfold expect_number.
  rewrite (contains_key_Some _ _ _ H), (subscript_Some _ _ _ H); simpl.
  intros st. unfold mbind, M_bind. rewrite bind_ret_l.
  cbv zeta. rewrite ok_type_number_type_ok, Hv. simpl.
  unfold py_lt. rewrite Hlt. simpl. rewrite bind_ret_l.
  destruct below; simpl; [apply runs_add_error | apply (runs_ret tt)].
Qed.

(** C5. A boolean never satisfies the numeric checker: it produces the
    error "must be a number", whatever the minimum and the integer flag.
    A number (0 and 1 among them) never satisfies the boolean checker: it
    produces "must be boolean".  With [integer=True] a float produces
    "must be a number".  With [integer=False] an integer passes the type
    test: the only error it can produce is the one about the minimum. *)
Theorem checkers_are_strict_about_types
    (obj : gmap string json) (key path : string) :
  (∀ b minimum integer,
     obj !! key = Some (JBool b) →
     runs (expect_number obj key path minimum integer) (Ok tt)
       (one_error (path +:+ "." +:+ key) "must be a number"))
  ∧ (∀ v,
       obj !! key = Some v → (∃ z, v = JInt z) ∨ (∃ f, v = JFloat f) →
       runs (expect_bool obj key path) (Ok tt)
         (one_error (path +:+ "." +:+ key) "must be boolean"))
  ∧ (∀ f minimum,
       obj !! key = Some (JFloat f) →
       runs (expect_number obj key path minimum true) (Ok tt)
         (one_error (path +:+ "." +:+ key) "must be a number"))
  ∧ (∀ z minimum,
       obj !! key = Some (JInt z) →
       ∃ d, runs (expect_number obj key path minimum false) (Ok tt) d
            ∧ (d = no_findings
               ∨ ∃ m, minimum = Some m
                      ∧ xlt (XFin (inject_Z z)) (number_value (lit_value m)) = true
                      ∧ d = one_error (path +:+ "." +:+ key)
                              ("must be >= " +:+ lit_text m))).
Proof.
  repeat split.
  - intros b minimum integer H. by apply expect_number_bad_type with (v := JBool b).
  - intros v H [[z ->]|[f ->]]; by eapply expect_bool_other.
  - intros f minimum H. by apply expect_number_bad_type with (v := JFloat f).
  - intros z [m|] H.
    + destruct (xlt (XFin (inject_Z z)) (number_value (lit_value m))) eqn:Hlt.
      * eexists. split.
        -- eapply expect_number_minimum with (below := true); [done..|].
           by rewrite <- Hlt.
        -- right. by exists m.
      * eexists. split.
        -- eapply expect_number_minimum with (below := false); [done..|].
           by rewrite <- Hlt.
        -- by left.
    + eexists. split; [by eapply expect_number_no_minimum | by left].
Qed.

Lemma checkers_are_strict_about_types_witness :
  runs (expect_number {["max_pages" := JBool true]} "max_pages" "scope"
          (Some lit_1) true) (Ok tt)
    (one_error "scope.max_pages" "must be a number")
  ∧ runs (expect_bool {["html" := JInt 1]} "html" "capture") (Ok tt)
      (one_error "capture.html" "must be boolean")
  ∧ runs (expect_number {["max_depth" := JFloat (S754_zero false)]} "max_depth"
            "scope" (Some lit_0) true) (Ok tt)
      (one_error "scope.max_depth" "must be a number")
  ∧ ∃ d, runs (expect_number {["requests_per_second" := JInt 2]}
                 "requests_per_second" "scope" (Some lit_0_1) false) (Ok tt) d.
Proof.
  split; [|split; [|split]].
  - destruct (checkers_are_strict_about_types
                {["max_pages" := JBool true]} "max_pages" "scope")
      as (H & _).
    apply (H true). reflexivity.
  - destruct (checkers_are_strict_about_types
                {["html" := JInt 1]} "html" "capture")
      as (_ & H & _).
    apply (H (JInt 1)); [reflexivity|]. left. by exists 1%Z.
  - destruct (checkers_are_strict_about_types
                {["max_depth" := JFloat (S754_zero false)]} "max_depth" "scope")
      as (_ & _ & H & _).
    apply (H (S754_zero false)). reflexivity.
  - destruct (checkers_are_strict_about_types
                {["requests_per_second" := JInt 2]} "requests_per_second" "scope")
      as (_ & _ & _ & H).
    destruct (H 2%Z (Some lit_0_1)) as (d & Hd & _); [reflexivity|].
    by exists d.
Defined.


(** ** Guardrails: the base pass and the strict pass *)

(** Membership in a literal list. *)
Ltac in_literal := apply list_elem_of_In; simpl; tauto.

Ltac not_in_literal := rewrite list_elem_of_In; simpl; intuition discriminate.

(** A loop over a literal list is the sequence of its bodies. *)
Lemma for_each_cons {S A} (x : A) xs (body : A → St S unit) :
  for_each (x :: xs) body = bind (body x) (λ _, for_each xs body).
Proof. done. Qed.

Lemma runs_when (b : bool) (body : M unit) d :
  runs body (Ok tt) d →
  runs (when b body) (Ok tt) (if b then d else no_findings).
Proof. intros H. destruct b; simpl; [done | apply (runs_ret tt)]. Qed.

Lemma runs_seq (c1 c2 : M unit) d1 r d2 :
  runs c1 (Ok tt) d1 → runs c2 r d2 → runs (c1;; c2) r (extend d1 d2).
Proof. intros H1 H2. by apply (runs_bind_ok c1 (λ _, c2) tt). Qed.

Lemma strict_pass_object (cfg g : gmap string json) :
  dict_get cfg "guardrails" = JDict g →
  runs (strict_pass cfg) (Ok tt)
    (Lists ((λ key, "guardrails." +:+ key +:+ ": must be true before crawling")
              <$> unconfirmed g) []).
Proof.
  intros Hg. unfold strict_pass. rewrite Hg.
  unfold unconfirmed, GUARDRAIL_KEYS. simpl.
  intros [es ws]. unfold bind, when, add_error, ret, extend. simpl.
  destruct (is_True (dict_get g "public_access_confirmed")),
    (is_True (dict_get g "non_clone_intent_confirmed")),
    (is_True (dict_get g "asset_rights_warning_confirmed"));
    simpl; rewrite ?app_nil_r, <- ?app_assoc; reflexivity.
Qed.

Lemma strict_pass_no_object (cfg : gmap string json) :
  isinstance_dict (dict_get cfg "guardrails") = false →
  runs (strict_pass cfg) (Ok tt)
    (one_error "guardrails" "required when --strict-guardrails is set").
Proof.
  intros Hg. unfold strict_pass.
  destruct (dict_get cfg "guardrails"); try discriminate; apply runs_add_error.
Qed.

Lemma unconfirmed_only (g : gmap string json) key :
  only_unconfirmed g key → unconfirmed g = [key].
Proof.
  intros (Hin & Hf & Ht). unfold unconfirmed, GUARDRAIL_KEYS in *.
  assert (∀ k, k ∈ GUARDRAIL_KEYS →
               is_True (dict_get g k) = negb (bool_decide (k = key))) as Hk.
  { intros k Hk. destruct (decide (k = key)) as [->|Hne].
    - rewrite (dict_get_Some _ _ _ Hf). by rewrite bool_decide_eq_true_2.
    - rewrite (dict_get_Some _ _ _ (Ht k Hk Hne)).
      by rewrite bool_decide_eq_false_2. }
  simpl. rewrite !Hk by in_literal.
  rewrite !negb_involutive.
  apply list_elem_of_In in Hin. simpl in Hin.
  destruct Hin as [<-|[<-|[<-|[]]]]; reflexivity.
Qed.

Lemma validate_guardrails_booleans (cfg g : gmap string json) :
  dict_get cfg "guardrails" = JDict g →
  (∀ k v, k ∈ GUARDRAIL_KEYS → g !! k = Some v → isinstance_bool v = true) →
  runs (validate_guardrails cfg) (Ok tt)
    (if eq_str (dict_get cfg "mode") "brand_faithful_modernization"
     then no_findings
     else one_error "mode" "must equal 'brand_faithful_modernization'").
Proof.
  intros Hg Hb. unfold validate_guardrails. cbv zeta. rewrite Hg. simpl.
  assert (∀ k, k ∈ GUARDRAIL_KEYS →
    runs (if contains_key g k
          then v ← subscript g k;
               when (negb (isinstance_bool v))
                 (add_error ("guardrails." +:+ k) "must be boolean")
          else mret tt) (Ok tt) no_findings) as Hkey.
  { intros k Hk. destruct (g !! k) as [v|] eqn:Hv.
    - rewrite (contains_key_Some _ _ _ Hv), (subscript_Some _ _ _ Hv).
      intros st. unfold mbind, M_bind. rewrite bind_ret_l.
      rewrite (Hb k v Hk Hv). apply (runs_ret tt).
    - rewrite (contains_key_None _ _ Hv). apply (runs_ret tt). }
  rewrite <- (extend_no_findings_r (if eq_str _ _ then _ else _)).
  apply runs_seq.
  - destruct (eq_str _ _); simpl; [apply (runs_ret tt) | apply runs_add_error].
  - rewrite <- (extend_no_findings_r no_findings).
    eapply runs_bind_ok; [apply Hkey; in_literal|].
    rewrite <- (extend_no_findings_r no_findings).
    eapply runs_bind_ok; [apply Hkey; in_literal|].
    rewrite <- (extend_no_findings_r no_findings).
    eapply runs_bind_ok; [apply Hkey; in_literal|].
    apply (runs_ret tt).
Qed.

(** The strict pass on its own, whatever the lists hold when it starts: when
    [guardrails] is not an object (absent included) it appends the one
    error "guardrails: required when --strict-guardrails is set"; when it
    is an object it appends, for each of the three confirmation keys that
    is not exactly [true] and in their order, one error
    "guardrails.<key>: must be true before crawling", and nothing else.
    For a [guardrails] object with two keys [true] and one [false], the
    base validator appends no guardrails error (at most the finding about
    [mode]), and the strict pass appends exactly the one error that names
    the false key. *)
Theorem strict_guardrails_escalation (cfg : gmap string json) :
  runs (strict_pass cfg) (Ok tt)
    (match dict_get cfg "guardrails" with
     | JDict g =>
         Lists ((λ key, "guardrails." +:+ key +:+ ": must be true before crawling")
                  <$> unconfirmed g) []
     | _ => one_error "guardrails" "required when --strict-guardrails is set"
     end)
  ∧ ∀ g key,
      dict_get cfg "guardrails" = JDict g →
      only_unconfirmed g key →
      runs (validate_guardrails cfg) (Ok tt)
        (if eq_str (dict_get cfg "mode") "brand_faithful_modernization"
         then no_findings
         else one_error "mode" "must equal 'brand_faithful_modernization'")
      ∧ runs (strict_pass cfg) (Ok tt)
          (one_error ("guardrails." +:+ key) "must be true before crawling").
Proof.
  split.
  - destruct (dict_get cfg "guardrails") eqn:Hg;
      try (apply strict_pass_no_object; by rewrite Hg).
    by apply strict_pass_object.
  - intros g key Hg Honly. split.
    + apply (validate_guardrails_booleans cfg g Hg).
      intros k v Hk Hv. destruct Honly as (_ & Hf & Ht).
      destruct (decide (k = key)) as [->|Hne].
      * rewrite Hf in Hv. by inversion Hv.
      * rewrite (Ht k Hk Hne) in Hv. by inversion Hv.
    + pose proof (strict_pass_object cfg g Hg) as H.
      by rewrite (unconfirmed_only g key Honly) in H.
Qed.

Lemma strict_guardrails_escalation_witness :
  runs (validate_guardrails cfg_one_unconfirmed) (Ok tt)
    (one_error "mode" "must equal 'brand_faithful_modernization'")
  ∧ runs (strict_pass cfg_one_unconfirmed) (Ok tt)
      (one_error "guardrails.asset_rights_warning_confirmed"
         "must be true before crawling").
Proof.
  destruct (strict_guardrails_escalation cfg_one_unconfirmed) as [_ H].
  apply (H (list_to_map
              [("public_access_confirmed", JBool true);
               ("non_clone_intent_confirmed", JBool true);
               ("asset_rights_warning_confirmed", JBool false)])
           "asset_rights_warning_confirmed").
  - reflexivity.
  - split; [in_literal | split; [reflexivity|]].
    intros k Hk Hne. apply list_elem_of_In in Hk. simpl in Hk.
    destruct Hk as [<-|[<-|[<-|[]]]]; [reflexivity | reflexivity |].
    by destruct Hne.
Defined.

(** ** What a computation may append *)

Lemma ends_weaken {A} m (r : result A) : ends Returns r → ends m r.
Proof. by destruct m. Qed.

Lemma emits_ret {A} m PE PW (a : A) : emits m PE PW (ret a).
Proof.
  apply appends_ret. split; [apply ends_weaken; by exists a | by split].
Qed.

Lemma emits_raise {A} PE PW e : emits ReturnsOrRaises PE PW (@raise lists A e).
Proof. apply appends_raise. by repeat split. Qed.

Lemma emits_add_error m (PE PW : string → Prop) path message :
  PE (path +:+ ": " +:+ message) → emits m PE PW (add_error path message).
Proof.
  intros H. apply appends_add_error.
  split; [apply ends_weaken; by exists tt|]. split; simpl; by repeat constructor.
Qed.

Lemma emits_add_warn m (PE PW : string → Prop) path message :
  PW (path +:+ ": " +:+ message) → emits m PE PW (add_warn path message).
Proof.
  intros H. apply appends_add_warn.
  split; [apply ends_weaken; by exists tt|]. split; simpl; by repeat constructor.
Qed.

Lemma emits_bind {A B} m PE PW (c : M A) (k : A → M B) :
  emits m PE PW c → (∀ a, emits m PE PW (k a)) → emits m PE PW (bind c k).
Proof.
  intros Hc Hk. eapply appends_bind; [exact Hc | |].
  - intros a d1 (_ & HE1 & HW1).
    eapply appends_mono; [apply Hk|].
    intros r d2 (Hr & HE2 & HW2). split; [done|].
    split; simpl; by apply Forall_app.
  - intros e d1 (Hr & HE1 & HW1). split; [|done].
    destruct m; [|done]. by destruct Hr.
Qed.

Lemma emits_when m PE PW (b : bool) (body : M unit) :
  (b = true → emits m PE PW body) → emits m PE PW (when b body).
Proof. intros H. destruct b; simpl; [by apply H | apply emits_ret]. Qed.

Lemma emits_for_each {A} m PE PW (xs : list A) (body : A → M unit) :
  (∀ x, x ∈ xs → emits m PE PW (body x)) → emits m PE PW (for_each xs body).
Proof.
  induction xs as [|x xs IH]; intros H; simpl; [apply emits_ret|].
  apply emits_bind; [apply H; by left|].
  intros _. apply IH. intros y Hy. apply H. by right.
Qed.

Lemma emits_or_raise {A} PE PW e (o : option A) :
  emits ReturnsOrRaises PE PW (or_raise e o).
Proof. destruct o; [apply emits_ret | apply emits_raise]. Qed.

Lemma emits_weaken {A} m PE PW (c : M A) :
  emits Returns PE PW c → emits m PE PW c.
Proof.
  intros H. eapply appends_mono; [exact H|].
  intros r d (Hr & HE & HW). split; [by apply ends_weaken | done].
Qed.

Lemma emits_mono {A} m (PE PW PE' PW' : string → Prop) (c : M A) :
  emits m PE PW c → (∀ e, PE e → PE' e) → (∀ w, PW w → PW' w) →
  emits m PE' PW' c.
Proof.
  intros H HE HW. eapply appends_mono; [exact H|].
  intros r d (Hr & HE1 & HW1). split; [done|].
  split; eapply Forall_impl; eauto.
Qed.

Lemma prefix_append (p s : string) : String.prefix p (p +:+ s) = true.
Proof.
  induction p as [|c p IH]; simpl; [by destruct s|].
  by destruct (Ascii.ascii_dec c c).
Qed.

Lemma str_append_assoc (a b c : string) : (a +:+ b) +:+ c = a +:+ (b +:+ c).
Proof.
  induction a as [|x a IH]; [done|].
  change (String x ((a +:+ b) +:+ c) = String x (a +:+ (b +:+ c))).
  by rewrite IH.
Qed.

(** A finding reported by [add_error] or [add_warn] is at its path. *)
Lemma at_path_finding path message :
  at_path path (path +:+ ": " +:+ message) = true.
Proof. unfold at_path. rewrite <- str_append_assoc. apply prefix_append. Qed.

Lemma emits_expect_bool (obj : gmap string json) key path :
  emits Returns (λ e, at_path (path +:+ "." +:+ key) e = true) (λ _, False)
    (expect_bool obj key path).
Proof.
  unfold expect_bool. destruct (contains_key obj key) eqn:Hk; simpl.
  - unfold contains_key in Hk. apply bool_decide_eq_true in Hk as [v Hv].
    rewrite (subscript_Some _ _ _ Hv).
    apply emits_bind; [apply emits_ret|]. intros a.
    apply emits_when. intros _. apply emits_add_error. apply at_path_finding.
  - apply emits_add_error. apply at_path_finding.
Qed.

(** ** Findings at one path *)

Lemma prefix_comparable (p q e : string) :
  String.prefix p e = true → String.prefix q e = true →
  String.prefix p q = true ∨ String.prefix q p = true.
Proof.
  revert q e. induction p as [|a p IH]; intros q e Hp Hq;
    [left; by destruct q|].
  destruct q as [|b q]; [by right|].
  destruct e as [|c e]; [done|]. simpl in *.
  destruct (Ascii.ascii_dec a c) as [->|]; [|done].
  destruct (Ascii.ascii_dec b c) as [->|]; [|done].
  destruct (Ascii.ascii_dec c c); [|done]. by eapply IH.
Qed.

(** Two paths of which neither continues the other share no finding. *)
Lemma at_path_apart (p q e : string) :
  at_path p (q +:+ ": ") = false → at_path q (p +:+ ": ") = false →
  at_path p e = true → at_path q e = false.
Proof.
  unfold at_path. intros Hpq Hqp Hp.
  destruct (String.prefix (q +:+ ": ") e) eqn:Hq; [|done].
  destruct (prefix_comparable _ _ _ Hp Hq) as [H|H]; congruence.
Qed.

Lemma errors_at_extend path d1 d2 :
  errors_at path (extend d1 d2) = errors_at path d1 ++ errors_at path d2.
Proof. unfold errors_at, extend; simpl. apply List.filter_app. Qed.

Lemma warnings_at_extend path d1 d2 :
  warnings_at path (extend d1 d2) = warnings_at path d1 ++ warnings_at path d2.
Proof. unfold warnings_at, extend; simpl. apply List.filter_app. Qed.

Lemma filter_none {A} (f : A → bool) (l : list A) :
  Forall (λ x, f x = false) l → List.filter f l = [].
Proof. induction 1 as [|x l Hx _ IH]; simpl; [done | by rewrite Hx]. Qed.

Lemma finds_ok_finds path (c : M unit) es ws :
  finds_ok path c es ws → finds path c es ws.
Proof. intros H. eapply appends_mono; [exact H|]. by intros r d (_ & ?). Qed.

Lemma finds_ok_seq path (c1 c2 : M unit) es1 ws1 es2 ws2 :
  finds_ok path c1 es1 ws1 → finds_ok path c2 es2 ws2 →
  finds_ok path (c1;; c2) (es1 ++ es2) (ws1 ++ ws2).
Proof.
  intros H1 H2. eapply appends_mbind; [exact H1 | |].
  - intros [] d1 (_ & HE1 & HW1). eapply appends_mono; [exact H2|].
    intros r d2 (Hr & HE2 & HW2). split; [done|].
    rewrite errors_at_extend, warnings_at_extend. by subst.
  - by intros e d1 (? & _).
Qed.

Lemma finds_seq {B} path (c1 : M unit) (c2 : M B) es1 ws1 es2 ws2 :
  finds_ok path c1 es1 ws1 → finds path c2 es2 ws2 →
  finds path (c1;; c2) (es1 ++ es2) (ws1 ++ ws2).
Proof.
  intros H1 H2. eapply appends_mbind; [exact H1 | |].
  - intros [] d1 (_ & HE1 & HW1). eapply appends_mono; [exact H2|].
    intros r d2 (HE2 & HW2).
    rewrite errors_at_extend, warnings_at_extend. by subst.
  - by intros e d1 (? & _).
Qed.

Lemma finds_ok_ret path : finds_ok path (ret tt) [] [].
Proof. by apply appends_ret. Qed.

Lemma finds_ok_add_error path message :
  finds_ok path (add_error path message) [path +:+ ": " +:+ message] [].
Proof.
  apply appends_add_error. split; [done|].
  unfold errors_at, warnings_at; simpl. by rewrite at_path_finding.
Qed.

Lemma finds_ok_add_warn path message :
  finds_ok path (add_warn path message) [] [path +:+ ": " +:+ message].
Proof.
  apply appends_add_warn. split; [done|].
  unfold errors_at, warnings_at; simpl. by rewrite at_path_finding.
Qed.

(** Findings that are all elsewhere leave nothing at [path]. *)
Lemma finds_ok_elsewhere path (c : M unit) :
  emits Returns (λ e, at_path path e = false) (λ w, at_path path w = false) c →
  finds_ok path c [] [].
Proof.
  intros H. eapply appends_mono; [exact H|].
  intros r d ([[] ->] & HE & HW).
  split; [done|]. split; by apply filter_none.
Qed.

Lemma finds_elsewhere {A} path (c : M A) :
  emits ReturnsOrRaises (λ e, at_path path e = false)
    (λ w, at_path path w = false) c →
  finds path c [] [].
Proof.
  intros H. eapply appends_mono; [exact H|].
  intros r d (_ & HE & HW). split; by apply filter_none.
Qed.

Lemma emits_expect_bool_elsewhere m (obj : gmap string json) key path p :
  at_path (path +:+ "." +:+ key) (p +:+ ": ") = false →
  at_path p ((path +:+ "." +:+ key) +:+ ": ") = false →
  emits m (λ e, at_path p e = false) (λ w, at_path p w = false)
    (expect_bool obj key path).
Proof.
  intros H1 H2. apply emits_weaken.
  eapply emits_mono; [apply emits_expect_bool | |]; simpl.
  - intros e He. by eapply at_path_apart.
  - done.
Qed.

Lemma finds_ok_seq_eq path (c1 c2 : M unit) es1 ws1 es2 ws2 es ws :
  finds_ok path c1 es1 ws1 → finds_ok path c2 es2 ws2 →
  es = es1 ++ es2 → ws = ws1 ++ ws2 →
  finds_ok path (c1;; c2) es ws.
Proof. intros H1 H2 -> ->. by apply finds_ok_seq. Qed.

Lemma finds_seq_eq {B} path (c1 : M unit) (c2 : M B) es1 ws1 es2 ws2 es ws :
  finds_ok path c1 es1 ws1 → finds path c2 es2 ws2 →
  es = es1 ++ es2 → ws = ws1 ++ ws2 →
  finds path (c1;; c2) es ws.
Proof. intros H1 H2 -> ->. by apply finds_seq. Qed.

Lemma appends_bind_ret {A B} (a : A) (k : A → M B) P :
  appends (k a) P → appends (bind (ret a) k) P.
Proof. done. Qed.

(** [if key in d: ... d[key] ...]: the subscript is guarded. *)
Lemma emits_guarded_subscript m PE PW (d : gmap string json) key
    (k : json → M unit) :
  (∀ v, d !! key = Some v → emits m PE PW (k v)) →
  emits m PE PW (if contains_key d key then v ← subscript d key; k v else mret tt).
Proof.
  intros H. destruct (d !! key) as [v|] eqn:Hv.
  - rewrite (contains_key_Some _ _ _ Hv), (subscript_Some _ _ _ Hv).
    by apply H.
  - rewrite (contains_key_None _ _ Hv). apply emits_ret.
Qed.

Ltac emits_step :=
  lazymatch goal with
  | |- emits _ _ _ (ret _) => apply emits_ret
  | |- emits _ _ _ (mret _) => apply emits_ret
  | |- emits _ _ _ (raise _) => apply emits_raise
  | |- emits _ _ _ (or_raise _ _) => apply emits_or_raise
  | |- emits _ _ _ (add_error _ _) =>
      apply emits_add_error; try (vm_compute; reflexivity)
  | |- emits _ _ _ (add_warn _ _) =>
      apply emits_add_warn; try (vm_compute; reflexivity)
  | |- emits _ _ _ (when _ _) => apply emits_when; intros ?
  | |- emits _ _ _ (if contains_key _ _ then _ else mret tt) =>
      apply emits_guarded_subscript; intros ? ?
  | |- emits _ _ _ (bind _ _) => apply emits_bind; [|intros ?]
  | |- emits _ _ _ (mbind _ _) => apply emits_bind; [|intros ?]
  | |- emits _ _ _ (if ?b then _ else _) => destruct b eqn:?
  | |- emits _ _ _ (match ?x with _ => _ end) => destruct x eqn:?
  end.

Lemma validate_capture_desktop cfg capture screenshots v :
  dict_get cfg "capture" = JDict capture →
  dict_get capture "screenshots" = JDict screenshots →
  screenshots !! "desktop" = Some v →
  isinstance_bool v = false →
  finds_ok "capture.screenshots.desktop" (validate_capture cfg)
    ["capture.screenshots.desktop: must be boolean";
     "capture.screenshots.desktop: must be true (required)"] [].
Proof.
  intros Hc Hs Hv Hb. unfold validate_capture. rewrite Hc. cbv beta iota.
  rewrite Hs. cbv beta iota.
  eapply finds_ok_seq_eq.
  - (* the screenshots block: the loop over desktop, mobile, tablet *)
    eapply finds_ok_seq_eq.
    + rewrite for_each_cons.
      eapply (finds_ok_seq_eq _ _ (for_each ["mobile"; "tablet"] _)).
      * rewrite (contains_key_Some _ _ _ Hv), (subscript_Some _ _ _ Hv).
        apply appends_bind_ret. rewrite Hb.
        apply (finds_ok_add_error "capture.screenshots.desktop" "must be boolean").
      * apply finds_ok_elsewhere. apply emits_for_each. intros key Hkey.
        apply list_elem_of_In in Hkey. simpl in Hkey.
        destruct Hkey as [<-|[<-|[]]]; repeat emits_step.
      * reflexivity.
      * reflexivity.
    + eapply finds_ok_seq_eq.
      * replace (is_True (dict_get screenshots "desktop")) with false
          by (rewrite (dict_get_Some _ _ _ Hv); by destruct v).
        apply (finds_ok_add_error "capture.screenshots.desktop"
                 "must be true (required)").
      * apply finds_ok_elsewhere. repeat emits_step.
      * reflexivity.
      * reflexivity.
    + reflexivity.
    + reflexivity.
  - (* the rest of the validator *)
    apply finds_ok_elsewhere.
    apply emits_bind; [|intros _].
    { apply emits_for_each. intros key Hkey.
      apply list_elem_of_In in Hkey. simpl in Hkey.
      destruct Hkey as [<-|[<-|[<-|[<-|[<-|[]]]]]];
        apply emits_expect_bool_elsewhere; reflexivity. }
    repeat emits_step.
  - reflexivity.
  - reflexivity.
Qed.

(** C9. When [capture] and [capture.screenshots] are objects and
    [screenshots.desktop] is present but not a boolean, the capture
    validator returns after appending exactly two errors at the path
    [capture.screenshots.desktop], in this order: "must be boolean" and
    "must be true (required)". *)
Theorem capture_desktop_not_boolean
    (cfg capture screenshots : gmap string json) (v : json) :
  dict_get cfg "capture" = JDict capture →
  dict_get capture "screenshots" = JDict screenshots →
  screenshots !! "desktop" = Some v →
  isinstance_bool v = false →
  ∃ d, runs (validate_capture cfg) (Ok tt) d
       ∧ errors_at "capture.screenshots.desktop" d
         = ["capture.screenshots.desktop: must be boolean";
            "capture.screenshots.desktop: must be true (required)"].
Proof.
  intros Hc Hs Hv Hb.
  destruct (validate_capture_desktop cfg capture screenshots v Hc Hs Hv Hb)
    as (r & d & Hrun & -> & HE & _).
  by exists d.
Qed.

Lemma capture_desktop_not_boolean_witness :
  ∃ d, runs (validate_capture cfg_desktop_text) (Ok tt) d
       ∧ errors_at "capture.screenshots.desktop" d
         = ["capture.screenshots.desktop: must be boolean";
            "capture.screenshots.desktop: must be true (required)"].
Proof.
  apply (capture_desktop_not_boolean cfg_desktop_text capture_desktop_text
           screenshots_desktop_text (JStr "yes")); reflexivity.
Defined.

(** ** The order of number values *)

Lemma xlt_fin p q : xlt (XFin p) (XFin q) = true ↔ (p < q)%Q.
Proof.
  simpl. rewrite Qlt_alt. destruct (p ?= q)%Q; split; congruence.
Qed.

Lemma xlt_trans a b c : xlt a b = true → xlt b c = true → xlt a c = true.
Proof.
  destruct a as [| |p|], b as [| |q|], c as [| |r|]; try done.
  rewrite !xlt_fin. apply Qlt_trans.
Qed.

Lemma xlt_asym a b : xlt a b = true → xlt b a = false.
Proof.
  destruct a as [| |p|], b as [| |q|]; try done.
  intros H%xlt_fin. apply not_true_is_false. intros H'%xlt_fin.
  exact (Qlt_irrefl p (Qlt_trans _ _ _ H H')).
Qed.

Lemma xle_not_lt a b : xle a b = true → xlt b a = false.
Proof.
  destruct a as [| |p|], b as [| |q|]; try done. simpl.
  rewrite <- (Qcompare_antisym p q). by destruct (p ?= q)%Q.
Qed.

Lemma x_0_7_below_1 : xlt x_0_7 (XFin 1) = true.
Proof. reflexivity. Qed.

Lemma x_0_below_0_7 : xlt (XFin 0) x_0_7 = true.
Proof. reflexivity. Qed.

(** ** The confidence threshold *)

Lemma lt_number_value v n :
  number_type_ok false v = true →
  lt_number v n = Some (xlt (json_value v) (number_value n)).
Proof. by destruct v. Qed.

Lemma gt_number_value v n :
  number_type_ok false v = true →
  gt_number v n = Some (xlt (number_value n) (json_value v)).
Proof. by destruct v. Qed.

Lemma number_isinstance v :
  number_type_ok false v = true →
  (isinstance_int v || isinstance_float v) && negb (isinstance_bool v) = true.
Proof. by destruct v. Qed.

Lemma emits_in_set PE PW v s : emits ReturnsOrRaises PE PW (in_set v s).
Proof. destruct v; first [apply emits_ret | apply emits_raise]. Qed.

Lemma validate_quality_threshold py_set (cfg quality : gmap string json) v :
  dict_get cfg "quality" = JDict quality →
  quality !! threshold_key = Some v →
  number_type_ok false v = true →
  finds threshold_path (validate_quality py_set cfg)
    ((if xlt (json_value v) (XFin 0) then [threshold_negative] else [])
     ++ (if xlt (XFin 1) (json_value v) then [threshold_over] else []))
    (if xlt (XFin 1) (json_value v) then []
     else if xlt (json_value v) x_0_7 then [threshold_under] else []).
Proof.
  intros Hq Hv Hnum. unfold validate_quality. rewrite Hq. cbv beta iota zeta.
  eapply finds_seq_eq.
  - (* expect_number with minimum 0.0 *)
    pose proof (expect_number_minimum quality threshold_key "quality" lit_0_0
                  false v _ Hv Hnum (lt_number_value v _ Hnum)) as Hrun.
    eexists _, _. split; [exact Hrun|]. split; [done|]. split; reflexivity.
  - eapply finds_seq_eq with
      (es1 := if xlt (XFin 1) (json_value v) then [threshold_over] else [])
      (ws1 := if xlt (XFin 1) (json_value v) then []
              else if xlt (json_value v) x_0_7 then [threshold_under] else []).
    + (* the range check *)
      unfold threshold_key in Hv. rewrite (dict_get_Some _ _ _ Hv).
      rewrite (number_isinstance v Hnum).
      unfold py_gt, py_lt.
      rewrite (gt_number_value v _ Hnum), (lt_number_value v _ Hnum).
      cbn [or_raise]. apply appends_bind_ret.
      change (number_value (NInt 1)) with (XFin 1).
      change (number_value float_0_7) with x_0_7.
      destruct (xlt (XFin 1) (json_value v)).
      * apply (finds_ok_add_error threshold_path "must be <= 1").
      * apply appends_bind_ret. destruct (xlt (json_value v) x_0_7); simpl.
        -- apply (finds_ok_add_warn threshold_path
                    "below recommended default 0.70").
        -- apply finds_ok_ret.
    + (* the fallback and the required booleans *)
      apply finds_elsewhere.
      apply emits_bind; [apply emits_in_set|]. intros known.
      apply emits_bind; [repeat emits_step|]. intros _.
      apply emits_for_each. intros key Hkey.
      apply list_elem_of_In in Hkey. simpl in Hkey.
      destruct Hkey as [<-|[<-|[<-|[]]]];
        apply emits_expect_bool_elsewhere; reflexivity.
    + by rewrite app_nil_r.
    + by rewrite app_nil_r.
  - change (number_value (lit_value lit_0_0)) with (XFin 0).
    destruct (xlt (json_value v) (XFin 0)), (xlt (XFin 1) (json_value v));
      reflexivity.
  - change (number_value (lit_value lit_0_0)) with (XFin 0).
    destruct (xlt (json_value v) (XFin 0)), (xlt (XFin 1) (json_value v)),
      (xlt (json_value v) x_0_7); reflexivity.
Qed.

Lemma elem_of_errors_at path e d :
  at_path path e = true → (e ∈ errors d ↔ e ∈ errors_at path d).
Proof.
  intros H. unfold errors_at. rewrite !list_elem_of_In, List.filter_In. tauto.
Qed.

Lemma elem_of_warnings_at path w d :
  at_path path w = true → (w ∈ warnings d ↔ w ∈ warnings_at path d).
Proof.
  intros H. unfold warnings_at. rewrite !list_elem_of_In, List.filter_In. tauto.
Qed.

(** C3. For a numeric [quality.canonical_token_confidence_threshold]
    (an integer or a float, compared by its exact value; 0.7 is the float
    constant of the source), the quality validator appends the error
    "must be <= 1" and not the warning when the value is greater than 1;
    it appends the warning "below recommended default 0.70" and not that
    error when the value is less than 0.7 (such a value is at most 1); it
    appends neither when the value lies in [0.7, 1]; and in no case does it
    append both.  This holds whatever the lists held before and whether or
    not a later check of the validator raises. *)
Theorem threshold_over_or_under
    (py_set : list string → list string) (cfg quality : gmap string json)
    (v : json) :
  dict_get cfg "quality" = JDict quality →
  quality !! threshold_key = Some v →
  number_type_ok false v = true →
  ∃ r d, runs (validate_quality py_set cfg) r d
    ∧ (xlt (XFin 1) (json_value v) = true →
       threshold_over ∈ errors d ∧ threshold_under ∉ warnings d)
    ∧ (xlt (json_value v) x_0_7 = true →
       threshold_under ∈ warnings d ∧ threshold_over ∉ errors d)
    ∧ (xle x_0_7 (json_value v) = true → xle (json_value v) (XFin 1) = true →
       (threshold_over ∉ errors d) ∧ threshold_under ∉ warnings d)
    ∧ ¬ (threshold_over ∈ errors d ∧ threshold_under ∈ warnings d).
Proof.
  intros Hq Hv Hnum.
  destruct (validate_quality_threshold py_set cfg quality v Hq Hv Hnum)
    as (r & d & Hrun & HE & HW).
  exists r, d. split; [exact Hrun|].
  rewrite (elem_of_errors_at threshold_path threshold_over d eq_refl).
  rewrite (elem_of_warnings_at threshold_path threshold_under d eq_refl).
  rewrite HE, HW. clear HE HW Hrun.
  repeat split.
  - rewrite H. destruct (xlt (json_value v) (XFin 0)); in_literal.
  - rewrite H. by intros ?%elem_of_nil.
  - rewrite (xlt_asym _ _ (xlt_trans _ _ _ H x_0_7_below_1)), H.
    in_literal.
  - rewrite (xlt_asym _ _ (xlt_trans _ _ _ H x_0_7_below_1)).
    destruct (xlt (json_value v) (XFin 0)); not_in_literal.
  - rewrite (xle_not_lt _ _ H0).
    destruct (xlt (json_value v) (XFin 0)); not_in_literal.
  - rewrite (xle_not_lt _ _ H), (xle_not_lt _ _ H0). by intros ?%elem_of_nil.
  - destruct (xlt (XFin 1) (json_value v)); [by intros [_ ?%elem_of_nil]|].
    intros [He _]. revert He.
    destruct (xlt (json_value v) (XFin 0)); not_in_literal.
Qed.

Lemma threshold_over_or_under_witness :
  (∃ r d, runs (validate_quality set_in_order (cfg_threshold float_1_2)) r d
          ∧ threshold_over ∈ errors d ∧ threshold_under ∉ warnings d)
  ∧ (∃ r d, runs (validate_quality set_in_order (cfg_threshold float_0_5)) r d
            ∧ threshold_under ∈ warnings d ∧ threshold_over ∉ errors d)
  ∧ (∃ r d, runs (validate_quality set_in_order (cfg_threshold float_0_8)) r d
            ∧ (threshold_over ∉ errors d) ∧ threshold_under ∉ warnings d).
Proof.
  split; [|split].
  - destruct (threshold_over_or_under set_in_order (cfg_threshold float_1_2)
                (quality_with float_1_2) float_1_2 eq_refl eq_refl eq_refl)
      as (r & d & Hrun & H & _).
    exists r, d. split; [exact Hrun|]. apply H. reflexivity.
  - destruct (threshold_over_or_under set_in_order (cfg_threshold float_0_5)
                (quality_with float_0_5) float_0_5 eq_refl eq_refl eq_refl)
      as (r & d & Hrun & _ & H & _).
    exists r, d. split; [exact Hrun|]. apply H. reflexivity.
  - destruct (threshold_over_or_under set_in_order (cfg_threshold float_0_8)
                (quality_with float_0_8) float_0_8 eq_refl eq_refl eq_refl)
      as (r & d & Hrun & _ & _ & H & _).
    exists r, d. split; [exact Hrun|]. apply H; reflexivity.
Defined.

(** C10. For a numeric threshold below 0 the quality validator appends
    the error "must be >= 0.0" at the threshold's path, and also the
    warning "below recommended default 0.70". *)
Theorem threshold_below_zero
    (py_set : list string → list string) (cfg quality : gmap string json)
    (v : json) :
  dict_get cfg "quality" = JDict quality →
  quality !! threshold_key = Some v →
  number_type_ok false v = true →
  xlt (json_value v) (XFin 0) = true →
  ∃ r d, runs (validate_quality py_set cfg) r d
    ∧ threshold_negative ∈ errors d ∧ threshold_under ∈ warnings d.
Proof.
  intros Hq Hv Hnum Hneg.
  destruct (validate_quality_threshold py_set cfg quality v Hq Hv Hnum)
    as (r & d & Hrun & HE & HW).
  exists r, d. split; [exact Hrun|].
  rewrite (elem_of_errors_at threshold_path threshold_negative d eq_refl).
  rewrite (elem_of_warnings_at threshold_path threshold_under d eq_refl).
  rewrite HE, HW, Hneg.
  assert (xlt (json_value v) x_0_7 = true) as H07
    by exact (xlt_trans _ _ _ Hneg x_0_below_0_7).
  rewrite (xlt_asym _ _ (xlt_trans _ _ _ H07 x_0_7_below_1)), H07.
  split; in_literal.
Qed.

Lemma threshold_below_zero_witness :
  ∃ r d, runs (validate_quality set_in_order (cfg_threshold (JInt (-1)))) r d
    ∧ threshold_negative ∈ errors d ∧ threshold_under ∈ warnings d.
Proof.
  apply (threshold_below_zero set_in_order (cfg_threshold (JInt (-1)))
           (quality_with (JInt (-1))) (JInt (-1))); reflexivity.
Defined.

(** ** Independence of the iteration order of sets *)

Lemma set_in_order_builder : set_builder set_in_order.
Proof. by intros l. Qed.

Lemma set_reversed_builder : set_builder set_reversed.
Proof. intros l. unfold set_reversed. apply reverse_Permutation. Qed.

Lemma set_builder_perm p1 p2 l :
  set_builder p1 → set_builder p2 → p1 l ≡ₚ p2 l.
Proof. intros H1 H2. by rewrite (H1 l), (H2 l). Qed.

Lemma in_set_perm v (s1 s2 : list string) :
  s1 ≡ₚ s2 → in_set v s1 = in_set v s2.
Proof.
  intros H. destruct v; try done. simpl. f_equal.
  apply bool_decide_ext. by rewrite H.
Qed.

Lemma sorted_perm (s1 s2 : list string) : s1 ≡ₚ s2 → sorted s1 = sorted s2.
Proof.
  intros H. unfold sorted.
  apply (StronglySorted_unique String.le).
  - apply (StronglySorted_merge_sort String.le).
  - apply (StronglySorted_merge_sort String.le).
  - by rewrite !merge_sort_Permutation.
Qed.

Lemma truthy_set_elem (s : list string) : truthy_set s = true ↔ ∃ x, x ∈ s.
Proof.
  destruct s as [|x s]; simpl; split; try done.
  - by intros [x ?%elem_of_nil].
  - intros _. exists x. by left.
Qed.

Lemma truthy_intersection_perm (a1 a2 b1 b2 : list string) :
  a1 ≡ₚ a2 → b1 ≡ₚ b2 →
  truthy_set (intersection a1 b1) = truthy_set (intersection a2 b2).
Proof.
  intros Ha Hb. apply eq_true_iff_eq. rewrite !truthy_set_elem.
  unfold intersection. setoid_rewrite list_elem_of_filter.
  by setoid_rewrite Ha; setoid_rewrite Hb.
Qed.

Section Order.

Variables p1 p2 : list string → list string.
Hypothesis builder1 : set_builder p1.
Hypothesis builder2 : set_builder p2.

Lemma validate_project_order cfg : validate_project p1 cfg = validate_project p2 cfg.
Proof.
  unfold validate_project, ALLOWED_AUDIENCES, ALLOWED_INTENDED_USE.
  destruct (dict_get cfg "project"); try done. cbv zeta.
  rewrite (in_set_perm _ _ _ (set_builder_perm p1 p2
             ["designer"; "developer"; "both"] builder1 builder2)).
  rewrite (sorted_perm _ _ (set_builder_perm p1 p2
             ["designer"; "developer"; "both"] builder1 builder2)).
  rewrite (in_set_perm _ _ _ (set_builder_perm p1 p2
             ["internal_exploration"; "client_work"; "rebuild_baseline"]
             builder1 builder2)).
  rewrite (sorted_perm _ _ (set_builder_perm p1 p2
             ["internal_exploration"; "client_work"; "rebuild_baseline"]
             builder1 builder2)).
  reflexivity.
Qed.

Lemma validate_scope_order cfg : validate_scope p1 cfg = validate_scope p2 cfg.
Proof.
  unfold validate_scope, ALLOWED_CRAWL_MODES, DEFAULT_EXCLUDE_HINTS.
  destruct (dict_get cfg "scope") as [| | | | | |scope]; try done. cbv zeta.
  rewrite (in_set_perm _ _ _ (set_builder_perm p1 p2
             ["representative_sample"; "bounded_full"; "custom_urls"; "sitemap"]
             builder1 builder2)).
  rewrite (sorted_perm _ _ (set_builder_perm p1 p2
             ["representative_sample"; "bounded_full"; "custom_urls"; "sitemap"]
             builder1 builder2)).
  destruct (dict_get scope "exclude_paths") as [| | | | |paths|]; try done.
  rewrite (truthy_intersection_perm _ _ _ _
             (set_builder_perm p1 p2
                ["/legal"; "/privacy"; "/terms"; "/careers"; "/login"]
                builder1 builder2)
             (set_builder_perm p1 p2 (strings_of paths) builder1 builder2)).
  reflexivity.
Qed.

Lemma validate_quality_order cfg : validate_quality p1 cfg = validate_quality p2 cfg.
Proof.
  unfold validate_quality, ALLOWED_FALLBACKS.
  destruct (dict_get cfg "quality"); try done. cbv zeta.
  rewrite (in_set_perm _ _ _ (set_builder_perm p1 p2
             ["suggest_candidates"; "mark_unknown"; "infer_ranges"]
             builder1 builder2)).
  rewrite (sorted_perm _ _ (set_builder_perm p1 p2
             ["suggest_candidates"; "mark_unknown"; "infer_ranges"]
             builder1 builder2)).
  reflexivity.
Qed.

Lemma validation_order strict cfg : validation p1 strict cfg = validation p2 strict cfg.
Proof.
  unfold validation, base_pass.
  by rewrite validate_project_order, validate_scope_order, validate_quality_order.
Qed.

End Order.

(** C7. Two runs of the validator on the same configuration with the
    same strict flag, in two interpreter processes whose sets may iterate
    in different orders, end the same way with identical error lists and
    identical warning lists, entry by entry and in the same order; so do
    the printed lines and the exit code of [main]. *)
Theorem validation_is_deterministic
    (py_set1 py_set2 : list string → list string)
    (strict_guardrails : bool) (cfg : gmap string json) :
  set_builder py_set1 → set_builder py_set2 →
  validation py_set1 strict_guardrails cfg no_findings
  = validation py_set2 strict_guardrails cfg no_findings
  ∧ main py_set1 strict_guardrails (inr (JDict cfg))
    = main py_set2 strict_guardrails (inr (JDict cfg)).
Proof.
  intros H1 H2. unfold main.
  by rewrite (validation_order py_set1 py_set2 H1 H2).
Qed.

Lemma validation_is_deterministic_witness :
  validation set_in_order true cfg_unknown_audience no_findings
  = validation set_reversed true cfg_unknown_audience no_findings
  ∧ main set_in_order true (inr (JDict cfg_unknown_audience))
    = main set_reversed true (inr (JDict cfg_unknown_audience)).
Proof.
  apply (validation_is_deterministic set_in_order set_reversed true
           cfg_unknown_audience set_in_order_builder set_reversed_builder).
Defined.

(** ** The validators return *)

Lemma Forall_anything (l : list string) : Forall anything l.
Proof. by apply Forall_forall. Qed.

Lemma runs_emits {A} m (c : M A) (a : A) d :
  runs c (Ok a) d → emits m anything anything c.
Proof.
  intros H. exists (Ok a), d. split; [done|].
  split; [apply ends_weaken; by exists a|]. split; apply Forall_anything.
Qed.

Lemma emits_anything {A} m PE PW (c : M A) :
  emits m PE PW c → emits m anything anything c.
Proof. intros H. by eapply emits_mono. Qed.

Lemma emits_runs (c : M unit) :
  emits Returns anything anything c → ∃ d, runs c (Ok tt) d.
Proof. intros (r & d & Hrun & [[] ->] & _). by exists d. Qed.

Lemma returns_expect_number m (obj : gmap string json) key path minimum integer :
  emits m anything anything (expect_number obj key path minimum integer).
Proof.
  destruct (obj !! key) as [v|] eqn:Hv.
  - destruct (number_type_ok integer v) eqn:Hnum.
    + destruct minimum as [n|].
      * destruct (number_type_ok_lt integer v (lit_value n) Hnum) as [b Hb].
        eapply runs_emits. by eapply expect_number_minimum.
      * eapply runs_emits. by eapply expect_number_no_minimum.
    + eapply runs_emits. by eapply expect_number_bad_type.
  - eapply runs_emits. by eapply expect_number_missing.
Qed.

Lemma returns_expect_bool m (obj : gmap string json) key path :
  emits m anything anything (expect_bool obj key path).
Proof. apply emits_weaken. eapply emits_anything. apply emits_expect_bool. Qed.

Lemma returns_in_set m v s :
  hashable v = true → emits m anything anything (in_set v s).
Proof. destruct v; try done; intros _; apply emits_ret. Qed.

Ltac returns_step :=
  lazymatch goal with
  | |- emits _ _ _ (expect_number _ _ _ _ _) => apply returns_expect_number
  | |- emits _ _ _ (expect_bool _ _ _) => apply returns_expect_bool
  | |- emits _ _ _ (add_error _ _) => by apply emits_add_error
  | |- emits _ _ _ (add_warn _ _) => by apply emits_add_warn
  | |- emits _ _ _ (for_each _ _) => apply emits_for_each; intros ? _
  | _ => emits_step
  end.

Lemma returns_validate_guardrails m cfg :
  emits m anything anything (validate_guardrails cfg).
Proof. unfold validate_guardrails. cbv zeta. repeat returns_step. Qed.

Lemma returns_validate_capture m cfg :
  emits m anything anything (validate_capture cfg).
Proof. unfold validate_capture. repeat returns_step. Qed.

Lemma returns_validate_output m cfg :
  emits m anything anything (validate_output cfg).
Proof. unfold validate_output. cbv zeta. repeat returns_step. Qed.

Lemma enums_hashable_project cfg project :
  dict_get cfg "project" = JDict project → enums_hashable cfg = true →
  hashable (dict_get project "output_audience") = true
  ∧ hashable (dict_get project "intended_use") = true.
Proof.
  intros Hp. unfold enums_hashable, field. rewrite Hp.
  rewrite !andb_true_iff. tauto.
Qed.

Lemma enums_hashable_scope cfg scope :
  dict_get cfg "scope" = JDict scope → enums_hashable cfg = true →
  hashable (dict_get scope "crawl_mode") = true.
Proof.
  intros Hs. unfold enums_hashable, field. rewrite Hs.
  rewrite !andb_true_iff. tauto.
Qed.

Lemma enums_hashable_quality cfg quality :
  dict_get cfg "quality" = JDict quality → enums_hashable cfg = true →
  hashable (dict_get quality "low_confidence_fallback") = true.
Proof.
  intros Hq. unfold enums_hashable, field. rewrite Hq.
  rewrite !andb_true_iff. tauto.
Qed.

Lemma returns_str_in m needle v :
  is_http_url v = true → emits m anything anything (str_in needle v).
Proof. destruct v; try done. intros _. apply emits_ret. Qed.

(** [not isinstance(d.get(key), str) or not d[key].strip()] *)
Lemma returns_blank_check m (d : gmap string json) key :
  emits m anything anything
    (if negb (isinstance_str (dict_get d key)) then mret true
     else
       name ← subscript d key;
       stripped ← call_strip name;
       mret (negb (truthy (JStr stripped)))).
Proof.
  unfold dict_get. destruct (d !! key) as [v|] eqn:Hv; simpl.
  - rewrite (subscript_Some _ _ _ Hv).
    destruct v; simpl; apply emits_ret.
  - apply emits_ret.
Qed.

Lemma returns_validate_project m py_set cfg :
  enums_hashable cfg = true →
  emits m anything anything (validate_project py_set cfg).
Proof.
  intros Hh. unfold validate_project.
  destruct (dict_get cfg "project") as [| | | | | |project] eqn:Hp;
    try by apply emits_add_error.
  destruct (enums_hashable_project cfg project Hp Hh) as [Ha Hi].
  cbv zeta.
  apply emits_bind; [apply returns_blank_check|]. intros bad_name.
  apply emits_bind; [repeat returns_step|]. intros _.
  apply emits_bind.
  { destruct (is_http_url (dict_get project "source_url")) eqn:Hurl; simpl.
    - apply emits_bind; [|intros ?; repeat returns_step].
      apply emits_bind; [by apply returns_str_in|]. intros l.
      destruct l; [apply emits_ret | by apply returns_str_in].
    - by apply emits_add_error. }
  intros _.
  apply emits_bind; [by apply returns_in_set|]. intros known.
  apply emits_bind; [repeat returns_step|]. intros _.
  apply emits_bind; [by apply returns_in_set|]. intros known'.
  repeat returns_step.
Qed.

Lemma returns_validate_scope m py_set cfg :
  enums_hashable cfg = true →
  emits m anything anything (validate_scope py_set cfg).
Proof.
  intros Hh. unfold validate_scope.
  destruct (dict_get cfg "scope") as [| | | | | |scope] eqn:Hs;
    try by apply emits_add_error.
  pose proof (enums_hashable_scope cfg scope Hs Hh) as Hc.
  cbv zeta.
  apply emits_bind; [by apply returns_in_set|]. intros known.
  repeat returns_step.
Qed.

Lemma returns_range_check m v :
  emits m anything anything
    (if (isinstance_int v || isinstance_float v) && negb (isinstance_bool v)
     then
       over ← py_gt v (NInt 1);
       if over : bool then
         add_error "quality.canonical_token_confidence_threshold" "must be <= 1"
       else
         under ← py_lt v float_0_7;
         when under
           (add_warn "quality.canonical_token_confidence_threshold"
              "below recommended default 0.70")
     else mret tt).
Proof.
  destruct ((isinstance_int v || isinstance_float v) && negb (isinstance_bool v))
    eqn:Hnum; [|apply emits_ret].
  assert (number_type_ok false v = true) as Hok by by destruct v.
  unfold py_gt, py_lt.
  rewrite (gt_number_value v _ Hok), (lt_number_value v _ Hok). cbn [or_raise].
  apply emits_bind; [apply emits_ret|]. intros over.
  destruct over; [by apply emits_add_error|].
  apply emits_bind; [apply emits_ret|]. intros under. repeat returns_step.
Qed.

Lemma returns_validate_quality m py_set cfg :
  enums_hashable cfg = true →
  emits m anything anything (validate_quality py_set cfg).
Proof.
  intros Hh. unfold validate_quality.
  destruct (dict_get cfg "quality") as [| | | | | |quality] eqn:Hq;
    try by apply emits_add_error.
  pose proof (enums_hashable_quality cfg quality Hq Hh) as Hf.
  cbv zeta.
  apply emits_bind; [apply returns_expect_number|]. intros _.
  apply emits_bind; [apply returns_range_check|]. intros _.
  apply emits_bind; [by apply returns_in_set|]. intros known.
  repeat returns_step.
Qed.

(** ** The orchestrator *)

Lemma base_pass_runs py_set cfg dg dp ds dc dq dout :
  runs (validate_guardrails cfg) (Ok tt) dg →
  runs (validate_project py_set cfg) (Ok tt) dp →
  runs (validate_scope py_set cfg) (Ok tt) ds →
  runs (validate_capture cfg) (Ok tt) dc →
  runs (validate_quality py_set cfg) (Ok tt) dq →
  runs (validate_output cfg) (Ok tt) dout →
  runs (base_pass py_set cfg) (Ok tt)
    (extend dg (extend dp (extend ds (extend dc (extend dq dout))))).
Proof.
  intros Hg Hp Hs Hc Hq Ho. unfold base_pass.
  repeat (apply runs_seq; [assumption|]). assumption.
Qed.

Lemma missing_section_runs (v : json) (body : gmap string json → M unit) section :
  isinstance_dict v = false →
  runs (match v with
        | JDict d => body d
        | _ => add_error section "missing required object"
        end) (Ok tt) (one_error section "missing required object").
Proof. destruct v; try done; intros _; apply runs_add_error. Qed.

(** The validators one by one.  For a configuration whose four
    set-checked fields ([project.output_audience], [project.intended_use],
    [scope.crawl_mode], [quality.low_confidence_fallback]) are neither
    lists nor objects: each of the six section validators returns, what it
    appends does not depend on what the lists already hold, and the base
    pass appends exactly what the six validators append, once each and in
    the fixed order guardrails, project, scope, capture, quality, output.
    For every configuration: when one of the required sections
    [project], [scope], [capture], [quality] is missing or not an object,
    its validator returns after appending exactly the one error
    "<section>: missing required object" and nothing else. *)
Theorem sections_validated_independently
    (py_set : list string → list string) (cfg : gmap string json) :
  (enums_hashable cfg = true →
   ∃ dg dp ds dc dq dout,
     runs (validate_guardrails cfg) (Ok tt) dg
     ∧ runs (validate_project py_set cfg) (Ok tt) dp
     ∧ runs (validate_scope py_set cfg) (Ok tt) ds
     ∧ runs (validate_capture cfg) (Ok tt) dc
     ∧ runs (validate_quality py_set cfg) (Ok tt) dq
     ∧ runs (validate_output cfg) (Ok tt) dout
     ∧ runs (base_pass py_set cfg) (Ok tt)
         (extend dg (extend dp (extend ds (extend dc (extend dq dout))))))
  ∧ (isinstance_dict (dict_get cfg "project") = false →
     runs (validate_project py_set cfg) (Ok tt)
       (one_error "project" "missing required object"))
  ∧ (isinstance_dict (dict_get cfg "scope") = false →
     runs (validate_scope py_set cfg) (Ok tt)
       (one_error "scope" "missing required object"))
  ∧ (isinstance_dict (dict_get cfg "capture") = false →
     runs (validate_capture cfg) (Ok tt)
       (one_error "capture" "missing required object"))
  ∧ (isinstance_dict (dict_get cfg "quality") = false →
     runs (validate_quality py_set cfg) (Ok tt)
       (one_error "quality" "missing required object")).
Proof.
  split; [|repeat split; intros H; by apply missing_section_runs].
  intros Hh.
  destruct (emits_runs _ (returns_validate_guardrails Returns cfg)) as [dg Hg].
  destruct (emits_runs _ (returns_validate_project Returns py_set cfg Hh))
    as [dp Hp].
  destruct (emits_runs _ (returns_validate_scope Returns py_set cfg Hh))
    as [ds Hs].
  destruct (emits_runs _ (returns_validate_capture Returns cfg)) as [dc Hc].
  destruct (emits_runs _ (returns_validate_quality Returns py_set cfg Hh))
    as [dq Hq].
  destruct (emits_runs _ (returns_validate_output Returns cfg)) as [dout Ho].
  exists dg, dp, ds, dc, dq, dout. repeat (split; [assumption|]).
  by apply base_pass_runs.
Qed.

Lemma sections_validated_independently_witness :
  (∃ d, runs (base_pass set_in_order cfg_unknown_audience) (Ok tt) d)
  ∧ runs (validate_scope set_in_order cfg_unknown_audience) (Ok tt)
      (one_error "scope" "missing required object").
Proof.
  destruct (sections_validated_independently set_in_order cfg_unknown_audience)
    as (Hbase & _ & Hscope & _).
  split.
  - destruct (Hbase eq_refl) as (dg & dp & ds & dc & dq & dout & H).
    exists (extend dg (extend dp (extend ds (extend dc (extend dq dout))))).
    apply H.
  - apply Hscope. reflexivity.
Defined.

(** C1 (code bug).  At the configuration [cfg_unhashable_audience], whose
    [project.output_audience] is the empty list, the membership test of
    the project validator raises [TypeError] while the error list is still
    empty; the exception leaves [main], so the exit status is 1 although no
    error was accumulated. *)
Theorem exit_status_one_without_errors (py_set : list string → list string) :
  validation py_set false cfg_unhashable_audience no_findings
  = (Raise TypeError, no_findings)
  ∧ main py_set false (inr (JDict cfg_unhashable_audience)) = Uncaught TypeError
  ∧ exit_status (main py_set false (inr (JDict cfg_unhashable_audience))) = 1%Z.
Proof.
  assert (validation py_set false cfg_unhashable_audience no_findings
          = (Raise TypeError, no_findings)) as H by reflexivity.
  split; [exact H|]. unfold main. by rewrite H.
Qed.

(** C4 (code bug).  At the configuration [cfg_unhashable_crawl_mode],
    whose [scope.crawl_mode] is the empty list (so it is not
    [custom_urls]) and whose [scope.custom_urls] is a non-empty list, the
    membership test on [crawl_mode] raises [TypeError] before the
    conditional rules are reached: the scope validator appends no warning
    and no error. *)
Theorem custom_urls_warning_lost (py_set : list string → list string) :
  eq_str (dict_get scope_unhashable_crawl_mode "crawl_mode") "custom_urls" = false
  ∧ contains_key scope_unhashable_crawl_mode "custom_urls" = true
  ∧ truthy (dict_get scope_unhashable_crawl_mode "custom_urls") = true
  ∧ validate_scope py_set cfg_unhashable_crawl_mode no_findings
    = (Raise TypeError, no_findings).
Proof. repeat split; reflexivity. Qed.

(** ** The output-package checker *)

Section PackageChecker.

Import Package.

Variable json_loads : string → string + json.
Variable str_lower : string → string.
Variable under_root : string → string.
Variable fs : gmap string entry.

Lemma io_bind_run {A B} (c : IO A) (k : A → IO B) a w w' :
  c w = (Ok a, w') → bind c k w = k a w'.
Proof. intros H. unfold bind. by rewrite H. Qed.

Lemma required_loop (rels : list string) w :
  for_each rels (λ rel,
    let p := under_root rel in
    when (negb (path_exists fs p))
      (append_error ("Missing required file: " +:+ p))) w
  = (Ok tt,
     World (errors w
            ++ ((λ p, "Missing required file: " +:+ p)
                  <$> List.filter (λ p, negb (path_exists fs p))
                        (under_root <$> rels)))
       (warnings w) (stdout w) (reads w)).
Proof.
  revert w. induction rels as [|rel rels IH]; intros [es ws out rs]; simpl.
  - unfold ret. by rewrite app_nil_r.
  - unfold bind. destruct (negb (path_exists fs (under_root rel))); simpl.
    + rewrite IH. simpl. by rewrite <- app_assoc.
    + rewrite IH. done.
Qed.

Lemma print_loop (prefix : string) (msgs : list string) w :
  for_each msgs (λ msg, print (prefix +:+ msg)) w
  = (Ok tt,
     World (errors w) (warnings w)
       (stdout w ++ ((λ msg, prefix +:+ msg) <$> msgs)) (reads w)).
Proof.
  revert w. induction msgs as [|msg msgs IH]; intros [es ws out rs]; simpl.
  - unfold ret. by rewrite app_nil_r.
  - unfold bind, print. simpl. rewrite IH. simpl. by rewrite <- app_assoc.
Qed.

Lemma io_bind_raise {A B} (c : IO A) (k : A → IO B) e w w' :
  c w = (Raise e, w') → bind c k w = (Raise e, w').
Proof. intros H. unfold bind. by rewrite H. Qed.

(** [parse_json] never raises: what [read_text] or the decoder raises
    comes back as the text of the exception. *)
Lemma parse_json_run p w :
  parse_json json_loads fs p w
  = (Ok (parsed json_loads fs p),
     World (errors w) (warnings w) (stdout w) (reads w ++ [p])).
Proof.
  unfold parse_json, catch, parsed, mbind, IO_bind, bind, read_text.
  destruct (fs !! p) as [[text|message]|]; [|done|done].
  by destruct (json_loads text).
Qed.

Lemma read_text_run p w :
  read_text fs p w
  = (read_result fs p,
     World (errors w) (warnings w) (stdout w) (reads w ++ [p])).
Proof. unfold read_text, read_result. by destruct (fs !! p) as [[]|]. Qed.

Lemma shape_block p keys data err w :
  (if truthy_opt err then
     append_error (p +:+ ": invalid JSON (" +:+ default "" err +:+ ")")
   else
     match data with
     | JDict data => require_keys data keys p
     | _ => append_error (p +:+ ": expected top-level object")
     end) w
  = (Ok tt,
     World (errors w ++ shape_errors p keys (data, err)) (warnings w)
       (stdout w) (reads w)).
Proof.
  destruct w as [es ws out rs]. unfold shape_errors. simpl.
  destruct (truthy_opt err); [done|].
  destruct data; try done.
  unfold require_keys. cbv zeta.
  destruct (truthy_set _); simpl; [done|]. unfold ret. by rewrite app_nil_r.
Qed.

Lemma token_block p data err w :
  (if truthy_opt err then
     append_error (p +:+ ": invalid JSON (" +:+ default "" err +:+ ")")
   else
     match data with
     | JDict data =>
         let expected_top :=
           ["color"; "typography"; "spacing"; "radius"; "shadow"; "border";
            "motion"; "layout"] in
         let missing :=
           List.filter (λ k, negb (contains_key data k)) expected_top in
         when (truthy_set missing)
           (append_warning
              (p +:+ ": missing recommended token groups "
               +:+ repr_list missing))
     | _ => append_error (p +:+ ": expected top-level object")
     end) w
  = (Ok tt,
     World (errors w ++ shape_errors p [] (data, err))
       (warnings w ++ token_warnings p (data, err)) (stdout w) (reads w)).
Proof.
  destruct w as [es ws out rs]. unfold shape_errors, token_warnings. simpl.
  destruct (truthy_opt err); [by rewrite app_nil_r|].
  destruct data; try by rewrite app_nil_r.
  cbv zeta. destruct (truthy_set _); simpl; [by rewrite app_nil_r|].
  unfold ret. by rewrite !app_nil_r.
Qed.

Lemma warn_loop {A} (xs : list A) (cond : A → bool) (msg : A → string) w :
  for_each xs (λ x, when (cond x) (append_warning (msg x))) w
  = (Ok tt,
     World (errors w) (warnings w ++ (msg <$> List.filter cond xs))
       (stdout w) (reads w)).
Proof.
  revert w. induction xs as [|x xs IH]; intros [es ws out rs]; simpl.
  - unfold ret. by rewrite app_nil_r.
  - unfold bind. destruct (cond x); simpl.
    + rewrite IH. simpl. by rewrite <- app_assoc.
    + by rewrite IH.
Qed.

Lemma when_warning (b : bool) msg w :
  when b (append_warning msg) w
  = (Ok tt,
     World (errors w) (warnings w ++ (if b then [msg] else [])) (stdout w)
       (reads w)).
Proof.
  destruct w, b; simpl; [done|]. unfold ret. by rewrite app_nil_r.
Qed.

(** A JSON file passes its checks exactly when nothing is appended for
    it. *)
Lemma shape_errors_nil p keys :
  shape_errors p keys (parsed json_loads fs p) = []
  ↔ json_object_with json_loads fs p keys = true.
Proof.
  unfold shape_errors, parsed, json_object_with.
  destruct (fs !! p) as [[text|message]|]; simpl; [| |done].
  2: { unfold truthy_opt. by destruct (negb (String.eqb message "")). }
  destruct (json_loads text) as [msg|data]; simpl.
  - by destruct (negb (String.eqb msg "")).
  - destruct data as [| | | | | |d]; try done.
    assert (truthy_set (List.filter (λ k, negb (contains_key d k)) keys)
            = negb (forallb (contains_key d) keys)) as ->.
    { induction keys as [|k keys IH]; simpl; [done|].
      destruct (contains_key d k); simpl; [exact IH | done]. }
    by destruct (forallb _ _).
Qed.

Lemma missing_paths_nil_exists rel :
  missing_paths under_root fs = [] → rel ∈ REQUIRED_PATHS →
  ∃ text, fs !! under_root rel = Some text.
Proof.
  unfold missing_paths. intros Hnil Hin.
  assert (under_root rel
          ∈ List.filter (λ p, negb (path_exists fs p))
              (under_root <$> REQUIRED_PATHS)
          ∨ path_exists fs (under_root rel) = true) as [H|H].
  { destruct (path_exists fs (under_root rel)) eqn:Hex; [by right|left].
    rewrite list_elem_of_In. apply List.filter_In. split.
    - apply list_elem_of_In. by apply list_elem_of_fmap_2.
    - by rewrite Hex. }
  - rewrite Hnil in H. by apply elem_of_nil in H.
  - unfold path_exists in H. by apply bool_decide_eq_true in H.
Qed.

Lemma the_errors_run {B} (k : list string → IO B) w :
  bind the_errors k w = k (errors w) w.
Proof. done. Qed.

Lemma the_warnings_run {B} (k : list string → IO B) w :
  bind the_warnings k w = k (warnings w) w.
Proof. done. Qed.

Lemma main_present_run :
  missing_paths under_root fs = [] →
  main json_loads str_lower under_root fs start
  = present_outcome json_loads str_lower under_root fs.
Proof.
  intros Hnil. unfold present_outcome, PNIE_REPORT, SUMMARY_REPORT.
  unfold main, mbind, IO_bind.
  erewrite io_bind_run; [|apply required_loop].
  fold (missing_paths under_root fs). rewrite Hnil.
  rewrite the_errors_run.
  cbn [errors start app fmap list_fmap truthy_set].
  erewrite io_bind_run; [|apply parse_json_run].
  unfold json_errors. cbn [errors warnings stdout reads start].
  destruct (parsed json_loads fs (under_root "tokens/tokens.json"))
    as [data1 err1].
  erewrite io_bind_run; [|apply token_block].
  cbn [errors warnings stdout reads].
  erewrite io_bind_run; [|apply parse_json_run].
  cbn [errors warnings stdout reads].
  destruct (parsed json_loads fs (under_root "evidence/crawl-manifest.json"))
    as [data2 err2].
  erewrite io_bind_run; [|apply shape_block].
  cbn [errors warnings stdout reads].
  erewrite io_bind_run; [|apply parse_json_run].
  cbn [errors warnings stdout reads].
  destruct (parsed json_loads fs (under_root "evidence/page-weights.json"))
    as [data3 err3].
  erewrite io_bind_run; [|apply shape_block].
  cbn [errors warnings stdout reads].
  erewrite io_bind_run; [|apply parse_json_run].
  cbn [errors warnings stdout reads].
  destruct (parsed json_loads fs
              (under_root "evidence/extraction-confidence.json"))
    as [data4 err4].
  erewrite io_bind_run; [|apply shape_block].
  cbn [errors warnings stdout reads app].
  rewrite <- ?app_assoc.
  set (E := shape_errors _ _ _ ++ _).
  destruct (read_result fs
              (under_root "reports/preserve-normalize-improve-exclude.md"))
    as [pnie|e] eqn:Hpnie.
  2: { erewrite io_bind_raise; [|rewrite read_text_run, Hpnie; reflexivity].
       reflexivity. }
  erewrite io_bind_run; [|rewrite read_text_run, Hpnie; reflexivity].
  cbn [errors warnings stdout reads].
  erewrite io_bind_run; [|apply warn_loop].
  cbn [errors warnings stdout reads app].
  rewrite <- ?app_assoc. cbn [app]. fold (pnie_warnings pnie).
  destruct (read_result fs (under_root "reports/executive-summary.md"))
    as [summary|e] eqn:Hsummary.
  2: { erewrite io_bind_raise; [|rewrite read_text_run, Hsummary; reflexivity].
       reflexivity. }
  erewrite io_bind_run; [|rewrite read_text_run, Hsummary; reflexivity].
  cbn [errors warnings stdout reads].
  erewrite io_bind_run; [|apply when_warning].
  cbn [errors warnings stdout reads].
  rewrite the_errors_run, the_warnings_run.
  cbn [errors warnings stdout reads app].
  rewrite <- ?app_assoc. cbn [app]. fold (summary_warnings str_lower summary).
  set (W := token_warnings _ _ ++ _).
  destruct (truthy_set E) eqn:HE; cbn [when].
  - erewrite io_bind_run; [|apply print_loop].
    cbn [errors warnings stdout reads].
    erewrite io_bind_run; [|apply print_loop].
    cbn [errors warnings stdout reads].
    unfold bind, print, mret, IO_ret, ret, package_summary.
    cbn [errors warnings stdout reads]. rewrite HE, <- ?app_assoc.
    reflexivity.
  - rewrite bind_ret_l.
    erewrite io_bind_run; [|apply print_loop].
    cbn [errors warnings stdout reads].
    unfold bind, print, mret, IO_ret, ret, package_summary.
    cbn [errors warnings stdout reads]. rewrite HE.
    destruct E; [|discriminate HE]. reflexivity.
Qed.

Lemma main_missing :
  missing_paths under_root fs ≠ [] →
  main json_loads str_lower under_root fs start
  = (Ok 1%Z,
     World ((λ p, "Missing required file: " +:+ p) <$> missing_paths under_root fs)
       []
       (((λ p, "ERROR: Missing required file: " +:+ p)
           <$> missing_paths under_root fs)
        ++ ["Validation failed ("
            +:+ pretty (length (missing_paths under_root fs))
            +:+ " missing required files)"])
       []).
Proof.
  intros Hne. unfold main, mbind, IO_bind.
  erewrite io_bind_run; [|apply required_loop].
  fold (missing_paths under_root fs).
  rewrite the_errors_run. cbn [errors warnings stdout reads start app].
  destruct (missing_paths under_root fs) as [|p ps] eqn:Hm; [done|].
  cbn [truthy_set fmap list_fmap].
  erewrite io_bind_run; [|apply print_loop].
  cbn [errors warnings stdout reads start app].
  unfold bind, print, mret, IO_ret, ret.
  cbn [errors warnings stdout reads fmap list_fmap length].
  rewrite length_fmap, <- list_fmap_compose. reflexivity.
Qed.

Lemma json_errors_nil :
  truthy_set (json_errors json_loads under_root fs) = false
  ↔ json_files_ok json_loads under_root fs = true.
Proof.
  unfold json_files_ok. rewrite !andb_true_iff, <- !shape_errors_nil.
  unfold json_errors.
  destruct (shape_errors (under_root "tokens/tokens.json") _ _);
    [|simpl; split; [done | by intros [[[? _] _] _]]].
  destruct (shape_errors (under_root "evidence/crawl-manifest.json") _ _);
    [|simpl; split; [done | by intros [[[_ ?] _] _]]].
  destruct (shape_errors (under_root "evidence/page-weights.json") _ _);
    [|simpl; split; [done | by intros [[_ ?] _]]].
  destruct (shape_errors (under_root "evidence/extraction-confidence.json") _ _);
    [|simpl; split; [done | by intros [_ ?]]].
  done.
Qed.

End PackageChecker.

Example complete_package_accepted :
  ∃ w, Package.main sample_loads lower under_out fs_complete Package.start
       = (Ok 0%Z, w)
       ∧ Package.errors w = []
       ∧ List.length (Package.warnings w) = 2
       ∧ List.last (Package.stdout w) ""
         = "Validation passed with 2 warning(s)".
Proof. eexists. vm_compute. repeat split; reflexivity. Qed.

Lemma read_result_text fs p text :
  text_at fs p = Some text → read_result fs p = Ok text.
Proof.
  unfold text_at, read_result.
  destruct (fs !! p) as [[]|]; intros H; by inversion H.
Qed.

Lemma read_result_no_text fs p :
  text_at fs p = None → ∃ e, read_result fs p = Raise e.
Proof.
  unfold text_at, read_result.
  destruct (fs !! p) as [[]|]; intros H; try discriminate H; by eexists.
Qed.

Lemma reports_readable_texts under_root fs :
  reports_readable under_root fs = true →
  ∃ pnie summary,
    text_at fs (under_root PNIE_REPORT) = Some pnie
    ∧ text_at fs (under_root SUMMARY_REPORT) = Some summary.
Proof.
  unfold reports_readable. rewrite andb_true_iff, !bool_decide_eq_true.
  intros [[pnie Hp] [summary Hs]]. by exists pnie, summary.
Qed.

(** C8 (code bug).  The output-package checker on any directory.  When
    some required path is missing it returns 1 after printing one
    "ERROR: Missing required file" line per missing path and the summary,
    without a call of [read_text].  When every required path exists and
    the text of both reports can be read, it returns; its exit code is 1
    exactly when one of the four checked JSON files does not decode to an
    object with its required keys, and otherwise it is 0 and the last line
    reports the number of warnings.  When every required path exists and
    the text of one of the two reports cannot be read, the exception of
    [read_text] leaves [main]: the exit status is 1 and nothing was
    printed, whether or not the JSON files pass their checks. *)
Theorem package_exit_status
    (json_loads : string → string + json) (str_lower : string → string)
    (under_root : string → string) (fs : gmap string Package.entry) :
  (missing_paths under_root fs ≠ [] →
   ∃ w,
     Package.main json_loads str_lower under_root fs Package.start = (Ok 1%Z, w)
     ∧ Package.reads w = []
     ∧ Package.stdout w
       = ((λ p, "ERROR: Missing required file: " +:+ p)
            <$> missing_paths under_root fs)
         ++ ["Validation failed ("
             +:+ pretty (length (missing_paths under_root fs))
             +:+ " missing required files)"])
  ∧ (missing_paths under_root fs = [] →
     reports_readable under_root fs = true →
     ∃ code w,
       Package.main json_loads str_lower under_root fs Package.start
       = (Ok code, w)
       ∧ (code = 1%Z ↔ json_files_ok json_loads under_root fs = false)
       ∧ (code ≠ 1%Z →
          code = 0%Z
          ∧ ∃ out,
              Package.stdout w
              = out ++ ["Validation passed with "
                        +:+ pretty (length (Package.warnings w))
                        +:+ " warning(s)"]))
  ∧ (missing_paths under_root fs = [] →
     reports_readable under_root fs = false →
     ∃ e w,
       Package.main json_loads str_lower under_root fs Package.start
       = (Raise e, w)
       ∧ Package.exit_status (Raise e) = 1%Z
       ∧ Package.stdout w = []).
Proof.
  split; [|split].
  - intros Hne. eexists. split; [by apply main_missing|]. by split.
  - intros Hnil Hread.
    destruct (reports_readable_texts _ _ Hread) as (pnie & summary & Hp & Hs).
    rewrite (main_present_run _ _ _ _ Hnil). unfold present_outcome.
    rewrite (read_result_text _ _ _ Hp), (read_result_text _ _ _ Hs).
    cbv zeta.
    pose proof (json_errors_nil json_loads under_root fs) as Hok.
    eexists _, _. split; [reflexivity|]. cbn [Package.stdout Package.warnings].
    unfold package_summary.
    destruct (truthy_set (json_errors json_loads under_root fs)).
    + split; [|done]. split; [|done].
      intros _. apply not_true_is_false. intros H. by apply Hok in H.
    + split.
      * split; [done|]. intros H. rewrite (proj1 Hok eq_refl) in H.
        discriminate.
      * intros _. split; [done|]. eexists. by rewrite app_assoc.
  - intros Hnil Hread.
    rewrite (main_present_run _ _ _ _ Hnil). unfold present_outcome.
    cbv zeta.
    destruct (read_result fs (under_root PNIE_REPORT)) as [pnie|e] eqn:Hp;
      [|by eexists _, _].
    destruct (read_result fs (under_root SUMMARY_REPORT)) as [summary|e] eqn:Hs;
      [|by eexists _, _].
    exfalso. revert Hread Hp Hs. unfold reports_readable, read_result, text_at.
    destruct (fs !! under_root PNIE_REPORT) as [[]|]; try discriminate.
    destruct (fs !! under_root SUMMARY_REPORT) as [[]|]; discriminate.
Qed.

Lemma package_exit_status_witness :
  missing_paths under_out fs_binary_report = []
  ∧ json_files_ok sample_loads under_out fs_binary_report = true
  ∧ ∃ e w,
      Package.main sample_loads lower under_out fs_binary_report Package.start
      = (Raise e, w)
      ∧ Package.exit_status (Raise e) = 1%Z
      ∧ Package.stdout w = [].
Proof.
  split; [vm_compute; reflexivity|]. split; [vm_compute; reflexivity|].
  destruct (package_exit_status sample_loads lower under_out fs_binary_report)
    as (_ & _ & H).
  apply H; vm_compute; reflexivity.
Defined.

(** ** The decision of [main] on runs that reach it *)

Lemma strict_pass_returns cfg : ∃ d, runs (strict_pass cfg) (Ok tt) d.
Proof.
  destruct (dict_get cfg "guardrails") eqn:Hg;
    try (eexists; apply strict_pass_no_object; by rewrite Hg).
  eexists. by apply strict_pass_object.
Qed.

(** A configuration whose set-checked fields are hashable is validated
    to the end. *)
Lemma validation_returns py_set strict_guardrails cfg :
  enums_hashable cfg = true →
  ∃ d, runs (validation py_set strict_guardrails cfg) (Ok tt) d.
Proof.
  intros Hh.
  destruct (emits_runs _ (returns_validate_guardrails Returns cfg)) as [dg Hg].
  destruct (emits_runs _ (returns_validate_project Returns py_set cfg Hh))
    as [dp Hp].
  destruct (emits_runs _ (returns_validate_scope Returns py_set cfg Hh))
    as [ds Hs].
  destruct (emits_runs _ (returns_validate_capture Returns cfg)) as [dc Hc].
  destruct (emits_runs _ (returns_validate_quality Returns py_set cfg Hh))
    as [dq Hq].
  destruct (emits_runs _ (returns_validate_output Returns cfg)) as [dout Ho].
  pose proof (base_pass_runs py_set cfg _ _ _ _ _ _ Hg Hp Hs Hc Hq Ho) as Hbase.
  unfold validation. destruct strict_guardrails; simpl.
  - destruct (strict_pass_returns cfg) as [dstrict Hstrict].
    eexists. by eapply runs_seq.
  - eexists. eapply runs_seq; [exact Hbase | apply (runs_ret tt)].
Qed.

(** Once the lists are complete, [main] returns 1 exactly when the error
    list is not empty, whatever the number of warnings; otherwise it
    returns 0 after the warning lines and the line with their count. *)
Lemma main_decision py_set strict_guardrails cfg st :
  validation py_set strict_guardrails cfg no_findings = (Ok tt, st) →
  main py_set strict_guardrails (inr (JDict cfg)) = report st
  ∧ (exit_status (report st) = 1%Z ↔ errors st ≠ [])
  ∧ (errors st = [] →
     report st
     = Exit 0 (((λ warning, "WARN: " +:+ warning) <$> warnings st)
               ++ ["Config validation passed ("
                   +:+ pretty (length (warnings st)) +:+ " warning(s))"])).
Proof.
  intros Hrun. unfold main. rewrite Hrun. split; [done|].
  unfold report. destruct (errors st) as [|e es]; simpl.
  - split; [done|]. intros _. by rewrite app_nil_r.
  - done.
Qed.

(** ** The conditional rules of the scope validator *)

Lemma emits_expect_number (obj : gmap string json) key path minimum integer :
  emits Returns (λ e, at_path (path +:+ "." +:+ key) e = true) (λ _, False)
    (expect_number obj key path minimum integer).
Proof.
  assert (∀ msg,
    runs (expect_number obj key path minimum integer) (Ok tt)
      (one_error (path +:+ "." +:+ key) msg) →
    emits Returns (λ e, at_path (path +:+ "." +:+ key) e = true) (λ _, False)
      (expect_number obj key path minimum integer)) as Hone.
  { intros msg H. exists (Ok tt), (one_error (path +:+ "." +:+ key) msg).
    split; [done|]. split; [by exists tt|]. split; simpl; [|done].
    repeat constructor. apply at_path_finding. }
  assert (runs (expect_number obj key path minimum integer) (Ok tt) no_findings →
    emits Returns (λ e, at_path (path +:+ "." +:+ key) e = true) (λ _, False)
      (expect_number obj key path minimum integer)) as Hnone.
  { intros H. exists (Ok tt), no_findings.
    split; [done|]. split; [by exists tt|]. by split. }
  destruct (obj !! key) as [v|] eqn:Hv.
  - destruct (number_type_ok integer v) eqn:Hnum.
    + destruct minimum as [n|].
      * destruct (number_type_ok_lt integer v (lit_value n) Hnum) as [b Hb].
        pose proof (expect_number_minimum obj key path n integer v b Hv Hnum Hb)
          as Hrun.
        destruct b; [by eapply Hone | by apply Hnone].
      * apply Hnone. by eapply expect_number_no_minimum.
    + eapply Hone. by eapply expect_number_bad_type.
  - eapply Hone. by eapply expect_number_missing.
Qed.

Lemma emits_expect_number_elsewhere m (obj : gmap string json) key path
    minimum integer p :
  at_path (path +:+ "." +:+ key) (p +:+ ": ") = false →
  at_path p ((path +:+ "." +:+ key) +:+ ": ") = false →
  emits m (λ e, at_path p e = false) (λ w, at_path p w = false)
    (expect_number obj key path minimum integer).
Proof.
  intros H1 H2. apply emits_weaken.
  eapply emits_mono; [apply emits_expect_number | |]; simpl.
  - intros e He. by eapply at_path_apart.
  - done.
Qed.

Lemma emits_in_set_hashable m PE PW v s :
  hashable v = true → emits m PE PW (in_set v s).
Proof. destruct v; try done; intros _; apply emits_ret. Qed.

(** What precedes the findings at [path] in a sequence changes nothing
    at [path]. *)
Lemma finds_ok_after {A} path (c : M A) (k : A → M unit) es ws :
  emits Returns (λ e, at_path path e = false) (λ w, at_path path w = false) c →
  (∀ a, finds_ok path (k a) es ws) →
  finds_ok path (bind c k) es ws.
Proof.
  intros Hc Hk. eapply appends_bind; [exact Hc | |].
  - intros a d1 (_ & HE & HW). eapply appends_mono; [apply Hk|].
    intros r d2 (Hr & HE2 & HW2). split; [done|].
    rewrite errors_at_extend, warnings_at_extend.
    assert (errors_at path d1 = []) as -> by by apply filter_none.
    assert (warnings_at path d1 = []) as -> by by apply filter_none.
    done.
  - by intros e d1 ([? ?] & _).
Qed.

(** Nor does what follows them. *)
Lemma finds_ok_before path (c1 c2 : M unit) es ws :
  finds_ok path c1 es ws →
  emits Returns (λ e, at_path path e = false) (λ w, at_path path w = false) c2 →
  finds_ok path (c1;; c2) es ws.
Proof.
  intros H1 H2.
  eapply finds_ok_seq_eq; [exact H1 | by apply finds_ok_elsewhere | |];
    by rewrite app_nil_r.
Qed.

Ltac elsewhere_step :=
  lazymatch goal with
  | |- emits _ _ _ (expect_number _ _ _ _ _) =>
      apply emits_expect_number_elsewhere; reflexivity
  | |- emits _ _ _ (expect_bool _ _ _) =>
      apply emits_expect_bool_elsewhere; reflexivity
  | _ => emits_step
  end.

(** For a scope whose [crawl_mode] is hashable, the scope validator
    returns, and its findings at [scope.custom_urls] and at
    [scope.sitemap_url] are exactly those of the conditional rules. *)
Lemma scope_conditional_rules py_set (cfg scope : gmap string json) :
  dict_get cfg "scope" = JDict scope →
  hashable (dict_get scope "crawl_mode") = true →
  finds_ok "scope.custom_urls" (validate_scope py_set cfg)
    (if eq_str (dict_get scope "crawl_mode") "custom_urls" then
       match dict_get scope "custom_urls" with
       | JList (u :: us) =>
           if forallb is_http_url (u :: us) then []
           else ["scope.custom_urls: all entries must be http(s) URLs"]
       | _ =>
           ["scope.custom_urls: required non-empty list when crawl_mode=custom_urls"]
       end
     else [])
    (if eq_str (dict_get scope "crawl_mode") "custom_urls" then []
     else if contains_key scope "custom_urls"
             && truthy (dict_get scope "custom_urls")
          then ["scope.custom_urls: ignored unless crawl_mode=custom_urls"]
          else [])
  ∧ finds_ok "scope.sitemap_url" (validate_scope py_set cfg)
      (if eq_str (dict_get scope "crawl_mode") "sitemap" then
         if is_http_url (dict_get scope "sitemap_url") then []
         else ["scope.sitemap_url: required http(s) URL when crawl_mode=sitemap"]
       else [])
      (if eq_str (dict_get scope "crawl_mode") "sitemap" then []
       else if contains_key scope "sitemap_url"
               && truthy (dict_get scope "sitemap_url")
            then ["scope.sitemap_url: ignored unless crawl_mode=sitemap"]
            else []).
Proof.
  intros Hs Hh. unfold validate_scope. rewrite Hs. cbv beta iota zeta. split.
  - apply finds_ok_after; [by apply emits_in_set_hashable|]. intros known.
    do 8 (apply finds_ok_after; [repeat elsewhere_step|]; intros _).
    apply finds_ok_before.
    + destruct (eq_str (dict_get scope "crawl_mode") "custom_urls").
      * destruct (dict_get scope "custom_urls") as [| | | | |[|u us]|];
          try apply (finds_ok_add_error "scope.custom_urls"
                       "required non-empty list when crawl_mode=custom_urls").
        cbn [truthy negb]. destruct (forallb is_http_url (u :: us)); simpl.
        -- apply finds_ok_ret.
        -- apply (finds_ok_add_error "scope.custom_urls"
                    "all entries must be http(s) URLs").
      * destruct (contains_key scope "custom_urls"
                  && truthy (dict_get scope "custom_urls")); simpl.
        -- apply (finds_ok_add_warn "scope.custom_urls"
                    "ignored unless crawl_mode=custom_urls").
        -- apply finds_ok_ret.
    + repeat elsewhere_step.
  - apply finds_ok_after; [by apply emits_in_set_hashable|]. intros known.
    do 9 (apply finds_ok_after; [repeat elsewhere_step|]; intros _).
    destruct (eq_str (dict_get scope "crawl_mode") "sitemap").
    + destruct (is_http_url (dict_get scope "sitemap_url")); simpl.
      * apply finds_ok_ret.
      * apply (finds_ok_add_error "scope.sitemap_url"
                 "required http(s) URL when crawl_mode=sitemap").
    + destruct (contains_key scope "sitemap_url"
                && truthy (dict_get scope "sitemap_url")); simpl.
      * apply (finds_ok_add_warn "scope.sitemap_url"
                 "ignored unless crawl_mode=sitemap").
      * apply finds_ok_ret.
Qed.

(** ** Validators only append *)

Lemma emits_str_in PE PW needle v : emits ReturnsOrRaises PE PW (str_in needle v).
Proof. destruct v; first [apply emits_ret | apply emits_raise]. Qed.

Lemma emits_call_strip PE PW v : emits ReturnsOrRaises PE PW (call_strip v).
Proof. destruct v; first [apply emits_ret | apply emits_raise]. Qed.

Ltac raising_step :=
  lazymatch goal with
  | |- emits _ _ _ (in_set _ _) => apply emits_in_set
  | |- emits _ _ _ (str_in _ _) => apply emits_str_in
  | |- emits _ _ _ (call_strip _) => apply emits_call_strip
  | |- emits _ _ _ (subscript _ _) => apply emits_or_raise
  | |- emits _ _ _ (py_lt _ _) => apply emits_or_raise
  | |- emits _ _ _ (py_gt _ _) => apply emits_or_raise
  | |- emits _ _ _ (expect_number _ _ _ _ _) => apply returns_expect_number
  | |- emits _ _ _ (expect_bool _ _ _) => apply returns_expect_bool
  | |- emits _ _ _ (add_error _ _) => by apply emits_add_error
  | |- emits _ _ _ (add_warn _ _) => by apply emits_add_warn
  | |- emits _ _ _ (for_each _ _) => apply emits_for_each; intros ? _
  | _ => emits_step
  end.

Lemma framed_validate_project py_set cfg :
  emits ReturnsOrRaises anything anything (validate_project py_set cfg).
Proof. unfold validate_project. cbv zeta. repeat raising_step. Qed.

Lemma framed_validate_scope py_set cfg :
  emits ReturnsOrRaises anything anything (validate_scope py_set cfg).
Proof. unfold validate_scope. cbv zeta. repeat raising_step. Qed.

Lemma framed_validate_quality py_set cfg :
  emits ReturnsOrRaises anything anything (validate_quality py_set cfg).
Proof. unfold validate_quality. cbv zeta. repeat raising_step. Qed.

Lemma framed_strict_pass cfg :
  emits ReturnsOrRaises anything anything (strict_pass cfg).
Proof. unfold strict_pass. repeat raising_step. Qed.

Lemma framed_validation py_set strict_guardrails cfg :
  emits ReturnsOrRaises anything anything
    (validation py_set strict_guardrails cfg).
Proof.
  unfold validation.
  apply emits_bind;
    [|intros _; apply emits_when; intros _; apply framed_strict_pass].
  unfold base_pass.
  apply emits_bind; [apply returns_validate_guardrails|intros _].
  apply emits_bind; [apply framed_validate_project|intros _].
  apply emits_bind; [apply framed_validate_scope|intros _].
  apply emits_bind; [apply returns_validate_capture|intros _].
  apply emits_bind; [apply framed_validate_quality|intros _].
  apply returns_validate_output.
Qed.

(** ** Further properties of the intake validator *)

Lemma framed_base_pass py_set cfg :
  emits ReturnsOrRaises anything anything (base_pass py_set cfg).
Proof.
  unfold base_pass.
  apply emits_bind; [apply returns_validate_guardrails|intros _].
  apply emits_bind; [apply framed_validate_project|intros _].
  apply emits_bind; [apply framed_validate_scope|intros _].
  apply emits_bind; [apply returns_validate_capture|intros _].
  apply emits_bind; [apply framed_validate_quality|intros _].
  apply returns_validate_output.
Qed.

(** X1.  A run of the validators never removes, changes or reorders what
    the two lists already hold, and what it appends (and whether it raises)
    does not depend on what they hold: the lists at the end are the lists
    at the start followed by a fixed list of new entries. *)
Theorem validation_only_appends
    (py_set : list string → list string) (strict_guardrails : bool)
    (cfg : gmap string json) :
  ∃ r d, ∀ st,
    validation py_set strict_guardrails cfg st
    = (r, Lists (errors st ++ errors d) (warnings st ++ warnings d)).
Proof.
  destruct (framed_validation py_set strict_guardrails cfg)
    as (r & d & Hrun & _).
  exists r, d. exact Hrun.
Qed.

Lemma strict_pass_confirmed cfg :
  ∃ ds, runs (strict_pass cfg) (Ok tt) ds
    ∧ warnings ds = []
    ∧ (errors ds = [] ↔ confirmed cfg = true).
Proof.
  unfold confirmed.
  destruct (dict_get cfg "guardrails") as [| | | | | |g] eqn:Hg;
    try (eexists; split; [apply strict_pass_no_object; by rewrite Hg|];
         split; [done|]; split; discriminate).
  eexists. split; [by apply strict_pass_object|]. split; [done|].
  unfold unconfirmed. simpl.
  destruct (is_True (dict_get g "public_access_confirmed")),
    (is_True (dict_get g "non_clone_intent_confirmed")),
    (is_True (dict_get g "asset_rights_warning_confirmed"));
    simpl; split; done.
Qed.

Lemma report_accepts st out : report st = Exit 0 out → errors st = [].
Proof. unfold report. by destruct (errors st). Qed.

(** X2.  Strict mode only adds a condition: [main] accepts a
    configuration with [--strict-guardrails] exactly when it accepts it
    without the flag and [guardrails] is an object whose three
    confirmation flags are all [true]; the printed lines are then the
    same. *)
Theorem strict_acceptance
    (py_set : list string → list string) (cfg : gmap string json)
    (out : list string) :
  main py_set true (inr (JDict cfg)) = Exit 0 out
  ↔ main py_set false (inr (JDict cfg)) = Exit 0 out ∧ confirmed cfg = true.
Proof.
  destruct (framed_base_pass py_set cfg) as (r & d & Hbase & _).
  destruct (strict_pass_confirmed cfg) as (ds & Hstrict & Hws & Hconf).
  unfold main. destruct r as [[]|e].
  - assert (validation py_set true cfg no_findings = (Ok tt, extend d ds))
      as -> by (apply runs_fresh; exact (runs_seq _ _ _ _ _ Hbase Hstrict)).
    assert (validation py_set false cfg no_findings = (Ok tt, d)) as ->.
    { apply runs_fresh. rewrite <- (extend_no_findings_r d).
      exact (runs_seq _ _ _ _ _ Hbase (runs_ret tt)). }
    assert (errors ds = [] → extend d ds = d) as Heq.
    { intros Hes. destruct d, ds; unfold extend; simpl in *. subst.
      by rewrite !app_nil_r. }
    split.
    + intros Hrep.
      pose proof (report_accepts _ _ Hrep) as Herr.
      assert (errors ds = []) as Hes.
      { simpl in Herr. by apply app_eq_nil in Herr as [_ ?]. }
      rewrite (Heq Hes) in Hrep. split; [done|]. by apply Hconf.
    + intros [Hrep Hc]. by rewrite (Heq (proj2 Hconf Hc)).
  - assert (validation py_set true cfg no_findings = (Raise e, d))
      as -> by (apply runs_fresh; exact (runs_bind_raise _ _ _ _ Hbase)).
    assert (validation py_set false cfg no_findings = (Raise e, d))
      as -> by (apply runs_fresh; exact (runs_bind_raise _ _ _ _ Hbase)).
    split; [discriminate|]. by intros [? _].
Qed.

Lemma strict_acceptance_witness :
  main set_in_order true (inr (JDict cfg_valid_confirmed))
  = Exit 0 ["Config validation passed (0 warning(s))"].
Proof.
  apply (strict_acceptance set_in_order cfg_valid_confirmed).
  split; vm_compute; reflexivity.
Defined.

(** ** The project validator *)

Lemma rev_app_empty s1 s2 : String.rev_app s1 s2 = "" → s1 = "" ∧ s2 = "".
Proof.
  revert s2. induction s1 as [|c s1 IH]; intros s2 H; simpl in H; [done|].
  by destruct (IH _ H) as [_ ?].
Qed.

Lemma rev_app_rev_app s a b :
  String.rev_app (String.rev_app s a) b
  = String.rev_app a (String.rev_app (String.rev_app s "") b).
Proof.
  revert a b. induction s as [|c s IH]; intros a b; simpl; [done|].
  by rewrite (IH (String c a)), (IH (String c "")).
Qed.

Lemma rev_rev s : String.rev (String.rev s) = s.
Proof.
  unfold String.rev.
  induction s as [|c s IH]; simpl; [done|].
  rewrite rev_app_rev_app. simpl. by rewrite IH.
Qed.

(** The first byte of a character of two or three bytes is not a
    character, and the first byte of one of three bytes starts none of
    two. *)
Lemma space2_lead a b : space2 a b = true → space1 a = false.
Proof.
  unfold space2, space1. cbv zeta.
  rewrite andb_true_iff, N.eqb_eq. by intros [-> _].
Qed.

Lemma space3_lead a b c :
  space3 a b c = true → space1 a = false ∧ ∀ b', space2 a b' = false.
Proof.
  unfold space3, space2, space1. cbv zeta.
  rewrite !orb_true_iff, !andb_true_iff, !N.eqb_eq.
  intros [[[[[-> _] _]|[[-> _] _]]|[[-> _] _]]|[[-> _] _]]; by split.
Qed.

(** Induction on strings for functions that read up to three bytes at a
    time. *)
Lemma string_ind3 (P : string → Prop) :
  P "" →
  (∀ a, P "" → P (String a "")) →
  (∀ a b, P (String b "") → P "" → P (String a (String b ""))) →
  (∀ a b c s, P (String b (String c s)) → P (String c s) → P s →
              P (String a (String b (String c s)))) →
  ∀ s, P s.
Proof.
  intros H0 H1 H2 H3.
  assert (∀ n s, (String.length s ≤ n)%nat → P s) as H.
  { induction n as [|n IH]; intros s Hlen.
    - destruct s; [done|simpl in Hlen; lia].
    - destruct s as [|a [|b [|c s]]]; simpl in Hlen.
      + done.
      + apply H1, H0.
      + apply H2; [apply H1, H0 | apply H0].
      + apply H3; apply IH; simpl; lia. }
  intros s. by apply (H (String.length s)).
Qed.

Lemma lstrip_empty s : lstrip s = "" ↔ all_space s = true.
Proof.
  unfold lstrip.
  induction s as [|a IH0|a b IH1 IH0|a b c s IH2 IH1 IH0] using string_ind3;
    cbn [skip_spaces all_space].
  - done.
  - by destruct (space1 a).
  - destruct (space1 a); [exact IH1|]. by destruct (space2 a b).
  - destruct (space1 a); [exact IH2|].
    destruct (space2 a b); [exact IH1|]. by destruct (space3 a b c).
Qed.

Lemma lstrip_lstrip s : lstrip (lstrip s) = lstrip s.
Proof.
  unfold lstrip.
  induction s as [|a IH0|a b IH1 IH0|a b c s IH2 IH1 IH0] using string_ind3;
    cbn [skip_spaces].
  - done.
  - destruct (space1 a) eqn:H1; [done|]. cbn [skip_spaces]. by rewrite H1.
  - destruct (space1 a) eqn:H1; [exact IH1|].
    destruct (space2 a b) eqn:H2; [done|]. cbn [skip_spaces]. by rewrite H1, H2.
  - destruct (space1 a) eqn:H1; [exact IH2|].
    destruct (space2 a b) eqn:H2; [exact IH1|].
    destruct (space3 a b c) eqn:H3; [exact IH0|].
    cbn [skip_spaces]. by rewrite H1, H2, H3.
Qed.

(** A string that is stripped to nothing from its end is a sequence of
    whitespace characters. *)
Lemma rstrip_rev_app r acc :
  skip_spaces false r = "" → all_space acc = true →
  all_space (String.rev_app r acc) = true.
Proof.
  revert acc.
  induction r as [|a IH0|a b IH1 IH0|a b c r IH2 IH1 IH0] using string_ind3;
    intros acc; cbn [skip_spaces String.rev_app].
  - done.
  - destruct (space1 a) eqn:H1; [|done]. intros _ Hacc.
    cbn [all_space]. by rewrite H1.
  - destruct (space1 a) eqn:H1.
    + intros H Hacc. apply (IH1 (String a acc) H).
      cbn [all_space]. by rewrite H1.
    + destruct (space2 b a) eqn:H2; [|done]. intros _ Hacc.
      cbn [all_space]. by rewrite (space2_lead _ _ H2), H2.
  - destruct (space1 a) eqn:H1.
    + intros H Hacc. apply (IH2 (String a acc) H).
      cbn [all_space]. by rewrite H1.
    + destruct (space2 b a) eqn:H2.
      * intros H Hacc. apply (IH1 (String b (String a acc)) H).
        cbn [all_space]. by rewrite (space2_lead _ _ H2), H2.
      * destruct (space3 c b a) eqn:H3; [|done]. intros H Hacc.
        apply (IH0 (String c (String b (String a acc))) H).
        destruct (space3_lead _ _ _ H3) as [Hc1 Hc2].
        cbn [all_space]. by rewrite Hc1, Hc2, H3.
Qed.

(** [s.strip()] is empty exactly when [s] holds only whitespace. *)
Lemma strip_blank s : String.eqb (strip s) "" = all_space s.
Proof.
  apply eq_true_iff_eq. rewrite String.eqb_eq. unfold strip, rstrip. split.
  - intros H. unfold String.rev at 1 in H.
    apply rev_app_empty in H as [H _].
    pose proof (rstrip_rev_app _ "" H eq_refl) as Hall.
    fold (String.rev (String.rev (lstrip s))) in Hall.
    rewrite rev_rev in Hall. apply lstrip_empty in Hall.
    rewrite lstrip_lstrip in Hall. by apply lstrip_empty.
  - intros H.
    assert (lstrip s = "") as -> by by apply lstrip_empty.
    reflexivity.
Qed.

Example em_space_is_stripped : strip (em_space +:+ " ") = "".
Proof. reflexivity. Qed.

Lemma runs_quiet_emits {A} m PE PW (c : M A) (a : A) :
  runs c (Ok a) no_findings → emits m PE PW c.
Proof.
  intros H. exists (Ok a), no_findings. split; [done|].
  split; [apply ends_weaken; by exists a|]. by split.
Qed.

Lemma runs_finds_ok path (c : M unit) d :
  runs c (Ok tt) d → finds_ok path c (errors_at path d) (warnings_at path d).
Proof. intros H. by exists (Ok tt), d. Qed.

Lemma finds_bind_quiet {A B} path (c : M A) (k : A → M B) a es ws :
  runs c (Ok a) no_findings → finds path (k a) es ws →
  finds path (bind c k) es ws.
Proof.
  intros Hc (r & d & Hk & HP). exists r, d. split; [|done].
  rewrite <- (extend_no_findings_l d). by eapply runs_bind_ok.
Qed.

Lemma finds_ok_bind_quiet {A} path (c : M A) (k : A → M unit) a es ws :
  runs c (Ok a) no_findings → finds_ok path (k a) es ws →
  finds_ok path (bind c k) es ws.
Proof.
  intros Hc (r & d & Hk & HP). exists r, d. split; [|done].
  rewrite <- (extend_no_findings_l d). by eapply runs_bind_ok.
Qed.

Lemma finds_before {B} path (c1 : M unit) (c2 : M B) es ws :
  finds_ok path c1 es ws →
  emits ReturnsOrRaises (λ e, at_path path e = false)
    (λ w, at_path path w = false) c2 →
  finds path (c1;; c2) es ws.
Proof.
  intros H1 H2.
  eapply finds_seq_eq; [exact H1 | by apply finds_elsewhere | |];
    by rewrite app_nil_r.
Qed.

Lemma finds_after {A B} path (c : M A) (k : A → M B) es ws :
  emits Returns (λ e, at_path path e = false) (λ w, at_path path w = false) c →
  (∀ a, finds path (k a) es ws) →
  finds path (bind c k) es ws.
Proof.
  intros Hc Hk. eapply appends_bind; [exact Hc | |].
  - intros a d1 (_ & HE & HW). eapply appends_mono; [apply Hk|].
    intros r d2 (HE2 & HW2).
    rewrite errors_at_extend, warnings_at_extend.
    assert (errors_at path d1 = []) as -> by by apply filter_none.
    assert (warnings_at path d1 = []) as -> by by apply filter_none.
    done.
  - by intros e d1 ([? ?] & _).
Qed.

Ltac elsewhere_raising_step :=
  lazymatch goal with
  | |- emits _ _ _ (in_set _ _) => apply emits_in_set
  | |- emits _ _ _ (str_in _ _) => apply emits_str_in
  | |- emits _ _ _ (call_strip _) => apply emits_call_strip
  | |- emits _ _ _ (subscript _ _) => apply emits_or_raise
  | |- emits _ _ _ (py_lt _ _) => apply emits_or_raise
  | |- emits _ _ _ (py_gt _ _) => apply emits_or_raise
  | _ => elsewhere_step
  end.

(** [not isinstance(d.get("name"), str) or not d["name"].strip()] *)
Lemma blank_check_runs (d : gmap string json) :
  runs
    (if negb (isinstance_str (dict_get d "name")) then mret true
     else
       name ← subscript d "name";
       stripped ← call_strip name;
       mret (negb (truthy (JStr stripped))))
    (Ok (blank_name (dict_get d "name"))) no_findings.
Proof.
  unfold dict_get. destruct (d !! "name") as [v|] eqn:Hv; simpl.
  - rewrite (subscript_Some _ _ _ Hv).
    destruct v; simpl; try apply (runs_ret true).
    replace (all_space s) with (negb (truthy (JStr (strip s))))
      by (simpl; rewrite negb_involutive; apply strip_blank).
    apply (runs_ret (negb (truthy (JStr (strip s))))).
  - apply (runs_ret true).
Qed.

(** The check of [project.source_url]. *)
Lemma source_url_runs (source_url : json) :
  runs
    (if negb (is_http_url source_url) then
       add_error "project.source_url" "must be a public http(s) URL"
     else
       is_local ←
         (l ← str_in "localhost" source_url;
          if l : bool then mret true else str_in "127.0.0.1" source_url);
       when is_local
         (add_warn "project.source_url"
            "looks local/private; this skill is for public websites only"))
    (Ok tt)
    (if negb (is_http_url source_url) then
       one_error "project.source_url" "must be a public http(s) URL"
     else if mentions_local source_url then
       one_warning "project.source_url"
         "looks local/private; this skill is for public websites only"
     else no_findings).
Proof.
  destruct (is_http_url source_url) eqn:Hurl; simpl; [|apply runs_add_error].
  destruct source_url; try discriminate. simpl.
  destruct (str_contains "localhost" s); simpl.
  - apply runs_add_warn.
  - destruct (str_contains "127.0.0.1" s); simpl;
      [apply runs_add_warn | apply (runs_ret tt)].
Qed.

Lemma runs_emits_where {A} m (PE PW : string → Prop) (c : M A) (a : A) d :
  runs c (Ok a) d → Forall PE (errors d) → Forall PW (warnings d) →
  emits m PE PW c.
Proof.
  intros H HE HW. exists (Ok a), d. split; [done|].
  split; [apply ends_weaken; by exists a | done].
Qed.

Lemma validate_project_name py_set (cfg project : gmap string json) :
  dict_get cfg "project" = JDict project →
  finds "project.name" (validate_project py_set cfg)
    (if blank_name (dict_get project "name")
     then ["project.name: must be a non-empty string"] else [])
    [].
Proof.
  intros Hp. unfold validate_project. rewrite Hp. cbv beta iota zeta.
  eapply finds_bind_quiet; [apply blank_check_runs|].
  apply finds_before.
  - destruct (blank_name (dict_get project "name")); simpl.
    + apply (finds_ok_add_error "project.name" "must be a non-empty string").
    + apply finds_ok_ret.
  - repeat elsewhere_raising_step.
Qed.

Lemma validate_project_source_url py_set (cfg project : gmap string json) :
  dict_get cfg "project" = JDict project →
  finds "project.source_url" (validate_project py_set cfg)
    (if is_http_url (dict_get project "source_url") then []
     else ["project.source_url: must be a public http(s) URL"])
    (if is_http_url (dict_get project "source_url")
        && mentions_local (dict_get project "source_url")
     then ["project.source_url: looks local/private; this skill is for public websites only"]
     else []).
Proof.
  intros Hp. unfold validate_project. rewrite Hp. cbv beta iota zeta.
  eapply finds_bind_quiet; [apply blank_check_runs|].
  apply finds_after; [repeat elsewhere_step|]. intros _.
  apply finds_before.
  - pose proof (runs_finds_ok "project.source_url" _ _
                  (source_url_runs (dict_get project "source_url"))) as H.
    destruct (is_http_url (dict_get project "source_url")),
      (mentions_local (dict_get project "source_url")); exact H.
  - repeat elsewhere_raising_step.
Qed.

(** X3.  [project.name] is rejected, with the one error "must be a
    non-empty string", exactly when it is absent, not a string, or a
    string of whitespace characters only (the empty string included; the
    whitespace characters are the ones of [str.strip], those outside ASCII
    such as U+00A0 or U+2003 included); this holds whatever the rest of
    the project validator does afterwards. *)
Theorem project_name_must_not_be_blank
    (py_set : list string → list string) (cfg project : gmap string json) :
  dict_get cfg "project" = JDict project →
  ∃ r d, runs (validate_project py_set cfg) r d
    ∧ warnings_at "project.name" d = []
    ∧ errors_at "project.name" d
      = match project !! "name" with
        | Some (JStr s) =>
            if all_space s
            then ["project.name: must be a non-empty string"] else []
        | _ => ["project.name: must be a non-empty string"]
        end.
Proof.
  intros Hp.
  destruct (validate_project_name py_set cfg project Hp)
    as (r & d & Hrun & HE & HW).
  exists r, d. split; [done|]. split; [done|]. rewrite HE.
  unfold dict_get. destruct (project !! "name") as [[]|]; reflexivity.
Qed.

Lemma project_name_must_not_be_blank_witness :
  (∃ r d, runs (validate_project set_in_order cfg_local) r d
     ∧ errors_at "project.name" d
       = ["project.name: must be a non-empty string"])
  ∧ (∃ r d, runs (validate_project set_in_order cfg_em_space) r d
       ∧ errors_at "project.name" d
         = ["project.name: must be a non-empty string"]).
Proof.
  split.
  - destruct (project_name_must_not_be_blank set_in_order cfg_local
                project_local eq_refl) as (r & d & Hrun & _ & HE).
    by exists r, d.
  - destruct (project_name_must_not_be_blank set_in_order cfg_em_space
                project_em_space eq_refl) as (r & d & Hrun & _ & HE).
    by exists r, d.
Defined.

(** X4.  At [project.source_url] the project validator appends an error
    exactly when the value is not a string that starts with [http://] or
    [https://], and a warning exactly when it is such a URL and mentions
    [localhost] or [127.0.0.1]: a local URL is warned about, never
    rejected, and no value gets both findings. *)
Theorem project_source_url_findings
    (py_set : list string → list string) (cfg project : gmap string json) :
  dict_get cfg "project" = JDict project →
  ∃ r d, runs (validate_project py_set cfg) r d
    ∧ errors_at "project.source_url" d
      = (if is_http_url (dict_get project "source_url") then []
         else ["project.source_url: must be a public http(s) URL"])
    ∧ warnings_at "project.source_url" d
      = (if is_http_url (dict_get project "source_url")
            && mentions_local (dict_get project "source_url")
         then ["project.source_url: looks local/private; this skill is for public websites only"]
         else [])
    ∧ (errors_at "project.source_url" d = []
       ∨ warnings_at "project.source_url" d = []).
Proof.
  intros Hp.
  destruct (validate_project_source_url py_set cfg project Hp)
    as (r & d & Hrun & HE & HW).
  exists r, d. split; [done|]. split; [done|]. split; [done|].
  rewrite HE, HW. destruct (is_http_url _); [by left | by right].
Qed.

Lemma project_source_url_findings_witness :
  ∃ r d, runs (validate_project set_in_order cfg_local) r d
    ∧ errors_at "project.source_url" d = []
    ∧ warnings_at "project.source_url" d
      = ["project.source_url: looks local/private; this skill is for public websites only"].
Proof.
  destruct (project_source_url_findings set_in_order cfg_local project_local
              eq_refl) as (r & d & Hrun & HE & HW & _).
  by exists r, d.
Defined.

Lemma in_set_runs py_set v (l : list string) :
  set_builder py_set → hashable v = true →
  runs (in_set v (py_set l)) (Ok (one_of v (remove_dups l))) no_findings.
Proof.
  intros Hb Hh. destruct v; try done; try apply (runs_ret false).
  simpl. erewrite bool_decide_ext; [apply (runs_ret _)|].
  by rewrite (Hb l).
Qed.

Lemma sorted_set py_set (l : list string) :
  set_builder py_set → sorted (py_set l) = sorted (remove_dups l).
Proof. intros Hb. apply sorted_perm. apply Hb. Qed.

Lemma validate_project_enums py_set (cfg project : gmap string json) :
  set_builder py_set →
  dict_get cfg "project" = JDict project →
  hashable (dict_get project "output_audience") = true →
  finds "project.output_audience" (validate_project py_set cfg)
    (if one_of (dict_get project "output_audience")
          ["designer"; "developer"; "both"]
     then []
     else ["project.output_audience: must be one of ['both', 'designer', 'developer']"])
    []
  ∧ (hashable (dict_get project "intended_use") = true →
     finds_ok "project.intended_use" (validate_project py_set cfg)
       (if one_of (dict_get project "intended_use")
             ["internal_exploration"; "client_work"; "rebuild_baseline"]
        then []
        else ["project.intended_use: must be one of ['client_work', 'internal_exploration', 'rebuild_baseline']"])
       []).
Proof.
  intros Hb Hp Ha. unfold validate_project. rewrite Hp. cbv beta iota zeta.
  unfold ALLOWED_AUDIENCES, ALLOWED_INTENDED_USE.
  rewrite !(sorted_set py_set _ Hb).
  split.
  - eapply finds_bind_quiet; [apply blank_check_runs|].
    apply finds_after; [repeat elsewhere_step|]. intros _.
    apply finds_after.
    { eapply runs_emits_where; [apply source_url_runs| |];
        destruct (is_http_url _), (mentions_local _); simpl;
        repeat constructor. }
    intros _.
    eapply finds_bind_quiet; [by apply in_set_runs|].
    apply finds_before; [|repeat elsewhere_raising_step].
    change (remove_dups ["designer"; "developer"; "both"])
      with ["designer"; "developer"; "both"].
    destruct (one_of _ _); simpl.
    + apply finds_ok_ret.
    + apply (finds_ok_add_error "project.output_audience"
               "must be one of ['both', 'designer', 'developer']").
  - intros Hi.
    eapply finds_ok_bind_quiet; [apply blank_check_runs|].
    apply finds_ok_after; [repeat elsewhere_step|]. intros _.
    apply finds_ok_after.
    { eapply runs_emits_where; [apply source_url_runs| |];
        destruct (is_http_url _), (mentions_local _); simpl;
        repeat constructor. }
    intros _.
    eapply finds_ok_bind_quiet; [by apply in_set_runs|].
    apply finds_ok_after; [repeat elsewhere_step|]. intros _.
    eapply finds_ok_bind_quiet; [by apply in_set_runs|].
    change (remove_dups ["internal_exploration"; "client_work"; "rebuild_baseline"])
      with ["internal_exploration"; "client_work"; "rebuild_baseline"].
    destruct (one_of _ _); simpl.
    + apply finds_ok_ret.
    + apply (finds_ok_add_error "project.intended_use"
               "must be one of ['client_work', 'internal_exploration', 'rebuild_baseline']").
Qed.

(** X5.  Whatever the iteration order of the allowed-value sets, the
    project validator rejects a hashable [project.output_audience] exactly
    when it is not one of the strings designer, developer, both, and the
    error always lists the allowed values in alphabetical order; the same
    holds for [project.intended_use] when both fields are hashable, and
    then the validator returns. *)
Theorem project_enum_findings
    (py_set : list string → list string) (cfg project : gmap string json) :
  set_builder py_set →
  dict_get cfg "project" = JDict project →
  hashable (dict_get project "output_audience") = true →
  (∃ r d, runs (validate_project py_set cfg) r d
     ∧ errors_at "project.output_audience" d
       = if one_of (dict_get project "output_audience")
              ["designer"; "developer"; "both"]
         then []
         else ["project.output_audience: must be one of ['both', 'designer', 'developer']"])
  ∧ (hashable (dict_get project "intended_use") = true →
     ∃ d, runs (validate_project py_set cfg) (Ok tt) d
       ∧ errors_at "project.intended_use" d
         = if one_of (dict_get project "intended_use")
                ["internal_exploration"; "client_work"; "rebuild_baseline"]
           then []
           else ["project.intended_use: must be one of ['client_work', 'internal_exploration', 'rebuild_baseline']"]).
Proof.
  intros Hb Hp Ha.
  destruct (validate_project_enums py_set cfg project Hb Hp Ha) as [H1 H2].
  split.
  - destruct H1 as (r & d & Hrun & HE & _). by exists r, d.
  - intros Hi. destruct (H2 Hi) as (r & d & Hrun & -> & HE & _). by exists d.
Qed.

Lemma project_enum_findings_witness :
  ∃ d, runs (validate_project set_reversed cfg_unknown_audience) (Ok tt) d
    ∧ errors_at "project.intended_use" d
      = ["project.intended_use: must be one of ['client_work', 'internal_exploration', 'rebuild_baseline']"].
Proof.
  destruct (project_enum_findings set_reversed cfg_unknown_audience
              {[ "output_audience" := JStr "nobody" ]}
              set_reversed_builder eq_refl eq_refl) as [_ H].
  destruct (H eq_refl) as (d & Hrun & HE). by exists d.
Defined.

(** ** The scope validator *)

Lemma xlt_inject_Z (a b : Z) :
  xlt (XFin (inject_Z a)) (XFin (inject_Z b)) = (a <? b)%Z.
Proof.
  apply eq_true_iff_eq. by rewrite xlt_fin, Z.ltb_lt, Zlt_Qlt.
Qed.

(** An integer is below [0.1] exactly when it is below 1. *)
Lemma xlt_inject_Z_0_1 (z : Z) : xlt (XFin (inject_Z z)) x_0_1 = (z <? 1)%Z.
Proof.
  destruct (z <? 1)%Z eqn:Hz.
  - apply Z.ltb_lt in Hz.
    destruct (decide (z = 0%Z)) as [->|Hne]; [reflexivity|].
    apply (xlt_trans _ (XFin (inject_Z 0))); [|reflexivity].
    rewrite xlt_inject_Z. apply Z.ltb_lt. lia.
  - apply Z.ltb_ge in Hz. apply not_true_is_false. intros H.
    destruct (decide (z = 1%Z)) as [->|Hne]; [discriminate H|].
    assert (xlt (XFin (inject_Z 1)) (XFin (inject_Z z)) = true) as H1
      by (rewrite xlt_inject_Z; apply Z.ltb_lt; lia).
    pose proof (xlt_trans _ _ _ H1 H) as H2. discriminate H2.
Qed.

Lemma runs_finds_ok_eq path (c : M unit) d es ws :
  runs c (Ok tt) d → errors_at path d = es → warnings_at path d = ws →
  finds_ok path c es ws.
Proof. intros H <- <-. by apply runs_finds_ok. Qed.

Lemma errors_at_one_error path message :
  errors_at path (one_error path message) = [path +:+ ": " +:+ message].
Proof. unfold errors_at. simpl. by rewrite at_path_finding. Qed.

(** A required integer field. *)
Lemma expect_integer_runs (obj : gmap string json) key path (m : Z) text :
  runs (expect_number obj key path (Some (Literal (NInt m) text)) true) (Ok tt)
    (Lists (integer_errors obj path key m text) []).
Proof.
  unfold integer_errors. destruct (obj !! key) as [v|] eqn:Hv.
  - destruct (number_type_ok true v) eqn:Hnum.
    + destruct v; try discriminate.
      pose proof (expect_number_minimum obj key path (Literal (NInt m) text)
                    true (JInt z) (z <? m)%Z Hv eq_refl) as H.
      cbn [lit_value lit_text] in H.
      destruct (z <? m)%Z eqn:Hz; apply H; unfold lt_number; simpl;
        change (match (inject_Z z ?= inject_Z m)%Q with Lt => true | _ => false end)
          with (xlt (XFin (inject_Z z)) (XFin (inject_Z m)));
        by rewrite xlt_inject_Z, Hz.
    + pose proof (expect_number_bad_type obj key path
                    (Some (Literal (NInt m) text)) true v Hv Hnum) as H.
      by destruct v.
  - apply (expect_number_missing obj key path _ true Hv).
Qed.

Lemma errors_at_integer_errors obj path key m text :
  errors_at (path +:+ "." +:+ key) (Lists (integer_errors obj path key m text) [])
  = integer_errors obj path key m text.
Proof.
  unfold integer_errors, errors_at. simpl.
  destruct (obj !! key) as [[]|]; try destruct (_ <? _)%Z; simpl;
    rewrite ?at_path_finding; reflexivity.
Qed.

Lemma requests_per_second_runs (scope : gmap string json) :
  runs (expect_number scope "requests_per_second" "scope" (Some lit_0_1) false)
    (Ok tt) (Lists (rate_errors scope) []).
Proof.
  unfold rate_errors. destruct (scope !! "requests_per_second") as [v|] eqn:Hv.
  - destruct (number_type_ok false v) eqn:Hnum.
    + pose proof (expect_number_minimum scope "requests_per_second" "scope"
                    lit_0_1 false v _ Hv Hnum (lt_number_value v _ Hnum)) as H.
      fold x_0_1 in H.
      destruct v; try discriminate; simpl json_value in H.
      * rewrite xlt_inject_Z_0_1 in H. by destruct (z <? 1)%Z.
      * by destruct (xlt (float_value f) x_0_1).
    + pose proof (expect_number_bad_type scope "requests_per_second" "scope"
                    (Some lit_0_1) false v Hv Hnum) as H.
      by destruct v.
  - apply (expect_number_missing scope "requests_per_second" "scope" _ false Hv).
Qed.

Lemma errors_at_rate_errors scope :
  errors_at "scope.requests_per_second" (Lists (rate_errors scope) [])
  = rate_errors scope.
Proof.
  unfold rate_errors, errors_at. simpl.
  destruct (scope !! "requests_per_second") as [[]|];
    try destruct (_ <? _)%Z; try destruct (xlt _ _); reflexivity.
Qed.

Lemma validate_scope_numbers py_set (cfg scope : gmap string json) :
  dict_get cfg "scope" = JDict scope →
  hashable (dict_get scope "crawl_mode") = true →
  finds_ok "scope.max_pages" (validate_scope py_set cfg)
    (integer_errors scope "scope" "max_pages" 1 "1") []
  ∧ finds_ok "scope.max_depth" (validate_scope py_set cfg)
      (integer_errors scope "scope" "max_depth" 0 "0") []
  ∧ finds_ok "scope.crawl_delay_ms" (validate_scope py_set cfg)
      (integer_errors scope "scope" "crawl_delay_ms" 0 "0") []
  ∧ finds_ok "scope.requests_per_second" (validate_scope py_set cfg)
      (rate_errors scope) [].
Proof.
  intros Hs Hh. unfold validate_scope. rewrite Hs. cbv beta iota zeta.
  repeat split.
  - apply finds_ok_after; [by apply emits_in_set_hashable|]. intros known.
    do 1 (apply finds_ok_after; [repeat elsewhere_step|]; intros _).
    apply finds_ok_before; [|repeat elsewhere_step].
    eapply runs_finds_ok_eq; [apply expect_integer_runs| |reflexivity].
    apply (errors_at_integer_errors scope "scope" "max_pages").
  - apply finds_ok_after; [by apply emits_in_set_hashable|]. intros known.
    do 2 (apply finds_ok_after; [repeat elsewhere_step|]; intros _).
    apply finds_ok_before; [|repeat elsewhere_step].
    eapply runs_finds_ok_eq; [apply expect_integer_runs| |reflexivity].
    apply (errors_at_integer_errors scope "scope" "max_depth").
  - apply finds_ok_after; [by apply emits_in_set_hashable|]. intros known.
    do 5 (apply finds_ok_after; [repeat elsewhere_step|]; intros _).
    apply finds_ok_before; [|repeat elsewhere_step].
    eapply runs_finds_ok_eq; [apply expect_integer_runs| |reflexivity].
    apply (errors_at_integer_errors scope "scope" "crawl_delay_ms").
  - apply finds_ok_after; [by apply emits_in_set_hashable|]. intros known.
    do 6 (apply finds_ok_after; [repeat elsewhere_step|]; intros _).
    apply finds_ok_before; [|repeat elsewhere_step].
    eapply runs_finds_ok_eq; [apply requests_per_second_runs| |reflexivity].
    apply errors_at_rate_errors.
Qed.

Lemma finds_ok_same_run path (c : M unit) d es ws :
  runs c (Ok tt) d → finds_ok path c es ws →
  errors_at path d = es ∧ warnings_at path d = ws.
Proof.
  intros Hrun (r & d' & Hrun' & _ & HE & HW).
  destruct (runs_unique _ _ _ _ _ Hrun Hrun') as [_ ->]. done.
Qed.

(** X6.  For a scope whose [crawl_mode] is hashable the scope validator
    returns, and its errors at the four numeric fields are: "missing
    required number" for an absent field; "must be a number" for a value
    that is not an integer (booleans and, for the three integer fields,
    floats included); "must be >= 1" for [max_pages] below 1 and
    "must be >= 0" for [max_depth] or [crawl_delay_ms] below 0, the bounds
    themselves being accepted; for [requests_per_second], "must be >= 0.1"
    for an integer below 1 and for a float below 0.1. *)
Theorem scope_number_bounds
    (py_set : list string → list string) (cfg scope : gmap string json) :
  dict_get cfg "scope" = JDict scope →
  hashable (dict_get scope "crawl_mode") = true →
  ∃ d, runs (validate_scope py_set cfg) (Ok tt) d
    ∧ errors_at "scope.max_pages" d
      = integer_errors scope "scope" "max_pages" 1 "1"
    ∧ errors_at "scope.max_depth" d
      = integer_errors scope "scope" "max_depth" 0 "0"
    ∧ errors_at "scope.crawl_delay_ms" d
      = integer_errors scope "scope" "crawl_delay_ms" 0 "0"
    ∧ errors_at "scope.requests_per_second" d = rate_errors scope.
Proof.
  intros Hs Hh.
  destruct (validate_scope_numbers py_set cfg scope Hs Hh)
    as (H1 & H2 & H3 & H4).
  destruct H1 as (r & d & Hrun & -> & HE1 & _).
  exists d. split; [done|]. split; [done|].
  destruct (finds_ok_same_run _ _ _ _ _ Hrun H2) as [-> _].
  destruct (finds_ok_same_run _ _ _ _ _ Hrun H3) as [-> _].
  destruct (finds_ok_same_run _ _ _ _ _ Hrun H4) as [-> _].
  done.
Qed.

Lemma scope_number_bounds_witness :
  ∃ d, runs (validate_scope set_in_order cfg_zero_pages) (Ok tt) d
    ∧ errors_at "scope.max_pages" d = ["scope.max_pages: must be >= 1"]
    ∧ errors_at "scope.requests_per_second" d = [].
Proof.
  destruct (scope_number_bounds set_in_order cfg_zero_pages scope_zero_pages
              eq_refl eq_refl) as (d & Hrun & H1 & _ & _ & H4).
  by exists d.
Defined.

Lemma truthy_intersection_set py_set (hints xs : list string) :
  set_builder py_set →
  truthy_set (intersection (py_set hints) (py_set xs))
  = existsb (λ hint, bool_decide (hint ∈ xs)) hints.
Proof.
  intros Hb. apply eq_true_iff_eq.
  rewrite truthy_set_elem, existsb_exists. unfold intersection.
  setoid_rewrite list_elem_of_filter.
  setoid_rewrite (Hb hints). setoid_rewrite (Hb xs).
  setoid_rewrite elem_of_remove_dups.
  setoid_rewrite bool_decide_eq_true. setoid_rewrite <- list_elem_of_In.
  split; intros (x & ? & ?); by exists x.
Qed.

Lemma validate_scope_lists py_set (cfg scope : gmap string json) :
  set_builder py_set →
  dict_get cfg "scope" = JDict scope →
  hashable (dict_get scope "crawl_mode") = true →
  finds_ok "scope.crawl_mode" (validate_scope py_set cfg)
    (if one_of (dict_get scope "crawl_mode")
          ["representative_sample"; "bounded_full"; "custom_urls"; "sitemap"]
     then []
     else ["scope.crawl_mode: must be one of ['bounded_full', 'custom_urls', 'representative_sample', 'sitemap']"])
    []
  ∧ finds_ok "scope.exclude_paths" (validate_scope py_set cfg)
      (if list_of_strings (dict_get scope "exclude_paths") then []
       else ["scope.exclude_paths: must be a list of strings"])
      (if list_of_strings (dict_get scope "exclude_paths")
          && negb (has_exclude_hint (dict_get scope "exclude_paths"))
       then ["scope.exclude_paths: does not include common low-value paths (/legal,/privacy,/terms,/careers,/login)"]
       else []).
Proof.
  intros Hb Hs Hh. unfold validate_scope. rewrite Hs. cbv beta iota zeta.
  unfold ALLOWED_CRAWL_MODES, DEFAULT_EXCLUDE_HINTS.
  rewrite !(sorted_set py_set _ Hb).
  split.
  - eapply finds_ok_bind_quiet; [by apply in_set_runs|].
    apply finds_ok_before; [|repeat elsewhere_step].
    change (remove_dups ["representative_sample"; "bounded_full"; "custom_urls";
                         "sitemap"])
      with ["representative_sample"; "bounded_full"; "custom_urls"; "sitemap"].
    destruct (one_of _ _); simpl.
    + apply finds_ok_ret.
    + apply (finds_ok_add_error "scope.crawl_mode"
               "must be one of ['bounded_full', 'custom_urls', 'representative_sample', 'sitemap']").
  - apply finds_ok_after; [by apply emits_in_set_hashable|]. intros known.
    do 7 (apply finds_ok_after; [repeat elsewhere_step|]; intros _).
    apply finds_ok_before; [|repeat elsewhere_step].
    destruct (dict_get scope "exclude_paths") as [| | | | |paths|];
      try apply (finds_ok_add_error "scope.exclude_paths"
                   "must be a list of strings").
    cbn [list_of_strings has_exclude_hint].
    rewrite (truthy_intersection_set py_set _ _ Hb).
    generalize (existsb (λ hint, bool_decide (hint ∈ strings_of paths))
                  ["/legal"; "/privacy"; "/terms"; "/careers"; "/login"]).
    intros hinted.
    destruct (forallb isinstance_str paths), hinted; simpl.
    + apply finds_ok_ret.
    + apply (finds_ok_add_warn "scope.exclude_paths"
               "does not include common low-value paths (/legal,/privacy,/terms,/careers,/login)").
    + apply (finds_ok_add_error "scope.exclude_paths"
               "must be a list of strings").
    + apply (finds_ok_add_error "scope.exclude_paths"
               "must be a list of strings").
Qed.

(** X7.  For a scope whose [crawl_mode] is hashable, and whatever the
    iteration order of the sets: the scope validator rejects [crawl_mode]
    exactly when it is not one of the four allowed strings, listing them
    in alphabetical order; it rejects [exclude_paths] exactly when it is
    not a list of strings (absent included); and it warns, without an
    error, exactly when [exclude_paths] is a list of strings that names
    none of /legal, /privacy, /terms, /careers, /login (the empty list
    included). *)
Theorem scope_list_findings
    (py_set : list string → list string) (cfg scope : gmap string json) :
  set_builder py_set →
  dict_get cfg "scope" = JDict scope →
  hashable (dict_get scope "crawl_mode") = true →
  ∃ d, runs (validate_scope py_set cfg) (Ok tt) d
    ∧ errors_at "scope.crawl_mode" d
      = (if one_of (dict_get scope "crawl_mode")
              ["representative_sample"; "bounded_full"; "custom_urls"; "sitemap"]
         then []
         else ["scope.crawl_mode: must be one of ['bounded_full', 'custom_urls', 'representative_sample', 'sitemap']"])
    ∧ errors_at "scope.exclude_paths" d
      = (if list_of_strings (dict_get scope "exclude_paths") then []
         else ["scope.exclude_paths: must be a list of strings"])
    ∧ warnings_at "scope.exclude_paths" d
      = (if list_of_strings (dict_get scope "exclude_paths")
            && negb (has_exclude_hint (dict_get scope "exclude_paths"))
         then ["scope.exclude_paths: does not include common low-value paths (/legal,/privacy,/terms,/careers,/login)"]
         else []).
Proof.
  intros Hb Hs Hh.
  destruct (validate_scope_lists py_set cfg scope Hb Hs Hh) as (H1 & H2).
  destruct H1 as (r & d & Hrun & -> & HE1 & _).
  exists d. split; [done|]. split; [done|].
  by destruct (finds_ok_same_run _ _ _ _ _ Hrun H2) as [-> ->].
Qed.

Lemma scope_list_findings_witness :
  ∃ d, runs (validate_scope set_reversed cfg_no_hints) (Ok tt) d
    ∧ errors_at "scope.crawl_mode" d
      = ["scope.crawl_mode: must be one of ['bounded_full', 'custom_urls', 'representative_sample', 'sitemap']"]
    ∧ errors_at "scope.exclude_paths" d = []
    ∧ warnings_at "scope.exclude_paths" d
      = ["scope.exclude_paths: does not include common low-value paths (/legal,/privacy,/terms,/careers,/login)"].
Proof.
  apply (scope_list_findings set_reversed cfg_no_hints scope_no_hints
           set_reversed_builder eq_refl eq_refl).
Defined.

(** X8.  For a scope whose [crawl_mode] is hashable the scope validator
    returns and applies the conditional rules exactly.  With
    [crawl_mode == "custom_urls"], [custom_urls] must be a non-empty list
    (one error otherwise) whose entries are all http(s) URLs (one error
    otherwise); with any other [crawl_mode], a present and truthy
    [custom_urls] gives one warning and no error.  With
    [crawl_mode == "sitemap"], [sitemap_url] must be an http(s) URL; with
    any other [crawl_mode], a present and truthy [sitemap_url] gives one
    warning and no error. *)
Theorem scope_conditional_findings
    (py_set : list string → list string) (cfg scope : gmap string json) :
  dict_get cfg "scope" = JDict scope →
  hashable (dict_get scope "crawl_mode") = true →
  ∃ d, runs (validate_scope py_set cfg) (Ok tt) d
    ∧ errors_at "scope.custom_urls" d
      = (if eq_str (dict_get scope "crawl_mode") "custom_urls" then
           match dict_get scope "custom_urls" with
           | JList (u :: us) =>
               if forallb is_http_url (u :: us) then []
               else ["scope.custom_urls: all entries must be http(s) URLs"]
           | _ =>
               ["scope.custom_urls: required non-empty list when crawl_mode=custom_urls"]
           end
         else [])
    ∧ warnings_at "scope.custom_urls" d
      = (if eq_str (dict_get scope "crawl_mode") "custom_urls" then []
         else if contains_key scope "custom_urls"
                 && truthy (dict_get scope "custom_urls")
              then ["scope.custom_urls: ignored unless crawl_mode=custom_urls"]
              else [])
    ∧ errors_at "scope.sitemap_url" d
      = (if eq_str (dict_get scope "crawl_mode") "sitemap" then
           if is_http_url (dict_get scope "sitemap_url") then []
           else ["scope.sitemap_url: required http(s) URL when crawl_mode=sitemap"]
         else [])
    ∧ warnings_at "scope.sitemap_url" d
      = (if eq_str (dict_get scope "crawl_mode") "sitemap" then []
         else if contains_key scope "sitemap_url"
                 && truthy (dict_get scope "sitemap_url")
              then ["scope.sitemap_url: ignored unless crawl_mode=sitemap"]
              else []).
Proof.
  intros Hs Hh.
  destruct (scope_conditional_rules py_set cfg scope Hs Hh) as (H1 & H2).
  destruct H1 as (r & d & Hrun & -> & HE1 & HW1).
  exists d. split; [done|]. split; [done|]. split; [done|].
  by destruct (finds_ok_same_run _ _ _ _ _ Hrun H2) as [-> ->].
Qed.

Lemma scope_conditional_findings_witness :
  ∃ d, runs (validate_scope set_in_order cfg_zero_pages) (Ok tt) d
    ∧ errors_at "scope.sitemap_url" d
      = ["scope.sitemap_url: required http(s) URL when crawl_mode=sitemap"].
Proof.
  destruct (scope_conditional_findings set_in_order cfg_zero_pages
              scope_zero_pages eq_refl eq_refl)
    as (d & Hrun & _ & _ & HE & _).
  by exists d.
Defined.

(** ** The capture validator *)

Lemma for_each_runs {A} (xs : list A) (body : A → M unit)
    (f : A → list string) :
  (∀ x, runs (body x) (Ok tt) (Lists (f x) [])) →
  runs (for_each xs body) (Ok tt) (Lists (flat_map f xs) []).
Proof.
  intros H. induction xs as [|x xs IH]; simpl; [apply (runs_ret tt)|].
  change (Lists (f x ++ flat_map f xs) [])
    with (extend (Lists (f x) []) (Lists (flat_map f xs) [])).
  eapply runs_bind_ok; [apply H | exact IH].
Qed.

Lemma expect_bool_runs (obj : gmap string json) key path :
  runs (expect_bool obj key path) (Ok tt) (Lists (bool_errors obj path key) []).
Proof.
  unfold bool_errors. destruct (obj !! key) as [v|] eqn:Hv.
  - destruct (isinstance_bool v) eqn:Hb.
    + destruct v; try discriminate. by eapply expect_bool_bool.
    + pose proof (expect_bool_other obj key path v Hv Hb) as H. by destruct v.
  - by apply expect_bool_missing.
Qed.

Lemma filter_bool_errors_same obj path key :
  List.filter (at_path (path +:+ "." +:+ key)) (bool_errors obj path key)
  = bool_errors obj path key.
Proof.
  unfold bool_errors. destruct (obj !! key) as [[]|]; simpl;
    rewrite ?at_path_finding; reflexivity.
Qed.

Lemma filter_bool_errors_other obj path key p :
  at_path (path +:+ "." +:+ key) (p +:+ ": ") = false →
  at_path p ((path +:+ "." +:+ key) +:+ ": ") = false →
  List.filter (at_path p) (bool_errors obj path key) = [].
Proof.
  intros H1 H2. apply filter_none. unfold bool_errors.
  destruct (obj !! key) as [[]|]; repeat constructor;
    eapply at_path_apart; eauto using at_path_finding.
Qed.

(** [if key in d and not isinstance(d[key], bool): add_error(...)] *)
Lemma optional_bool_runs (d : gmap string json) key path message :
  runs
    (if contains_key d key then
       v ← subscript d key;
       when (negb (isinstance_bool v)) (add_error path message)
     else mret tt)
    (Ok tt)
    (match d !! key with
     | Some (JBool _) | None => no_findings
     | Some _ => one_error path message
     end).
Proof.
  destruct (d !! key) as [v|] eqn:Hv.
  - rewrite (contains_key_Some _ _ _ Hv), (subscript_Some _ _ _ Hv).
    destruct v; first [apply (runs_ret tt) | apply runs_add_error].
  - rewrite (contains_key_None _ _ Hv). apply (runs_ret tt).
Qed.

Ltac loop_elsewhere_step :=
  lazymatch goal with
  | |- emits _ _ _ (for_each _ _) => apply emits_for_each; intros ? _
  | _ => elsewhere_step
  end.

(** What follows the required booleans in [validate_capture]. *)
Lemma capture_tail_runs (capture : gmap string json) :
  runs
    ((if contains_key capture "computed_css_samples" then
        v ← subscript capture "computed_css_samples";
        when (negb (isinstance_bool v))
          (add_error "capture.computed_css_samples" "must be boolean if provided")
      else mret tt);;
     when (is_False (dict_get capture "css"))
       (add_warn "capture.css" "disabling CSS reduces token extraction quality");;
     when (is_False (dict_get capture "text"))
       (add_warn "capture.text"
          "disabling text reduces voice DNA extraction quality"))
    (Ok tt)
    (extend
       (match capture !! "computed_css_samples" with
        | Some (JBool _) | None => no_findings
        | Some _ =>
            one_error "capture.computed_css_samples" "must be boolean if provided"
        end)
       (extend
          (if is_False (dict_get capture "css")
           then one_warning "capture.css"
                  "disabling CSS reduces token extraction quality"
           else no_findings)
          (if is_False (dict_get capture "text")
           then one_warning "capture.text"
                  "disabling text reduces voice DNA extraction quality"
           else no_findings))).
Proof.
  apply runs_seq; [apply optional_bool_runs|].
  apply runs_seq; apply runs_when; apply runs_add_warn.
Qed.

Lemma validate_capture_booleans (cfg capture : gmap string json) key :
  dict_get cfg "capture" = JDict capture →
  key ∈ ["html"; "css"; "text"; "asset_metadata"; "component_candidates"] →
  finds_ok ("capture." +:+ key) (validate_capture cfg)
    (bool_errors capture "capture" key)
    (if String.eqb key "css" && is_False (dict_get capture "css")
     then ["capture.css: disabling CSS reduces token extraction quality"]
     else if String.eqb key "text" && is_False (dict_get capture "text")
     then ["capture.text: disabling text reduces voice DNA extraction quality"]
     else []).
Proof.
  intros Hc Hkey. unfold validate_capture. rewrite Hc. cbv beta iota.
  apply list_elem_of_In in Hkey. simpl in Hkey.
  destruct Hkey as [<-|[<-|[<-|[<-|[<-|[]]]]]];
    (apply finds_ok_after; [repeat loop_elsewhere_step|]; intros _);
    (eapply finds_ok_seq_eq;
     [ eapply runs_finds_ok_eq;
       [ apply (for_each_runs _ _ (bool_errors capture "capture"));
         intros k; apply expect_bool_runs
       | reflexivity | reflexivity ]
     | apply runs_finds_ok; apply capture_tail_runs
     | | ]).
  all: unfold errors_at, warnings_at; cbn [errors warnings flat_map extend].
  all: rewrite ?List.filter_app.
  all: try match goal with
           | |- bool_errors _ _ ?k = _ =>
               change ("capture." +:+ k) with ("capture" +:+ "." +:+ k);
               rewrite (filter_bool_errors_same capture "capture" k);
               rewrite ?filter_bool_errors_other by reflexivity
           end.
  all: destruct (capture !! "computed_css_samples") as [[]|],
         (is_False (dict_get capture "css")),
         (is_False (dict_get capture "text"));
       simpl; rewrite ?app_nil_r; reflexivity.
Qed.

(** X9.  Whether or not [capture.screenshots] is in order, the capture
    validator returns and checks each of the five required booleans: its
    errors at [capture.<key>] are "missing required boolean" for an absent
    key, "must be boolean" for any other non-boolean, none for a boolean.
    Switching [css] or [text] off ([false]) gives one warning at that
    field and no error. *)
Theorem capture_required_booleans (cfg capture : gmap string json) :
  dict_get cfg "capture" = JDict capture →
  ∃ d, runs (validate_capture cfg) (Ok tt) d
    ∧ (∀ key,
         key ∈ ["html"; "css"; "text"; "asset_metadata"; "component_candidates"] →
         errors_at ("capture." +:+ key) d = bool_errors capture "capture" key)
    ∧ warnings_at "capture.css" d
      = (if is_False (dict_get capture "css")
         then ["capture.css: disabling CSS reduces token extraction quality"]
         else [])
    ∧ warnings_at "capture.text" d
      = (if is_False (dict_get capture "text")
         then ["capture.text: disabling text reduces voice DNA extraction quality"]
         else []).
Proof.
  intros Hc.
  destruct (emits_runs _ (returns_validate_capture Returns cfg)) as [d Hrun].
  exists d. split; [done|]. split; [|split].
  - intros key Hkey.
    by destruct (finds_ok_same_run _ _ _ _ _ Hrun
                   (validate_capture_booleans cfg capture key Hc Hkey)).
  - destruct (finds_ok_same_run _ _ _ _ _ Hrun
                (validate_capture_booleans cfg capture "css" Hc
                   ltac:(in_literal))) as [_ H].
    exact H.
  - destruct (finds_ok_same_run _ _ _ _ _ Hrun
                (validate_capture_booleans cfg capture "text" Hc
                   ltac:(in_literal))) as [_ H].
    exact H.
Qed.

Lemma capture_required_booleans_witness :
  ∃ d, runs (validate_capture cfg_no_screenshots) (Ok tt) d
    ∧ errors_at "capture.html" d = ["capture.html: missing required boolean"]
    ∧ errors_at "capture.text" d = ["capture.text: must be boolean"]
    ∧ errors_at "capture.css" d = []
    ∧ warnings_at "capture.css" d
      = ["capture.css: disabling CSS reduces token extraction quality"].
Proof.
  destruct (capture_required_booleans cfg_no_screenshots capture_no_screenshots
              eq_refl) as (d & Hrun & Hkeys & Hcss & _).
  exists d. split; [done|].
  split; [apply (Hkeys "html"); in_literal|].
  split; [apply (Hkeys "text"); in_literal|].
  split; [apply (Hkeys "css"); in_literal|].
  exact Hcss.
Defined.

Ltac literal_loop_step :=
  lazymatch goal with
  | |- emits _ _ _ (for_each _ _) =>
      let key := fresh "key" in
      let Hkey := fresh "Hkey" in
      apply emits_for_each; intros key Hkey;
      apply list_elem_of_In in Hkey; simpl in Hkey;
      repeat (destruct Hkey as [<-|Hkey]); [..|destruct Hkey]
  | _ => elsewhere_step
  end.

Lemma shot_body_runs (screenshots : gmap string json) key :
  runs
    (if contains_key screenshots key then
       v ← subscript screenshots key;
       when (negb (isinstance_bool v))
         (add_error ("capture.screenshots." +:+ key) "must be boolean")
     else mret tt)
    (Ok tt) (Lists (shot_errors screenshots key) []).
Proof.
  pose proof (optional_bool_runs screenshots key
                ("capture.screenshots." +:+ key) "must be boolean") as H.
  unfold shot_errors. by destruct (screenshots !! key) as [[]|].
Qed.

Lemma filter_shot_errors_same screenshots key :
  List.filter (at_path ("capture.screenshots." +:+ key))
    (shot_errors screenshots key)
  = shot_errors screenshots key.
Proof.
  unfold shot_errors. destruct (screenshots !! key) as [[]|]; simpl;
    rewrite ?at_path_finding; reflexivity.
Qed.

Lemma filter_shot_errors_other screenshots key p :
  at_path ("capture.screenshots." +:+ key) (p +:+ ": ") = false →
  at_path p (("capture.screenshots." +:+ key) +:+ ": ") = false →
  List.filter (at_path p) (shot_errors screenshots key) = [].
Proof.
  intros H1 H2. apply filter_none. unfold shot_errors.
  destruct (screenshots !! key) as [[]|]; repeat constructor;
    eapply at_path_apart; eauto using at_path_finding.
Qed.

(** The screenshots block of [validate_capture] for an object. *)
Lemma screenshots_block_runs (screenshots : gmap string json) :
  runs
    (for_each ["desktop"; "mobile"; "tablet"] (λ key,
       if contains_key screenshots key then
         v ← subscript screenshots key;
         when (negb (isinstance_bool v))
           (add_error ("capture.screenshots." +:+ key) "must be boolean")
       else mret tt);;
     when (negb (is_True (dict_get screenshots "desktop")))
       (add_error "capture.screenshots.desktop" "must be true (required)");;
     when (negb (is_True (dict_get screenshots "mobile")))
       (add_warn "capture.screenshots.mobile"
          "recommended true for better visual hierarchy coverage"))
    (Ok tt)
    (extend
       (Lists (flat_map (shot_errors screenshots) ["desktop"; "mobile"; "tablet"])
          [])
       (extend
          (if negb (is_True (dict_get screenshots "desktop"))
           then one_error "capture.screenshots.desktop" "must be true (required)"
           else no_findings)
          (if negb (is_True (dict_get screenshots "mobile"))
           then one_warning "capture.screenshots.mobile"
                  "recommended true for better visual hierarchy coverage"
           else no_findings))).
Proof.
  apply runs_seq.
  - apply (for_each_runs _ _ (shot_errors screenshots)).
    intros key. apply shot_body_runs.
  - apply runs_seq; apply runs_when;
      [apply runs_add_error | apply runs_add_warn].
Qed.

Lemma validate_capture_screenshots (cfg capture screenshots : gmap string json) :
  dict_get cfg "capture" = JDict capture →
  dict_get capture "screenshots" = JDict screenshots →
  finds_ok "capture.screenshots.desktop" (validate_capture cfg)
    (shot_errors screenshots "desktop"
     ++ (if is_True (dict_get screenshots "desktop") then []
         else ["capture.screenshots.desktop: must be true (required)"]))
    []
  ∧ finds_ok "capture.screenshots.mobile" (validate_capture cfg)
      (shot_errors screenshots "mobile")
      (if is_True (dict_get screenshots "mobile") then []
       else ["capture.screenshots.mobile: recommended true for better visual hierarchy coverage"])
  ∧ finds_ok "capture.screenshots.tablet" (validate_capture cfg)
      (shot_errors screenshots "tablet") []
  ∧ finds_ok "capture.screenshots" (validate_capture cfg) [] [].
Proof.
  intros Hc Hs. unfold validate_capture. rewrite Hc. cbv beta iota.
  rewrite Hs. cbv beta iota.
  pose proof (filter_shot_errors_same screenshots "desktop") as Hd.
  pose proof (filter_shot_errors_same screenshots "mobile") as Hm.
  pose proof (filter_shot_errors_same screenshots "tablet") as Ht.
  change ("capture.screenshots." +:+ "desktop")
    with "capture.screenshots.desktop" in Hd.
  change ("capture.screenshots." +:+ "mobile")
    with "capture.screenshots.mobile" in Hm.
  change ("capture.screenshots." +:+ "tablet")
    with "capture.screenshots.tablet" in Ht.
  repeat split;
    (apply finds_ok_before; [|repeat literal_loop_step]);
    (eapply runs_finds_ok_eq; [apply screenshots_block_runs| |]);
    unfold errors_at, warnings_at; cbn [errors warnings flat_map extend];
    rewrite ?List.filter_app;
    rewrite ?Hd, ?Hm, ?Ht;
    rewrite ?filter_shot_errors_other by reflexivity;
    destruct (is_True (dict_get screenshots "desktop")),
      (is_True (dict_get screenshots "mobile"));
    simpl; rewrite ?app_nil_r; reflexivity.
Qed.

Lemma validate_capture_no_screenshots (cfg capture : gmap string json) :
  dict_get cfg "capture" = JDict capture →
  isinstance_dict (dict_get capture "screenshots") = false →
  finds_ok "capture.screenshots" (validate_capture cfg)
    ["capture.screenshots: missing required object"] []
  ∧ finds_ok "capture.screenshots.desktop" (validate_capture cfg) [] []
  ∧ finds_ok "capture.screenshots.mobile" (validate_capture cfg) [] [].
Proof.
  intros Hc Hs. unfold validate_capture. rewrite Hc. cbv beta iota.
  destruct (dict_get capture "screenshots"); try discriminate Hs;
    cbv beta iota;
    (repeat split;
     (apply finds_ok_before; [|repeat literal_loop_step]);
     (eapply runs_finds_ok_eq; [apply runs_add_error| |]); reflexivity).
Qed.

(** X10.  The screenshots rules of the capture validator.  When
    [capture.screenshots] is an object: a present [desktop], [mobile] or
    [tablet] that is not a boolean is an error "must be boolean";
    [desktop] must be the literal [true] (else a further error, also
    when absent); a [mobile] other than [true] only gives a warning;
    [tablet] may be absent or [false].  When it is not an object the only
    finding about screenshots is "missing required object": neither the
    desktop error nor the mobile warning is reported. *)
Theorem capture_screenshots_findings (cfg capture : gmap string json) :
  dict_get cfg "capture" = JDict capture →
  ∃ d, runs (validate_capture cfg) (Ok tt) d
    ∧ match dict_get capture "screenshots" with
      | JDict screenshots =>
          errors_at "capture.screenshots" d = []
          ∧ errors_at "capture.screenshots.desktop" d
            = shot_errors screenshots "desktop"
              ++ (if is_True (dict_get screenshots "desktop") then []
                  else ["capture.screenshots.desktop: must be true (required)"])
          ∧ warnings_at "capture.screenshots.desktop" d = []
          ∧ errors_at "capture.screenshots.mobile" d
            = shot_errors screenshots "mobile"
          ∧ warnings_at "capture.screenshots.mobile" d
            = (if is_True (dict_get screenshots "mobile") then []
               else ["capture.screenshots.mobile: recommended true for better visual hierarchy coverage"])
          ∧ errors_at "capture.screenshots.tablet" d
            = shot_errors screenshots "tablet"
          ∧ warnings_at "capture.screenshots.tablet" d = []
      | _ =>
          errors_at "capture.screenshots" d
          = ["capture.screenshots: missing required object"]
          ∧ errors_at "capture.screenshots.desktop" d = []
          ∧ warnings_at "capture.screenshots.mobile" d = []
      end.
Proof.
  intros Hc.
  destruct (emits_runs _ (returns_validate_capture Returns cfg)) as [d Hrun].
  exists d. split; [done|].
  destruct (dict_get capture "screenshots") as [| | | | | |screenshots] eqn:Hs.
  7: {
    destruct (validate_capture_screenshots cfg capture screenshots Hc Hs)
      as (H1 & H2 & H3 & H4).
    destruct (finds_ok_same_run _ _ _ _ _ Hrun H1) as [-> ->].
    destruct (finds_ok_same_run _ _ _ _ _ Hrun H2) as [-> ->].
    destruct (finds_ok_same_run _ _ _ _ _ Hrun H3) as [-> ->].
    destruct (finds_ok_same_run _ _ _ _ _ Hrun H4) as [-> _].
    by repeat split.
  }
  all: destruct (validate_capture_no_screenshots cfg capture Hc) as (H1 & H2 & H3);
    [by rewrite Hs|];
    destruct (finds_ok_same_run _ _ _ _ _ Hrun H1) as [-> _];
    destruct (finds_ok_same_run _ _ _ _ _ Hrun H2) as [-> _];
    destruct (finds_ok_same_run _ _ _ _ _ Hrun H3) as [_ ->];
    done.
Qed.

Lemma capture_screenshots_findings_witness :
  ∃ d, runs (validate_capture cfg_mobile_off) (Ok tt) d
    ∧ errors_at "capture.screenshots.desktop" d = []
    ∧ errors_at "capture.screenshots.mobile" d = []
    ∧ warnings_at "capture.screenshots.mobile" d
      = ["capture.screenshots.mobile: recommended true for better visual hierarchy coverage"]
    ∧ errors_at "capture.screenshots.tablet" d = [].
Proof.
  destruct (capture_screenshots_findings cfg_mobile_off capture_mobile_off
              eq_refl) as (d & Hrun & H).
  change (dict_get capture_mobile_off "screenshots")
    with (JDict screenshots_mobile_off) in H.
  destruct H as (_ & H1 & _ & H2 & H3 & H4 & _).
  by exists d.
Defined.

(** ** The quality validator: fallback and booleans *)

Lemma emits_range_check m (PE PW : string → Prop) v :
  PE "quality.canonical_token_confidence_threshold: must be <= 1" →
  PW "quality.canonical_token_confidence_threshold: below recommended default 0.70" →
  emits m PE PW
    (if (isinstance_int v || isinstance_float v) && negb (isinstance_bool v)
     then
       over ← py_gt v (NInt 1);
       if over : bool then
         add_error "quality.canonical_token_confidence_threshold" "must be <= 1"
       else
         under ← py_lt v float_0_7;
         when under
           (add_warn "quality.canonical_token_confidence_threshold"
              "below recommended default 0.70")
     else mret tt).
Proof.
  intros HE HW.
  destruct ((isinstance_int v || isinstance_float v) && negb (isinstance_bool v))
    eqn:Hnum; [|apply emits_ret].
  assert (number_type_ok false v = true) as Hok by by destruct v.
  unfold py_gt, py_lt.
  rewrite (gt_number_value v _ Hok), (lt_number_value v _ Hok). cbn [or_raise].
  apply emits_bind; [apply emits_ret|]. intros over.
  destruct over; [by apply emits_add_error|].
  apply emits_bind; [apply emits_ret|]. intros under.
  apply emits_when. intros _. by apply emits_add_warn.
Qed.

Lemma validate_quality_fields py_set (cfg quality : gmap string json) key :
  set_builder py_set →
  dict_get cfg "quality" = JDict quality →
  hashable (dict_get quality "low_confidence_fallback") = true →
  key ∈ ["require_contrast_checks"; "require_anti_pattern_report";
         "require_pnie_matrix"] →
  finds_ok "quality.low_confidence_fallback" (validate_quality py_set cfg)
    (if one_of (dict_get quality "low_confidence_fallback")
          ["suggest_candidates"; "mark_unknown"; "infer_ranges"]
     then []
     else ["quality.low_confidence_fallback: must be one of ['infer_ranges', 'mark_unknown', 'suggest_candidates']"])
    []
  ∧ finds_ok ("quality." +:+ key) (validate_quality py_set cfg)
      (bool_errors quality "quality" key) [].
Proof.
  intros Hb Hq Hh Hkey. unfold validate_quality. rewrite Hq. cbv beta iota zeta.
  unfold ALLOWED_FALLBACKS.
  rewrite !(sorted_set py_set _ Hb).
  split.
  - apply finds_ok_after; [repeat elsewhere_step|]. intros _.
    apply finds_ok_after; [by apply emits_range_check|]. intros _.
    eapply finds_ok_bind_quiet; [by apply in_set_runs|].
    apply finds_ok_before; [|repeat literal_loop_step].
    change (remove_dups ["suggest_candidates"; "mark_unknown"; "infer_ranges"])
      with ["suggest_candidates"; "mark_unknown"; "infer_ranges"].
    destruct (one_of _ _); simpl.
    + apply finds_ok_ret.
    + apply (finds_ok_add_error "quality.low_confidence_fallback"
               "must be one of ['infer_ranges', 'mark_unknown', 'suggest_candidates']").
  - apply list_elem_of_In in Hkey. simpl in Hkey.
    repeat (destruct Hkey as [<-|Hkey]); [..|destruct Hkey].
    all: apply finds_ok_after; [repeat elsewhere_step|]; intros _.
    all: apply finds_ok_after; [by apply emits_range_check|]; intros _.
    all: eapply finds_ok_bind_quiet; [by apply in_set_runs|].
    all: apply finds_ok_after; [repeat elsewhere_step|]; intros _.
    all: eapply runs_finds_ok_eq;
      [apply (for_each_runs _ _ (λ k, bool_errors quality "quality" k));
       intros k; apply expect_bool_runs| |];
      try reflexivity.
    all: unfold errors_at; cbn [errors flat_map]; rewrite ?List.filter_app.
    all: match goal with
         | |- context [at_path ("quality." +:+ ?k)] =>
             change ("quality." +:+ k) with ("quality" +:+ "." +:+ k);
             rewrite (filter_bool_errors_same quality "quality" k);
             rewrite ?filter_bool_errors_other by reflexivity
         end.
    all: simpl; rewrite ?app_nil_r; reflexivity.
Qed.

(** X11.  For a quality section whose [low_confidence_fallback] is
    hashable, and whatever the iteration order of the sets, the quality
    validator returns; it rejects the fallback exactly when it is not one
    of suggest_candidates, mark_unknown, infer_ranges (absent included),
    listing them in alphabetical order; and each of the three
    [require_*] flags is a required boolean: "missing required boolean"
    when absent, "must be boolean" for any other non-boolean, and no
    finding for [false] as well as for [true]. *)
Theorem quality_fallback_and_flags
    (py_set : list string → list string) (cfg quality : gmap string json) :
  set_builder py_set →
  dict_get cfg "quality" = JDict quality →
  hashable (dict_get quality "low_confidence_fallback") = true →
  ∃ d, runs (validate_quality py_set cfg) (Ok tt) d
    ∧ errors_at "quality.low_confidence_fallback" d
      = (if one_of (dict_get quality "low_confidence_fallback")
              ["suggest_candidates"; "mark_unknown"; "infer_ranges"]
         then []
         else ["quality.low_confidence_fallback: must be one of ['infer_ranges', 'mark_unknown', 'suggest_candidates']"])
    ∧ ∀ key,
        key ∈ ["require_contrast_checks"; "require_anti_pattern_report";
               "require_pnie_matrix"] →
        errors_at ("quality." +:+ key) d = bool_errors quality "quality" key
        ∧ warnings_at ("quality." +:+ key) d = [].
Proof.
  intros Hb Hq Hh.
  destruct (validate_quality_fields py_set cfg quality "require_pnie_matrix"
              Hb Hq Hh ltac:(in_literal)) as [(r & d & Hrun & -> & HE & _) _].
  exists d. split; [done|]. split; [done|].
  intros key Hkey.
  destruct (validate_quality_fields py_set cfg quality key Hb Hq Hh Hkey)
    as [_ H].
  apply (finds_ok_same_run _ _ _ _ _ Hrun H).
Qed.

Lemma quality_fallback_and_flags_witness :
  ∃ d, runs (validate_quality set_reversed cfg_flags_off) (Ok tt) d
    ∧ errors_at "quality.low_confidence_fallback" d
      = ["quality.low_confidence_fallback: must be one of ['infer_ranges', 'mark_unknown', 'suggest_candidates']"]
    ∧ errors_at "quality.require_contrast_checks" d = []
    ∧ errors_at "quality.require_pnie_matrix" d
      = ["quality.require_pnie_matrix: missing required boolean"].
Proof.
  destruct (quality_fallback_and_flags set_reversed cfg_flags_off
              quality_flags_off set_reversed_builder eq_refl eq_refl)
    as (d & Hrun & HF & Hkeys).
  exists d. split; [done|]. split; [exact HF|].
  split; [apply (Hkeys "require_contrast_checks"); in_literal|].
  apply (Hkeys "require_pnie_matrix"); in_literal.
Defined.

(** ** What the validator does not read *)

Lemma dict_get_insert_ne (cfg : gmap string json) k v key :
  k ≠ key → dict_get (<[k := v]> cfg) key = dict_get cfg key.
Proof. intros H. unfold dict_get. by rewrite lookup_insert_ne. Qed.

Lemma validation_insert_unread py_set strict_guardrails cfg k v :
  k ∉ TOP_LEVEL_KEYS →
  validation py_set strict_guardrails (<[k := v]> cfg)
  = validation py_set strict_guardrails cfg.
Proof.
  intros Hk.
  assert (∀ key, key ∈ TOP_LEVEL_KEYS →
                 dict_get (<[k := v]> cfg) key = dict_get cfg key) as Hget.
  { intros key Hkey. apply dict_get_insert_ne. by intros ->. }
  unfold validation, base_pass, strict_pass, validate_guardrails,
    validate_project, validate_scope, validate_capture, validate_quality,
    validate_output.
  cbv zeta.
  rewrite !(Hget "mode"), !(Hget "guardrails"), !(Hget "project"),
    !(Hget "scope"), !(Hget "capture"), !(Hget "quality"), !(Hget "output")
    by in_literal.
  reflexivity.
Qed.

(** X12.  The validator reads seven top-level keys only ([mode],
    [guardrails], [project], [scope], [capture], [quality], [output]):
    adding, changing or removing any other top-level key leaves the
    outcome of [main] (exit code and every printed line, or the uncaught
    exception) unchanged. *)
Theorem unknown_top_level_keys_ignored
    (py_set : list string → list string) (strict_guardrails : bool)
    (cfg : gmap string json) (k : string) (v : json) :
  k ∉ TOP_LEVEL_KEYS →
  main py_set strict_guardrails (inr (JDict (<[k := v]> cfg)))
  = main py_set strict_guardrails (inr (JDict cfg))
  ∧ main py_set strict_guardrails (inr (JDict (delete k cfg)))
    = main py_set strict_guardrails (inr (JDict cfg)).
Proof.
  intros Hk. split.
  - unfold main. by rewrite validation_insert_unread.
  - destruct (cfg !! k) as [w|] eqn:Hw.
    + rewrite <- (insert_delete_id cfg k w Hw) at 2.
      unfold main. by rewrite validation_insert_unread.
    + by rewrite delete_id.
Qed.

Lemma unknown_top_level_keys_ignored_witness :
  main set_in_order false
    (inr (JDict (<["notes" := JList [JInt 1]]> cfg_valid)))
  = main set_in_order false (inr (JDict cfg_valid)).
Proof.
  assert ("notes" ∉ TOP_LEVEL_KEYS) as Hk.
  { intros H. apply list_elem_of_In in H. simpl in H. intuition discriminate. }
  destruct (unknown_top_level_keys_ignored set_in_order false cfg_valid "notes"
              (JList [JInt 1]) Hk) as [H _].
  exact H.
Defined.

(** ** The output section never decides *)

Lemma same_errors_refl (c : M unit) :
  emits ReturnsOrRaises anything anything c → same_errors c c.
Proof. intros (r & d & Hrun & _). by exists r, d, d. Qed.

Lemma same_errors_seq_l (c k1 k2 : M unit) :
  emits ReturnsOrRaises anything anything c →
  same_errors k1 k2 → same_errors (c;; k1) (c;; k2).
Proof.
  intros (r & d & Hrun & _) (rk & d1 & d2 & H1 & H2 & He).
  destruct r as [[]|e].
  - exists rk, (extend d d1), (extend d d2).
    split; [by apply runs_seq|]. split; [by apply runs_seq|].
    simpl. by rewrite He.
  - exists (Raise e), d, d.
    split; [by apply (runs_bind_raise c)|].
    split; [by apply (runs_bind_raise c)|done].
Qed.

Lemma same_errors_seq_r (c1 c2 k : M unit) :
  same_errors c1 c2 →
  emits ReturnsOrRaises anything anything k →
  same_errors (c1;; k) (c2;; k).
Proof.
  intros (r & d1 & d2 & H1 & H2 & He) (rk & d & Hrun & _).
  destruct r as [[]|e].
  - exists rk, (extend d1 d), (extend d2 d).
    split; [by apply runs_seq|]. split; [by apply runs_seq|].
    simpl. by rewrite He.
  - exists (Raise e), d1, d2.
    split; [by apply (runs_bind_raise c1)|].
    split; [by apply (runs_bind_raise c2)|done].
Qed.

(** [validate_output] returns and appends no error. *)
Lemma validate_output_runs cfg :
  ∃ ws, runs (validate_output cfg) (Ok tt) (Lists [] ws) ∧ (length ws ≤ 1)%nat.
Proof.
  unfold validate_output. cbv zeta.
  destruct (is_None (dict_get cfg "output"));
    [exists []; split; [apply (runs_ret tt)|simpl; lia]|].
  destruct (dict_get cfg "output") as [| | | | | |output];
    try (eexists; split; [apply runs_add_warn|simpl; lia]).
  destruct (dict_get output "formats") as [| | | | | |formats];
    try (exists []; split; [apply (runs_ret tt)|simpl; lia]).
  destruct (is_False (dict_get formats "markdown")
            || is_False (dict_get formats "json")); simpl.
  - eexists; split; [apply runs_add_warn|simpl; lia].
  - exists []; split; [apply (runs_ret tt)|simpl; lia].
Qed.

Lemma validation_same_errors py_set strict_guardrails cfg v :
  same_errors (validation py_set strict_guardrails (<["output" := v]> cfg))
    (validation py_set strict_guardrails cfg).
Proof.
  assert (∀ key, key ≠ "output" →
                 dict_get (<["output" := v]> cfg) key = dict_get cfg key) as Hget.
  { intros key Hkey. by apply dict_get_insert_ne. }
  assert (validate_guardrails (<["output" := v]> cfg) = validate_guardrails cfg)
    as Hg by (unfold validate_guardrails; by rewrite !Hget).
  assert (validate_project py_set (<["output" := v]> cfg)
          = validate_project py_set cfg)
    as Hp by (unfold validate_project; by rewrite !Hget).
  assert (validate_scope py_set (<["output" := v]> cfg)
          = validate_scope py_set cfg)
    as Hs by (unfold validate_scope; by rewrite !Hget).
  assert (validate_capture (<["output" := v]> cfg) = validate_capture cfg)
    as Hc by (unfold validate_capture; by rewrite !Hget).
  assert (validate_quality py_set (<["output" := v]> cfg)
          = validate_quality py_set cfg)
    as Hq by (unfold validate_quality; by rewrite !Hget).
  assert (strict_pass (<["output" := v]> cfg) = strict_pass cfg)
    as Hst by (unfold strict_pass; by rewrite !Hget).
  unfold validation, base_pass. rewrite Hg, Hp, Hs, Hc, Hq, Hst.
  apply same_errors_seq_r;
    [|apply emits_when; intros _; apply framed_strict_pass].
  apply same_errors_seq_l; [apply returns_validate_guardrails|].
  apply same_errors_seq_l; [apply framed_validate_project|].
  apply same_errors_seq_l; [apply framed_validate_scope|].
  apply same_errors_seq_l; [apply returns_validate_capture|].
  apply same_errors_seq_l; [apply framed_validate_quality|].
  destruct (validate_output_runs (<["output" := v]> cfg)) as (ws1 & H1 & _).
  destruct (validate_output_runs cfg) as (ws2 & H2 & _).
  by exists (Ok tt), (Lists [] ws1), (Lists [] ws2).
Qed.

Lemma exit_status_report st1 st2 :
  errors st1 = errors st2 →
  exit_status (report st1) = exit_status (report st2).
Proof. unfold report. intros ->. by destruct (truthy_set (errors st2)). Qed.

(** X13.  The [output] section never decides: whatever value it has
    (absent, malformed, formats switched off), the exit status of [main]
    is the one of the same configuration with any other [output]; only
    warning lines can differ.  On its own the output validator always
    returns, appends no error and at most one warning. *)
Theorem output_never_decides
    (py_set : list string → list string) (strict_guardrails : bool)
    (cfg : gmap string json) (v : json) :
  exit_status (main py_set strict_guardrails
                 (inr (JDict (<["output" := v]> cfg))))
  = exit_status (main py_set strict_guardrails (inr (JDict cfg)))
  ∧ ∃ ws, runs (validate_output cfg) (Ok tt) (Lists [] ws) ∧ (length ws ≤ 1)%nat.
Proof.
  split; [|apply validate_output_runs].
  destruct (validation_same_errors py_set strict_guardrails cfg v)
    as (r & d1 & d2 & H1 & H2 & He).
  unfold main.
  rewrite (runs_fresh _ _ _ H1), (runs_fresh _ _ _ H2).
  destruct r as [[]|e]; [by apply exit_status_report|done].
Qed.

(** ** The guardrails validator of the base pass *)

Lemma validate_guardrails_runs cfg :
  runs (validate_guardrails cfg) (Ok tt)
    (Lists
       ((if eq_str (dict_get cfg "mode") "brand_faithful_modernization" then []
         else ["mode: must equal 'brand_faithful_modernization'"])
        ++ match dict_get cfg "guardrails" with
           | JNull => []
           | JDict guardrails => flat_map (flag_errors guardrails) GUARDRAIL_KEYS
           | _ => ["guardrails: must be an object if provided"]
           end)
       []).
Proof.
  unfold validate_guardrails. cbv zeta.
  match goal with
  | |- runs _ _ (Lists (?a ++ ?b) []) =>
      change (Lists (a ++ b) []) with (extend (Lists a []) (Lists b []))
  end.
  apply runs_seq.
  - pose proof (runs_when
                  (negb (eq_str (dict_get cfg "mode") "brand_faithful_modernization"))
                  _ _ (runs_add_error "mode" "must equal 'brand_faithful_modernization'"))
      as H.
    by destruct (eq_str (dict_get cfg "mode") "brand_faithful_modernization").
  - destruct (dict_get cfg "guardrails") as [| | | | | |guardrails];
      cbn [is_None]; cbv beta iota;
      try apply (runs_ret tt);
      try apply (runs_add_error "guardrails" "must be an object if provided").
    apply (for_each_runs _ _ (flag_errors guardrails)). intros key.
    pose proof (optional_bool_runs guardrails key ("guardrails." +:+ key)
                  "must be boolean") as H.
    unfold flag_errors. by destruct (guardrails !! key) as [[]|].
Qed.

(** X14.  The guardrails validator of the base pass always returns and
    never warns.  It appends no error exactly when [mode] is the string
    brand_faithful_modernization and [guardrails] is absent, [null], or an
    object whose three confirmation flags are each absent or boolean:
    without [--strict-guardrails] a flag set to [false] is accepted, and
    other keys of the object are not looked at. *)
Theorem base_guardrails_acceptance (cfg : gmap string json) :
  ∃ es, runs (validate_guardrails cfg) (Ok tt) (Lists es [])
    ∧ (es = [] ↔
       eq_str (dict_get cfg "mode") "brand_faithful_modernization" = true
       ∧ guardrails_typed (dict_get cfg "guardrails") = true).
Proof.
  eexists. split; [apply validate_guardrails_runs|].
  destruct (eq_str (dict_get cfg "mode") "brand_faithful_modernization");
    [|split; [done|intros [? _]; done]].
  rewrite app_nil_l.
  destruct (dict_get cfg "guardrails") as [| | | | | |guardrails];
    simpl; try (split; [done|intros [_ ?]; done]); try done.
  unfold flag_errors.
  destruct (guardrails !! "public_access_confirmed") as [[]|],
    (guardrails !! "non_clone_intent_confirmed") as [[]|],
    (guardrails !! "asset_rights_warning_confirmed") as [[]|];
    simpl; first [done | split; [done|intros [_ ?]; done]].
Qed.

(** ** The output-package checker on a complete package *)

Lemma missing_paths_ext (under_root : string → string)
    (fs fs' : gmap string Package.entry) :
  (∀ rel, rel ∈ Package.REQUIRED_PATHS →
          fs' !! under_root rel = fs !! under_root rel) →
  missing_paths under_root fs' = missing_paths under_root fs.
Proof.
  intros H. unfold missing_paths. apply List.filter_ext_in. intros p Hp.
  apply list_elem_of_In, list_elem_of_fmap in Hp as (rel & -> & Hrel).
  unfold Package.path_exists. by rewrite (H rel Hrel).
Qed.

Lemma present_outcome_ext (json_loads : string → string + json)
    (str_lower : string → string) (under_root : string → string)
    (fs fs' : gmap string Package.entry) :
  (∀ rel, rel ∈ Package.REQUIRED_PATHS →
          fs' !! under_root rel = fs !! under_root rel) →
  present_outcome json_loads str_lower under_root fs'
  = present_outcome json_loads str_lower under_root fs.
Proof.
  intros H.
  unfold present_outcome, json_errors, parsed, read_result, PNIE_REPORT,
    SUMMARY_REPORT.
  by rewrite !H by in_literal.
Qed.

(** X15.  On a package in which every required path exists and the text
    of both reports can be read, the checker returns after exactly six
    calls of [read_text], one per file and in a fixed order (the four
    JSON files, then the PNIE report, then the executive summary); the
    other eight required files are only tested for existence.  It prints
    every ERROR line before every WARN line, then one summary line with
    both counts; a JSON file that cannot be read or decoded, or decodes to
    something else than an object, gives one error, and the missing keys
    of one file are reported together in one error.  The exit code is 1
    exactly when there is an error. *)
Theorem complete_package_report
    (json_loads : string → string + json) (str_lower : string → string)
    (under_root : string → string) (fs : gmap string Package.entry) :
  missing_paths under_root fs = [] →
  reports_readable under_root fs = true →
  Package.main json_loads str_lower under_root fs Package.start
  = (Ok (if truthy_set (json_errors json_loads under_root fs)
         then 1%Z else 0%Z),
     Package.World (json_errors json_loads under_root fs)
       (package_warnings json_loads str_lower under_root fs)
       (((λ msg, "ERROR: " +:+ msg) <$> json_errors json_loads under_root fs)
        ++ ((λ msg, "WARN: " +:+ msg)
              <$> package_warnings json_loads str_lower under_root fs)
        ++ [package_summary (json_errors json_loads under_root fs)
              (package_warnings json_loads str_lower under_root fs)])
       (under_root <$> READ_PATHS)).
Proof.
  intros Hnil Hread.
  destruct (reports_readable_texts _ _ Hread) as (pnie & summary & Hp & Hs).
  rewrite (main_present_run _ _ _ _ Hnil).
  unfold present_outcome, package_warnings.
  by rewrite (read_result_text _ _ _ Hp), (read_result_text _ _ _ Hs), Hp, Hs.
Qed.

Lemma complete_package_report_witness :
  Package.main sample_loads lower under_out fs_bad_manifest Package.start
  = (Ok 1%Z,
     Package.World
       ["out/evidence/crawl-manifest.json: invalid JSON (Expecting value: line 1 column 1 (char 0))"]
       ["out/tokens/tokens.json: missing recommended token groups ['color', 'typography', 'spacing', 'radius', 'shadow', 'border', 'motion', 'layout']";
        "PNIE report does not mention 'Exclude'"]
       ["ERROR: out/evidence/crawl-manifest.json: invalid JSON (Expecting value: line 1 column 1 (char 0))";
        "WARN: out/tokens/tokens.json: missing recommended token groups ['color', 'typography', 'spacing', 'radius', 'shadow', 'border', 'motion', 'layout']";
        "WARN: PNIE report does not mention 'Exclude'";
        "Validation failed (1 error(s), 2 warning(s))"]
       ["out/tokens/tokens.json"; "out/evidence/crawl-manifest.json";
        "out/evidence/page-weights.json";
        "out/evidence/extraction-confidence.json";
        "out/reports/preserve-normalize-improve-exclude.md";
        "out/reports/executive-summary.md"]).
Proof.
  rewrite (complete_package_report sample_loads lower under_out fs_bad_manifest)
    by (vm_compute; reflexivity).
  vm_compute. reflexivity.
Defined.

(** X16.  The outcome of the checker depends on the fourteen required
    paths only: two directories that agree on them (whatever else they
    hold) give the same exit code, or the same uncaught exception, the
    same printed lines and the same calls of [read_text]. *)
Theorem package_depends_on_required_paths_only
    (json_loads : string → string + json) (str_lower : string → string)
    (under_root : string → string) (fs fs' : gmap string Package.entry) :
  (∀ rel, rel ∈ Package.REQUIRED_PATHS →
          fs' !! under_root rel = fs !! under_root rel) →
  Package.main json_loads str_lower under_root fs' Package.start
  = Package.main json_loads str_lower under_root fs Package.start.
Proof.
  intros H. pose proof (missing_paths_ext under_root fs fs' H) as Hm.
  destruct (missing_paths under_root fs) as [|p ps] eqn:Hfs.
  - rewrite (main_present_run json_loads str_lower under_root fs' Hm),
      (main_present_run json_loads str_lower under_root fs Hfs).
    by apply present_outcome_ext.
  - rewrite (main_missing json_loads str_lower under_root fs')
      by (rewrite Hm; discriminate).
    rewrite (main_missing json_loads str_lower under_root fs)
      by (rewrite Hfs; discriminate).
    by rewrite Hm, Hfs.
Qed.

Lemma package_depends_on_required_paths_only_witness :
  Package.main sample_loads lower under_out
    (<["out/notes.txt" :=
         Package.Unreadable "[Errno 21] Is a directory: 'out/notes.txt'"]>
       fs_binary_report)
    Package.start
  = Package.main sample_loads lower under_out fs_binary_report Package.start.
Proof.
  apply package_depends_on_required_paths_only.
  intros rel Hrel. apply lookup_insert_ne.
  apply list_elem_of_In in Hrel. simpl in Hrel.
  repeat (destruct Hrel as [<-|Hrel]; [discriminate|]). destruct Hrel.
Defined.

(** ** What an accepted configuration is known to hold *)

Lemma accepts_seq_inv (c1 c2 : M unit) :
  emits ReturnsOrRaises anything anything c1 →
  emits ReturnsOrRaises anything anything c2 →
  accepts (c1;; c2) → accepts c1 ∧ accepts c2.
Proof.
  intros (r1 & d1 & H1 & _) (r2 & d2 & H2 & _) (d & Hrun & Herr).
  destruct r1 as [[]|e].
  - pose proof (runs_seq _ _ _ _ _ H1 H2) as H.
    destruct (runs_unique _ _ _ _ _ Hrun H) as [<- ->].
    simpl in Herr. apply app_eq_nil in Herr as [He1 He2].
    split; [by exists d1 | by exists d2].
  - pose proof (runs_bind_raise c1 (λ _, c2) e d1 H1) as H.
    by destruct (runs_unique _ _ _ _ _ Hrun H) as [? _].
Qed.

Lemma main_accepts py_set strict_guardrails cfg out :
  main py_set strict_guardrails (inr (JDict cfg)) = Exit 0 out →
  accepts (validation py_set strict_guardrails cfg).
Proof.
  destruct (framed_validation py_set strict_guardrails cfg)
    as (r & d & Hrun & _).
  unfold main. rewrite (runs_fresh _ _ _ Hrun).
  destruct r as [[]|e]; [|discriminate].
  intros Hrep. exists d. split; [done|]. by eapply report_accepts.
Qed.

Lemma accepted_validators py_set strict_guardrails cfg :
  accepts (validation py_set strict_guardrails cfg) →
  accepts (validate_guardrails cfg)
  ∧ accepts (validate_project py_set cfg)
  ∧ accepts (validate_scope py_set cfg)
  ∧ accepts (validate_capture cfg)
  ∧ accepts (validate_quality py_set cfg).
Proof.
  intros H. unfold validation in H.
  apply accepts_seq_inv in H as [H _];
    [|apply framed_base_pass
     |apply emits_when; intros _; apply framed_strict_pass].
  unfold base_pass in H.
  apply accepts_seq_inv in H as [Hg H];
    [|apply returns_validate_guardrails|].
  2: { apply emits_bind; [apply framed_validate_project|intros _].
       apply emits_bind; [apply framed_validate_scope|intros _].
       apply emits_bind; [apply returns_validate_capture|intros _].
       apply emits_bind; [apply framed_validate_quality|intros _].
       apply returns_validate_output. }
  apply accepts_seq_inv in H as [Hp H];
    [|apply framed_validate_project|].
  2: { apply emits_bind; [apply framed_validate_scope|intros _].
       apply emits_bind; [apply returns_validate_capture|intros _].
       apply emits_bind; [apply framed_validate_quality|intros _].
       apply returns_validate_output. }
  apply accepts_seq_inv in H as [Hs H];
    [|apply framed_validate_scope|].
  2: { apply emits_bind; [apply returns_validate_capture|intros _].
       apply emits_bind; [apply framed_validate_quality|intros _].
       apply returns_validate_output. }
  apply accepts_seq_inv in H as [Hc H];
    [|apply returns_validate_capture|].
  2: { apply emits_bind; [apply framed_validate_quality|intros _].
       apply returns_validate_output. }
  apply accepts_seq_inv in H as [Hq _];
    [|apply framed_validate_quality|apply returns_validate_output].
  done.
Qed.

Lemma errors_at_nil path d : errors d = [] → errors_at path d = [].
Proof. unfold errors_at. by intros ->. Qed.

Lemma accepts_not_error (c : M unit) path message :
  runs c (Ok tt) (one_error path message) → ¬ accepts c.
Proof.
  intros H (d & Hrun & Herr).
  destruct (runs_unique _ _ _ _ _ Hrun H) as [_ ->]. discriminate Herr.
Qed.

Lemma accepts_finds (c : M unit) path es ws :
  accepts c → finds path c es ws → es = [].
Proof.
  intros (d & Hrun & Herr) (r & d' & Hrun' & HE & _).
  destruct (runs_unique _ _ _ _ _ Hrun Hrun') as [_ <-].
  by rewrite <- HE, errors_at_nil.
Qed.

Lemma accepts_finds_ok (c : M unit) path es ws :
  accepts c → finds_ok path c es ws → es = [].
Proof.
  intros (d & Hrun & Herr) (r & d' & Hrun' & _ & HE & _).
  destruct (runs_unique _ _ _ _ _ Hrun Hrun') as [_ <-].
  by rewrite <- HE, errors_at_nil.
Qed.

Lemma accepts_guardrails_mode cfg :
  accepts (validate_guardrails cfg) →
  eq_str (dict_get cfg "mode") "brand_faithful_modernization" = true.
Proof.
  intros (d & Hrun & Herr).
  destruct (runs_unique _ _ _ _ _ Hrun (validate_guardrails_runs cfg))
    as [_ ->].
  simpl in Herr.
  by destruct (eq_str (dict_get cfg "mode") "brand_faithful_modernization").
Qed.

Lemma accepts_project py_set cfg :
  accepts (validate_project py_set cfg) →
  ∃ project,
    dict_get cfg "project" = JDict project
    ∧ blank_name (dict_get project "name") = false
    ∧ is_http_url (dict_get project "source_url") = true.
Proof.
  intros Hacc.
  destruct (dict_get cfg "project") as [| | | | | |project] eqn:Hp;
    try (exfalso; revert Hacc; unfold validate_project; rewrite Hp;
         eapply accepts_not_error, runs_add_error).
  exists project. split; [done|].
  pose proof (accepts_finds _ _ _ _ Hacc
                (validate_project_name py_set cfg project Hp)) as H1.
  pose proof (accepts_finds _ _ _ _ Hacc
                (validate_project_source_url py_set cfg project Hp)) as H2.
  split.
  - by destruct (blank_name (dict_get project "name")).
  - by destruct (is_http_url (dict_get project "source_url")).
Qed.

Lemma in_set_unhashable v s :
  hashable v = false → runs (in_set v s) (Raise TypeError) no_findings.
Proof. intros H. destruct v; try discriminate H; apply runs_raise. Qed.

Lemma accepts_scope py_set cfg :
  accepts (validate_scope py_set cfg) →
  ∃ scope max_pages,
    dict_get cfg "scope" = JDict scope
    ∧ scope !! "max_pages" = Some (JInt max_pages)
    ∧ (1 ≤ max_pages)%Z.
Proof.
  intros Hacc.
  destruct (dict_get cfg "scope") as [| | | | | |scope] eqn:Hs;
    try (exfalso; revert Hacc; unfold validate_scope; rewrite Hs;
         eapply accepts_not_error, runs_add_error).
  destruct (hashable (dict_get scope "crawl_mode")) eqn:Hh.
  - destruct (validate_scope_numbers py_set cfg scope Hs Hh) as (H1 & _).
    pose proof (accepts_finds_ok _ _ _ _ Hacc H1) as Hm.
    unfold integer_errors in Hm.
    destruct (scope !! "max_pages") as [[| |z| | | |]|] eqn:Hv;
      try discriminate Hm.
    exists scope, z. split; [done|]. split; [done|].
    destruct (z <? 1)%Z eqn:Hz; [discriminate Hm|]. by apply Z.ltb_ge.
  - exfalso. destruct Hacc as (d & Hrun & _).
    revert Hrun. unfold validate_scope. rewrite Hs. cbv beta iota zeta.
    intros Hrun.
    match type of Hrun with
    | runs (in_set _ ?s ≫= ?k) _ _ =>
        pose proof (runs_bind_raise _ k _ _ (in_set_unhashable _ s Hh)) as H
    end.
    by destruct (runs_unique _ _ _ _ _ Hrun H) as [? _].
Qed.

Lemma accepts_capture cfg :
  accepts (validate_capture cfg) →
  ∃ capture screenshots,
    dict_get cfg "capture" = JDict capture
    ∧ dict_get capture "screenshots" = JDict screenshots
    ∧ dict_get screenshots "desktop" = JBool true.
Proof.
  intros Hacc.
  destruct (dict_get cfg "capture") as [| | | | | |capture] eqn:Hc;
    try (exfalso; revert Hacc; unfold validate_capture; rewrite Hc;
         eapply accepts_not_error, runs_add_error).
  destruct (dict_get capture "screenshots") as [| | | | | |screenshots] eqn:Hs.
  7: {
    exists capture, screenshots. split; [done|]. split; [done|].
    destruct (validate_capture_screenshots cfg capture screenshots Hc Hs)
      as (H1 & _).
    pose proof (accepts_finds_ok _ _ _ _ Hacc H1) as Hd.
    apply app_eq_nil in Hd as [_ Hd].
    by destruct (dict_get screenshots "desktop") as [|[]| | | | |].
  }
  all: exfalso;
    destruct (validate_capture_no_screenshots cfg capture Hc) as (H1 & _);
    [by rewrite Hs|];
    by pose proof (accepts_finds_ok _ _ _ _ Hacc H1).
Qed.

Lemma accepts_quality py_set cfg :
  accepts (validate_quality py_set cfg) →
  ∃ quality, dict_get cfg "quality" = JDict quality.
Proof.
  intros Hacc.
  destruct (dict_get cfg "quality") as [| | | | | |quality] eqn:Hq;
    try (exfalso; revert Hacc; unfold validate_quality; rewrite Hq;
         eapply accepts_not_error, runs_add_error).
  by exists quality.
Qed.

(** X17.  What acceptance guarantees.  When [main] exits 0 (with or
    without [--strict-guardrails]) the configuration has [mode] equal to
    brand_faithful_modernization; [project], [scope], [capture] and
    [quality] are objects; [project.name] is a string with a
    non-whitespace character and [project.source_url] a string starting
    with http:// or https://; [scope.max_pages] is an integer (not a
    boolean, not a float) that is at least 1; and
    [capture.screenshots] is an object whose [desktop] is [true]. *)
Theorem accepted_configuration
    (py_set : list string → list string) (strict_guardrails : bool)
    (cfg : gmap string json) (out : list string) :
  main py_set strict_guardrails (inr (JDict cfg)) = Exit 0 out →
  eq_str (dict_get cfg "mode") "brand_faithful_modernization" = true
  ∧ ∃ (project scope capture screenshots quality : gmap string json)
      (max_pages : Z),
      dict_get cfg "project" = JDict project
      ∧ blank_name (dict_get project "name") = false
      ∧ is_http_url (dict_get project "source_url") = true
      ∧ dict_get cfg "scope" = JDict scope
      ∧ scope !! "max_pages" = Some (JInt max_pages)
      ∧ (1 ≤ max_pages)%Z
      ∧ dict_get cfg "capture" = JDict capture
      ∧ dict_get capture "screenshots" = JDict screenshots
      ∧ dict_get screenshots "desktop" = JBool true
      ∧ dict_get cfg "quality" = JDict quality.
Proof.
  intros Hmain.
  destruct (accepted_validators _ _ _ (main_accepts _ _ _ _ Hmain))
    as (Hg & Hp & Hs & Hc & Hq).
  split; [by apply accepts_guardrails_mode|].
  destruct (accepts_project _ _ Hp) as (project & ? & ? & ?).
  destruct (accepts_scope _ _ Hs) as (scope & max_pages & ? & ? & ?).
  destruct (accepts_capture _ Hc) as (capture & screenshots & ? & ? & ?).
  destruct (accepts_quality _ _ Hq) as (quality & ?).
  by exists project, scope, capture, screenshots, quality, max_pages.
Qed.

Lemma accepted_configuration_witness :
  eq_str (dict_get cfg_valid "mode") "brand_faithful_modernization" = true
  ∧ ∃ (project scope capture screenshots quality : gmap string json)
      (max_pages : Z),
      dict_get cfg_valid "project" = JDict project
      ∧ blank_name (dict_get project "name") = false
      ∧ is_http_url (dict_get project "source_url") = true
      ∧ dict_get cfg_valid "scope" = JDict scope
      ∧ scope !! "max_pages" = Some (JInt max_pages)
      ∧ (1 ≤ max_pages)%Z
      ∧ dict_get cfg_valid "capture" = JDict capture
      ∧ dict_get capture "screenshots" = JDict screenshots
      ∧ dict_get screenshots "desktop" = JBool true
      ∧ dict_get cfg_valid "quality" = JDict quality.
Proof.
  apply (accepted_configuration set_in_order false cfg_valid
           ["Config validation passed (0 warning(s))"]).
  vm_compute. reflexivity.
Defined.

(** ** The helpers of the run-plan renderer *)

Lemma py_int_url_count int_of_str (n : Z) :
  RunPlan.py_int int_of_str
    (RunPlan.py_or (RunPlan.py_or (JInt n) (JInt 0)) (JInt 0))
  = RunPlan.Done n.
Proof.
  unfold RunPlan.py_or. simpl.
  destruct (n =? 0)%Z eqn:Hn; simpl; [|by rewrite Hn].
  apply Z.eqb_eq in Hn. by subst.
Qed.

(** X18.  The workload class never decreases when more URLs are
    selected: for [n <= n'] the two calls either raise the same exception
    (which depends on the configuration only) or return classes in the
    order fast, medium, heavy. *)
Theorem workload_class_monotone
    (int_of_str : string → option Z) (config : gmap string json) (n n' : Z) :
  (n ≤ n')%Z →
  match RunPlan.workload_class int_of_str config n,
        RunPlan.workload_class int_of_str config n' with
  | RunPlan.Done cls, RunPlan.Done cls' =>
      (RunPlan.class_rank cls ≤ RunPlan.class_rank cls')%nat
  | RunPlan.Raised e, RunPlan.Raised e' => e = e'
  | _, _ => False
  end.
Proof.
  intros Hn. unfold RunPlan.workload_class.
  destruct (RunPlan.section config "scope") as [| | | | | |scope]; try done.
  cbn [RunPlan.get_or RunPlan.and_then].
  assert (∀ mp mp' : Z, (mp ≤ mp')%Z →
    match
      RunPlan.and_then
        (RunPlan.get_or (RunPlan.section config "capture") "screenshots" (JDict ∅))
        (λ screenshots,
           RunPlan.and_then (RunPlan.values screenshots) (λ vs,
             let screenshot_modes := length (List.filter truthy vs) in
             let score := Z.max mp n in
             let score :=
               (score + if (2 <=? screenshot_modes)%nat then 5 else 0)%Z in
             let score :=
               (score + if eq_str (default JNull (scope !! "crawl_mode"))
                            "bounded_full" then 5 else 0)%Z in
             if (score <=? 15)%Z then RunPlan.Done "fast"
             else if (score <=? 50)%Z then RunPlan.Done "medium"
             else RunPlan.Done "heavy")),
      RunPlan.and_then
        (RunPlan.get_or (RunPlan.section config "capture") "screenshots" (JDict ∅))
        (λ screenshots,
           RunPlan.and_then (RunPlan.values screenshots) (λ vs,
             let screenshot_modes := length (List.filter truthy vs) in
             let score := Z.max mp' n' in
             let score :=
               (score + if (2 <=? screenshot_modes)%nat then 5 else 0)%Z in
             let score :=
               (score + if eq_str (default JNull (scope !! "crawl_mode"))
                            "bounded_full" then 5 else 0)%Z in
             if (score <=? 15)%Z then RunPlan.Done "fast"
             else if (score <=? 50)%Z then RunPlan.Done "medium"
             else RunPlan.Done "heavy"))
    with
    | RunPlan.Done cls, RunPlan.Done cls' =>
        (RunPlan.class_rank cls ≤ RunPlan.class_rank cls')%nat
    | RunPlan.Raised e, RunPlan.Raised e' => e = e'
    | _, _ => False
    end) as Hrest.
  { intros mp mp' Hmp.
    destruct (RunPlan.get_or (RunPlan.section config "capture") "screenshots"
                (JDict ∅)) as [screenshots|e]; [|done].
    cbn [RunPlan.and_then].
    destruct (RunPlan.values screenshots) as [vs|e]; [|done].
    cbn [RunPlan.and_then]. cbv zeta.
    generalize (if (2 <=? length (List.filter truthy vs))%nat then 5%Z else 0%Z).
    generalize (if eq_str (default JNull (scope !! "crawl_mode")) "bounded_full"
                then 5%Z else 0%Z).
    intros b1 b2.
    repeat match goal with
           | |- context [(?a <=? ?b)%Z] =>
               destruct (Z.leb_spec a b)
           end; cbn; lia. }
  destruct (scope !! "max_pages") as [v|]; cbn [default from_option id].
  - destruct (RunPlan.py_int int_of_str (RunPlan.py_or v (JInt 0)))
      as [mp|e]; cbn [RunPlan.and_then].
    2: { reflexivity. }
    by apply Hrest.
  - rewrite !py_int_url_count. cbn [RunPlan.and_then]. by apply Hrest.
Qed.

Lemma workload_class_monotone_witness :
  RunPlan.workload_class no_int cfg_valid 3 = RunPlan.Done "fast"
  ∧ RunPlan.workload_class no_int cfg_valid 60 = RunPlan.Done "heavy"
  ∧ (RunPlan.class_rank "fast" ≤ RunPlan.class_rank "heavy")%nat.
Proof.
  split; [vm_compute; reflexivity|]. split; [vm_compute; reflexivity|].
  exact (workload_class_monotone no_int cfg_valid 3 60 ltac:(lia)).
Defined.

Lemma dict_get_JDict (d : gmap string json) key (v : gmap string json) :
  dict_get d key = JDict v → d !! key = Some (JDict v).
Proof.
  unfold dict_get. destruct (d !! key) as [w|]; simpl; intros H;
    [by subst | discriminate].
Qed.

Lemma dict_get_JBool (d : gmap string json) key b :
  dict_get d key = JBool b → d !! key = Some (JBool b).
Proof.
  unfold dict_get. destruct (d !! key) as [w|]; simpl; intros H;
    [by subst | discriminate].
Qed.

Lemma workload_class_validated int_of_str
    (cfg scope capture screenshots : gmap string json) (max_pages n : Z) :
  dict_get cfg "scope" = JDict scope →
  scope !! "max_pages" = Some (JInt max_pages) →
  (1 ≤ max_pages)%Z →
  dict_get cfg "capture" = JDict capture →
  dict_get capture "screenshots" = JDict screenshots →
  ∃ cls,
    RunPlan.workload_class int_of_str cfg n = RunPlan.Done cls
    ∧ cls ∈ ["fast"; "medium"; "heavy"]
    ∧ (cls = "fast" → (max_pages ≤ 15)%Z ∧ (n ≤ 15)%Z)
    ∧ ((50 < max_pages)%Z ∨ (50 < n)%Z → cls = "heavy").
Proof.
  intros Hs Hm Hz Hc Hsh.
  unfold RunPlan.workload_class, RunPlan.section.
  rewrite (dict_get_JDict _ _ _ Hs), (dict_get_JDict _ _ _ Hc).
  cbn [default from_option id RunPlan.get_or RunPlan.and_then].
  rewrite Hm, (dict_get_JDict _ _ _ Hsh).
  cbn [default from_option id RunPlan.get_or RunPlan.and_then RunPlan.values].
  assert (RunPlan.py_or (JInt max_pages) (JInt 0) = JInt max_pages) as ->.
  { unfold RunPlan.py_or. simpl.
    destruct (max_pages =? 0)%Z eqn:H0; [|done]. apply Z.eqb_eq in H0. lia. }
  cbn [RunPlan.py_int RunPlan.and_then]. cbv zeta.
  destruct (2 <=? length (List.filter truthy (map_to_list screenshots).*2))%nat,
    (eq_str (default JNull (scope !! "crawl_mode")) "bounded_full").
  all: repeat match goal with
         | |- context [(?a <=? ?b)%Z] => destruct (Z.leb_spec a b)
         end.
  all: eexists; (split; [reflexivity|]); (split; [in_literal|]).
  all: split; [first [discriminate | intros _; lia]
              |first [done | intros; lia]].
Qed.

(** X19.  The two scripts compose: on a configuration that the intake
    validator accepts, [workload_class] never raises, whatever the number
    of selected URLs and whatever [int] does on strings.  It returns fast,
    medium or heavy; fast only when [scope.max_pages] and the number of
    URLs are both at most 15, and heavy whenever one of them exceeds
    50. *)
Theorem accepted_config_has_workload_class
    (py_set : list string → list string) (strict_guardrails : bool)
    (int_of_str : string → option Z)
    (cfg : gmap string json) (out : list string) (n : Z) :
  main py_set strict_guardrails (inr (JDict cfg)) = Exit 0 out →
  ∃ (max_pages : Z) (cls : string),
    field cfg "scope" "max_pages" = JInt max_pages
    ∧ RunPlan.workload_class int_of_str cfg n = RunPlan.Done cls
    ∧ cls ∈ ["fast"; "medium"; "heavy"]
    ∧ (cls = "fast" → (max_pages ≤ 15)%Z ∧ (n ≤ 15)%Z)
    ∧ ((50 < max_pages)%Z ∨ (50 < n)%Z → cls = "heavy").
Proof.
  intros Hmain.
  destruct (accepted_validators _ _ _ (main_accepts _ _ _ _ Hmain))
    as (_ & _ & Hs & Hc & _).
  destruct (accepts_scope _ _ Hs) as (scope & max_pages & Hscope & Hm & Hz).
  destruct (accepts_capture _ Hc) as (capture & screenshots & Hcap & Hsh & _).
  destruct (workload_class_validated int_of_str cfg scope capture screenshots
              max_pages n Hscope Hm Hz Hcap Hsh) as (cls & Hcls).
  exists max_pages, cls. split; [|exact Hcls].
  unfold field. rewrite Hscope. by apply dict_get_Some.
Qed.

Lemma accepted_config_has_workload_class_witness :
  ∃ (max_pages : Z) (cls : string),
    field cfg_valid "scope" "max_pages" = JInt max_pages
    ∧ RunPlan.workload_class no_int cfg_valid 70 = RunPlan.Done cls
    ∧ cls ∈ ["fast"; "medium"; "heavy"]
    ∧ (cls = "fast" → (max_pages ≤ 15)%Z ∧ (70 ≤ 15)%Z)
    ∧ ((50 < max_pages)%Z ∨ (50 < 70)%Z → cls = "heavy").
Proof.
  apply (accepted_config_has_workload_class set_in_order false no_int cfg_valid
           ["Config validation passed (0 warning(s))"] 70).
  vm_compute. reflexivity.
Defined.

(** ** normalize_urls *)

Lemma length_page_urls (py_str : json → string) (pages : list json) :
  (length
     (flat_map
        (λ p, match p with
              | JDict p =>
                  if truthy (dict_get p "url")
                  then [py_str (dict_get p "url")] else []
              | _ => []
              end) pages)
   ≤ length pages)%nat.
Proof.
  induction pages as [|p pages IH]; simpl; [done|].
  rewrite length_app.
  destruct p as [| | | | | |p]; simpl; try lia.
  destruct (truthy (dict_get p "url")); simpl; lia.
Qed.

(** X20.  [normalize_urls] raises nothing but [ValueError], and raises it
    exactly when the input is a string, a number, a boolean, or an object
    with neither a list under [urls] nor a list under [pages]
    (an object whose [urls] is one string included).  Otherwise it
    returns: nothing for [null], one string per element for a list and
    for [urls] (which takes precedence over [pages]), and for [pages] at
    most one string per page, since pages that are not objects or have no
    truthy [url] are left out without any error. *)
Theorem normalize_urls_shapes (py_str : json → string) (url_data : json) :
  match RunPlan.normalize_urls py_str url_data, url_entries url_data with
  | RunPlan.Done urls, Some entries =>
      (length urls ≤ length entries)%nat
      ∧ (isinstance_list url_data = true
         ∨ isinstance_list (field_of url_data "urls") = true →
         urls = py_str <$> entries)
  | RunPlan.Raised e, None => e = RunPlan.ValueError
  | _, _ => False
  end.
Proof.
  destruct url_data as [| | | | |urls|d]; simpl; try done.
  - split; [by rewrite length_fmap|]. by intros _.
  - destruct (dict_get d "urls") as [| | | | |urls|] eqn:Hu;
      try (destruct (dict_get d "pages") as [| | | | |pages|]; try done;
           split; [apply length_page_urls|];
           intros [?|?]; discriminate).
    split; [by rewrite length_fmap|]. by intros _.
Qed.

(** X21.  With a [str] that leaves strings as they are, [normalize_urls]
    returns a list of URL strings unchanged, whether it is given directly
    or under [urls]; and from [pages] whose entries are objects with a
    string [url] it returns the non-empty URLs in their order. *)
Theorem normalize_urls_of_strings
    (py_str : json → string) (urls : list string) (d : gmap string json) :
  (∀ s, py_str (JStr s) = s) →
  RunPlan.normalize_urls py_str (JList (JStr <$> urls)) = RunPlan.Done urls
  ∧ RunPlan.normalize_urls py_str
      (JDict (<["urls" := JList (JStr <$> urls)]> d))
    = RunPlan.Done urls
  ∧ RunPlan.normalize_urls py_str
      (JDict {[ "pages" := JList (page ∘ JStr <$> urls) ]})
    = RunPlan.Done (List.filter (λ u, negb (String.eqb u "")) urls).
Proof.
  intros Hstr.
  assert (py_str <$> (JStr <$> urls) = urls) as Hid.
  { induction urls as [|u urls IH]; [done|].
    rewrite !fmap_cons. by rewrite Hstr, IH. }
  split; [|split].
  - cbn [RunPlan.normalize_urls]. by rewrite Hid.
  - cbn [RunPlan.normalize_urls]. unfold dict_get at 1.
    rewrite lookup_insert_eq. cbn [default from_option id]. by rewrite Hid.
  - cbn [RunPlan.normalize_urls]. unfold dict_get at 1.
    rewrite lookup_singleton_ne by done. cbn [default from_option id].
    unfold dict_get at 1. rewrite lookup_singleton_eq.
    cbn [default from_option id]. f_equal. clear Hid.
    induction urls as [|u urls IH]; [done|].
    rewrite fmap_cons. cbn [flat_map List.filter]. rewrite IH.
    unfold compose at 1, page at 1. unfold dict_get.
    rewrite lookup_singleton_eq. cbn [default from_option id truthy].
    rewrite Hstr. by destruct (String.eqb u "").
Qed.

Lemma normalize_urls_of_strings_witness :
  RunPlan.normalize_urls str_of_json
    (JDict {[ "pages" := JList (page ∘ JStr <$> ["https://example.com/"; ""]) ]})
  = RunPlan.Done ["https://example.com/"].
Proof.
  destruct (normalize_urls_of_strings str_of_json ["https://example.com/"; ""] ∅)
    as (_ & _ & H); [done|].
  exact H.
Defined.

(** ** The uncaught [TypeError] of the set tests in whole runs *)

Ltac apart_step :=
  lazymatch goal with
  | |- emits _ _ _ (in_set _ _) => apply emits_in_set
  | |- emits _ _ _ (str_in _ _) => apply emits_str_in
  | |- emits _ _ _ (call_strip _) => apply emits_call_strip
  | |- emits _ _ _ (subscript _ _) => apply emits_or_raise
  | |- emits _ _ _ (py_lt _ _) => apply emits_or_raise
  | |- emits _ _ _ (py_gt _ _) => apply emits_or_raise
  | _ => literal_loop_step
  end.

Ltac for_each_path H :=
  apply list_elem_of_In in H; simpl in H;
  repeat (destruct H as [<-|H]); [..|destruct H].

(** The paths of the findings about [guardrails]. *)
Lemma guardrails_apart cfg p :
  p ∈ ["scope"; "capture"; "quality"] →
  emits Returns (λ e, at_path p e = false) (λ w, at_path p w = false)
    (validate_guardrails cfg).
Proof.
  intros Hp. for_each_path Hp;
    unfold validate_guardrails, GUARDRAIL_KEYS; cbv zeta; repeat apart_step.
Qed.

Lemma project_apart py_set cfg p :
  p ∈ ["scope"; "capture"; "quality"; "guardrails";
       "guardrails.public_access_confirmed";
       "guardrails.non_clone_intent_confirmed";
       "guardrails.asset_rights_warning_confirmed"] →
  emits ReturnsOrRaises (λ e, at_path p e = false) (λ w, at_path p w = false)
    (validate_project py_set cfg).
Proof.
  intros Hp. for_each_path Hp;
    unfold validate_project; cbv zeta; repeat apart_step.
Qed.

Lemma sections_apart py_set cfg p :
  p ∈ ["guardrails"; "guardrails.public_access_confirmed";
       "guardrails.non_clone_intent_confirmed";
       "guardrails.asset_rights_warning_confirmed"] →
  emits ReturnsOrRaises (λ e, at_path p e = false) (λ w, at_path p w = false)
    (validate_scope py_set cfg;; validate_capture cfg;;
     validate_quality py_set cfg;; validate_output cfg).
Proof.
  intros Hp.
  apply emits_bind; [|intros _; apply emits_bind; [|intros _; apply emits_bind;
                                                     [|intros _]]].
  - for_each_path Hp; unfold validate_scope; cbv zeta; repeat apart_step.
  - for_each_path Hp; unfold validate_capture; cbv zeta; repeat apart_step.
  - for_each_path Hp; unfold validate_quality; cbv zeta; repeat apart_step.
  - for_each_path Hp; unfold validate_output; cbv zeta; repeat apart_step.
Qed.

Lemma emits_same_run {A} m p (c : M A) r d :
  emits m (λ e, at_path p e = false) (λ w, at_path p w = false) c →
  runs c r d → errors_at p d = [] ∧ warnings_at p d = [].
Proof.
  intros (r' & d' & Hrun' & _ & HE & HW) Hrun.
  destruct (runs_unique _ _ _ _ _ Hrun Hrun') as [_ ->].
  split; by apply filter_none.
Qed.

Lemma finds_same_run {A} p (c : M A) es ws r d :
  finds p c es ws → runs c r d →
  errors_at p d = es ∧ warnings_at p d = ws.
Proof.
  intros (r' & d' & Hrun' & HE & HW) Hrun.
  by destruct (runs_unique _ _ _ _ _ Hrun Hrun') as [_ ->].
Qed.

(** With an [output_audience] that is a list or an object, the project
    validator raises at the membership test. *)
Lemma validate_project_crash py_set (cfg project : gmap string json) :
  dict_get cfg "project" = JDict project →
  hashable (dict_get project "output_audience") = false →
  ∃ d, runs (validate_project py_set cfg) (Raise TypeError) d.
Proof.
  intros Hp Hh. unfold validate_project. rewrite Hp. cbv beta iota zeta.
  eexists.
  eapply runs_bind_ok; [apply blank_check_runs|].
  eapply runs_seq; [apply runs_when, runs_add_error|].
  eapply runs_seq; [apply source_url_runs|].
  eapply runs_bind_raise. by apply in_set_unhashable.
Qed.

Lemma validation_crash py_set strict_guardrails (cfg project : gmap string json) :
  dict_get cfg "project" = JDict project →
  hashable (dict_get project "output_audience") = false →
  ∃ dg dp,
    runs (validate_guardrails cfg) (Ok tt) dg
    ∧ runs (validate_project py_set cfg) (Raise TypeError) dp
    ∧ runs (validation py_set strict_guardrails cfg) (Raise TypeError)
        (extend dg dp).
Proof.
  intros Hp Hh.
  destruct (emits_runs _ (returns_validate_guardrails Returns cfg)) as [dg Hg].
  destruct (validate_project_crash py_set cfg project Hp Hh) as [dp Hproj].
  exists dg, dp. split; [done|]. split; [done|].
  unfold validation, base_pass.
  apply runs_bind_raise. apply runs_seq; [exact Hg|].
  by apply runs_bind_raise.
Qed.

(** C6 (code bug).  For every configuration whose
    [project.output_audience] is a list or an object, the membership test
    of the project validator raises [TypeError]; the exception leaves the
    validator and [main], with or without [--strict-guardrails], and the
    validators of [scope], [capture], [quality] and [output] are never
    called: the lists hold no finding about [scope], [capture] or
    [quality], also when these sections are missing. *)
Theorem crash_skips_later_sections
    (py_set : list string → list string) (strict_guardrails : bool)
    (cfg project : gmap string json) :
  dict_get cfg "project" = JDict project →
  hashable (dict_get project "output_audience") = false →
  ∃ st,
    validation py_set strict_guardrails cfg no_findings = (Raise TypeError, st)
    ∧ main py_set strict_guardrails (inr (JDict cfg)) = Uncaught TypeError
    ∧ errors_at "scope" st = []
    ∧ errors_at "capture" st = []
    ∧ errors_at "quality" st = [].
Proof.
  intros Hp Hh.
  destruct (validation_crash py_set strict_guardrails cfg project Hp Hh)
    as (dg & dp & Hg & Hproj & Hrun).
  exists (extend dg dp).
  pose proof (runs_fresh _ _ _ Hrun) as Hfresh.
  split; [exact Hfresh|]. split; [unfold main; by rewrite Hfresh|].
  rewrite !errors_at_extend.
  repeat split.
  - destruct (emits_same_run _ "scope" _ _ _
                (guardrails_apart cfg "scope" ltac:(in_literal)) Hg) as [-> _].
    by destruct (emits_same_run _ "scope" _ _ _
                   (project_apart py_set cfg "scope" ltac:(in_literal)) Hproj)
      as [-> _].
  - destruct (emits_same_run _ "capture" _ _ _
                (guardrails_apart cfg "capture" ltac:(in_literal)) Hg) as [-> _].
    by destruct (emits_same_run _ "capture" _ _ _
                   (project_apart py_set cfg "capture" ltac:(in_literal)) Hproj)
      as [-> _].
  - destruct (emits_same_run _ "quality" _ _ _
                (guardrails_apart cfg "quality" ltac:(in_literal)) Hg) as [-> _].
    by destruct (emits_same_run _ "quality" _ _ _
                   (project_apart py_set cfg "quality" ltac:(in_literal)) Hproj)
      as [-> _].
Qed.

Lemma crash_skips_later_sections_witness :
  isinstance_dict (dict_get cfg_unhashable_audience "scope") = false
  ∧ isinstance_dict (dict_get cfg_unhashable_audience "capture") = false
  ∧ isinstance_dict (dict_get cfg_unhashable_audience "quality") = false
  ∧ ∃ st,
      validation set_in_order false cfg_unhashable_audience no_findings
      = (Raise TypeError, st)
      ∧ main set_in_order false (inr (JDict cfg_unhashable_audience))
        = Uncaught TypeError
      ∧ errors_at "scope" st = []
      ∧ errors_at "capture" st = []
      ∧ errors_at "quality" st = [].
Proof.
  repeat (split; [reflexivity|]).
  apply (crash_skips_later_sections set_in_order false cfg_unhashable_audience
           (list_to_map
              [("name", JStr "Acme");
               ("source_url", JStr "https://acme.example");
               ("output_audience", JList [])]));
    reflexivity.
Defined.

Lemma base_pass_guardrails_quiet py_set (cfg g : gmap string json) key p d :
  dict_get cfg "guardrails" = JDict g →
  only_unconfirmed g key →
  p ∈ ["guardrails"; "guardrails.public_access_confirmed";
       "guardrails.non_clone_intent_confirmed";
       "guardrails.asset_rights_warning_confirmed"] →
  runs (base_pass py_set cfg) (Ok tt) d →
  errors_at p d = [].
Proof.
  intros Hg Honly Hp Hrun.
  assert (finds p (base_pass py_set cfg) [] []) as Hfinds.
  { unfold base_pass. apply finds_before.
    - eapply runs_finds_ok_eq.
      + apply (validate_guardrails_booleans cfg g Hg).
        intros k v Hk Hv. destruct Honly as (_ & Hf & Ht).
        destruct (decide (k = key)) as [->|Hne].
        * rewrite Hf in Hv. by inversion Hv.
        * rewrite (Ht k Hk Hne) in Hv. by inversion Hv.
      + for_each_path Hp;
          by destruct (eq_str (dict_get cfg "mode") "brand_faithful_modernization").
      + by destruct (eq_str (dict_get cfg "mode") "brand_faithful_modernization").
    - apply emits_bind; [|intros _; by apply sections_apart].
      apply project_apart. for_each_path Hp; in_literal. }
  by destruct (finds_same_run _ _ _ _ _ _ Hfinds Hrun).
Qed.

(** C2 (code bug).  The flag in whole runs.  When the six validators
    return, a run with [--strict-guardrails] appends after their findings
    the findings of the strict pass: the one error "guardrails: required
    when --strict-guardrails is set" when [guardrails] is not an object
    (absent included), and otherwise one error "guardrails.<key>: must be
    true before crawling" for each of the three keys that is not exactly
    [true]; a run without the flag appends nothing more.  For a
    [guardrails] object with two keys [true] and one [false] the
    validators append no error about [guardrails] or one of its keys, and
    the strict pass appends exactly the one error that names the false
    key.  When a validator raises, the run with the flag raises too, with
    the same lists: the strict pass is never reached.  At the
    configuration [cfg_unhashable_audience], which has no [guardrails],
    the run with the flag raises [TypeError] and no error about
    [guardrails] is produced. *)
Theorem strict_mode_in_validation
    (py_set : list string → list string) (cfg : gmap string json) :
  (∀ d, runs (base_pass py_set cfg) (Ok tt) d →
     runs (validation py_set true cfg) (Ok tt) (extend d (strict_findings cfg))
     ∧ runs (validation py_set false cfg) (Ok tt) d
     ∧ ∀ g key,
         dict_get cfg "guardrails" = JDict g →
         only_unconfirmed g key →
         strict_findings cfg
         = one_error ("guardrails." +:+ key) "must be true before crawling"
         ∧ errors_at "guardrails" d = []
         ∧ ∀ k, k ∈ GUARDRAIL_KEYS → errors_at ("guardrails." +:+ k) d = [])
  ∧ (∀ e d, runs (base_pass py_set cfg) (Raise e) d →
       runs (validation py_set true cfg) (Raise e) d)
  ∧ (isinstance_dict (dict_get cfg_unhashable_audience "guardrails") = false
     ∧ validation py_set true cfg_unhashable_audience no_findings
       = (Raise TypeError, no_findings)
     ∧ main py_set true (inr (JDict cfg_unhashable_audience))
       = Uncaught TypeError).
Proof.
  split; [|split].
  - intros d Hbase.
    assert (runs (strict_pass cfg) (Ok tt) (strict_findings cfg)) as Hstrict.
    { unfold strict_findings.
      destruct (dict_get cfg "guardrails") eqn:Hg;
        try (apply strict_pass_no_object; by rewrite Hg).
      by apply strict_pass_object. }
    split; [exact (runs_seq _ _ _ _ _ Hbase Hstrict)|]. split.
    { rewrite <- (extend_no_findings_r d).
      exact (runs_seq _ _ _ _ _ Hbase (runs_ret tt)). }
    intros g key Hg Honly. split; [|split].
    + unfold strict_findings. rewrite Hg.
      by rewrite (unconfirmed_only g key Honly).
    + apply (base_pass_guardrails_quiet py_set cfg g key "guardrails" d Hg Honly);
        [in_literal | exact Hbase].
    + intros k Hk. for_each_path Hk;
        (eapply (base_pass_guardrails_quiet py_set cfg g key _ d Hg Honly);
         [in_literal | exact Hbase]).
  - intros e d Hbase. unfold validation. by apply runs_bind_raise.
  - split; [reflexivity|].
    assert (validation py_set true cfg_unhashable_audience no_findings
            = (Raise TypeError, no_findings)) as H by reflexivity.
    split; [exact H|]. unfold main. by rewrite H.
Qed.

Lemma strict_mode_in_validation_witness :
  ∃ d,
    runs (base_pass set_in_order cfg_one_unconfirmed) (Ok tt) d
    ∧ runs (validation set_in_order true cfg_one_unconfirmed) (Ok tt)
        (extend d (one_error "guardrails.asset_rights_warning_confirmed"
                     "must be true before crawling"))
    ∧ runs (validation set_in_order false cfg_one_unconfirmed) (Ok tt) d
    ∧ errors_at "guardrails" d = []
    ∧ errors_at "guardrails.asset_rights_warning_confirmed" d = [].
Proof.
  destruct (validation_returns set_in_order false cfg_one_unconfirmed eq_refl)
    as [d Hrun].
  assert (runs (base_pass set_in_order cfg_one_unconfirmed) (Ok tt) d) as Hbase.
  { destruct (framed_base_pass set_in_order cfg_one_unconfirmed)
      as (r & d' & Hb & _).
    destruct r as [[]|e].
    - pose proof (runs_seq _ _ _ _ _ Hb (runs_ret tt)) as H.
      rewrite extend_no_findings_r in H.
      by destruct (runs_unique _ _ _ _ _ Hrun H) as [_ ->].
    - pose proof (runs_bind_raise _ (λ _, when false (strict_pass cfg_one_unconfirmed))
                    _ _ Hb) as H.
      by destruct (runs_unique _ _ _ _ _ Hrun H). }
  destruct (strict_mode_in_validation set_in_order cfg_one_unconfirmed)
    as (H & _ & _).
  destruct (H d Hbase) as (Htrue & Hfalse & Hone).
  destruct (Hone (list_to_map
                    [("public_access_confirmed", JBool true);
                     ("non_clone_intent_confirmed", JBool true);
                     ("asset_rights_warning_confirmed", JBool false)])
              "asset_rights_warning_confirmed") as (Hs & Hg & Hk).
  { reflexivity. }
  { split; [in_literal | split; [reflexivity|]].
    intros k Hk Hne. for_each_path Hk; [reflexivity | reflexivity |].
    by destruct Hne. }
  rewrite Hs in Htrue.
  exists d. split; [exact Hbase|]. split; [exact Htrue|].
  split; [exact Hfalse|]. split; [exact Hg|].
  apply (Hk "asset_rights_warning_confirmed"). in_literal.
Defined.
